(** * Daily report service (index.js): a shallow embedding

    The service triggers a Dify workflow over HTTP, polls the run until it
    is terminal, renders the outputs as an HTML document and mails it; any
    failure is turned into an error mail.  The embedding follows index.js
    function by function:

    - [Module JS]: the JavaScript values the script handles (parsed JSON
      payloads and the object literals it builds), with the language
      operations it applies to them: truthiness, [===] against a string
      literal, property access, the conversion to a string (which throws
      on some objects), the printing of numbers and [JSON.stringify];
    - an error/state monad [M]: [async] functions become computations that
      either return or throw, over a trace of the calls made to the outside
      world (axios, setTimeout, console, nodemailer);
    - [Section Service]: the functions of index.js, with the outside world
      (HTTP replies, SMTP replies, the clock, [process.env], the locale
      formatting of dates) as section variables. *)

From Stdlib Require Import ZArith List String Ascii Bool Lia DecimalString.
Import ListNotations.
Local Open Scope string_scope.
Local Open Scope Z_scope.

(** ** JavaScript values *)

Module JS.

#[local] Set Warnings "-register-all".

(** The values are those of parsed JSON and of the object literals the
    script builds: no functions, no symbols.  Numbers are the integer ones
    (the script only passes payload numbers through and prints them):
    [VNum n] is the Number nearest to the integer [n], which is what an
    integer literal denotes; [n] itself up to 2^53.  An object is the list
    of its own properties in enumeration order. *)
Inductive value : Type :=
| VUndefined
| VNull
| VBool (b : bool)
| VNum (n : Z)
| VStr (s : string)
| VArr (items : list value)
| VObj (fields : list (string * value)).

(** ToBoolean: what [if (v)], [!v], [a || b] and [a && b] test. *)
Definition truthy (v : value) : bool :=
  match v with
  | VUndefined | VNull => false
  | VBool b => b
  | VNum n => negb (n =? 0)
  | VStr s => negb (s =? "")%string
  | VArr _ | VObj _ => true
  end.

(** [a || b] *)
Definition or_else (a b : value) : value := if truthy a then a else b.

(** [v === 'lit'] for a string literal. *)
Definition strict_eq_str (v : value) (lit : string) : bool :=
  match v with
  | VStr s => (s =? lit)%string
  | _ => false
  end.

(** [typeof v === 'object' && v !== null] *)
Definition is_object (v : value) : bool :=
  match v with
  | VArr _ | VObj _ => true
  | _ => false
  end.

(** The value of own property [k], [undefined] when there is none (a
    parsed JSON object and an object literal hold each key once). *)
Fixpoint lookup (k : string) (fields : list (string * value)) : value :=
  match fields with
  | [] => VUndefined
  | (k', v) :: rest => if (k' =? k)%string then v else lookup k rest
  end.

(** [v.k] for the property names the script reads (data, status, outputs,
    workflow_run_id, task_id, error, elapsed_time, total_tokens, text,
    report, content, messageId): none of them is defined on the prototypes
    of strings, numbers, booleans or arrays, so on those the access is
    [undefined].  On [undefined] and [null] the access throws a TypeError:
    [None]. *)
Definition get (v : value) (k : string) : option value :=
  match v with
  | VUndefined | VNull => None
  | VObj fields => Some (lookup k fields)
  | _ => Some VUndefined
  end.

(** The decimal digits of an integer. *)
Definition Z_to_string (n : Z) : string := NilZero.string_of_int (Z.to_int n).

(** *** Numbers

    A Number is a binary64 float.  The Number nearest to the positive
    integer [m] is [m] rounded to 53 significant bits, a tie going to the
    even significand; from 2^1024 on the result stands for [Infinity]. *)
Definition round_double (m : Z) : Z :=
  let e := Z.log2 m - 52 in
  if e <=? 0 then m
  else
    let q := m / 2 ^ e in
    let r := m mod 2 ^ e in
    let half := 2 ^ (e - 1) in
    let q' := if r <? half then q
              else if half <? r then q + 1
              else if Z.even q then q else q + 1 in
    q' * 2 ^ e.

Definition is_finite (n : Z) : bool := round_double (Z.abs n) <? 2 ^ 1024.

(** Up to here every integer is a Number, and [i++] adds one exactly. *)
Definition MAX_EXACT : Z := 2 ^ 53.

Definition digits (m : Z) : Z := Z.of_nat (String.length (Z_to_string m)).

(** Number::toString prints the shortest decimal that still denotes the
    Number [x], the one nearest to [x] when several do (the even one on a
    tie).  The candidates with [k] significant digits are the two multiples
    of [10 ^ j] around [x], where [j] is the number of digits of [x] less
    [k]; [j] counts down as [k] counts up, and [x] itself is the last
    candidate. *)
Fixpoint shortest (j : nat) (x : Z) : Z :=
  match j with
  | O => x
  | S j' =>
      let p := 10 ^ Z.of_nat j in
      let lo := x / p * p in
      let hi := lo + p in
      let lo_ok := round_double lo =? x in
      let hi_ok := round_double hi =? x in
      if lo_ok && hi_ok then
        if x - lo <? hi - x then lo
        else if hi - x <? x - lo then hi
        else if Z.even (x / p) then lo else hi
      else if lo_ok then lo
      else if hi_ok then hi
      else shortest j' x
  end.

Fixpoint strip_zeros (fuel : nat) (v : Z) : Z :=
  match fuel with
  | O => v
  | S f => if v mod 10 =? 0 then strip_zeros f (v / 10) else v
  end.

(** The exponent form, used from 22 digits on: [d.ddde+N]. *)
Definition exponential (v : Z) : string :=
  let n := digits v in
  match Z_to_string (strip_zeros (Z.to_nat n) v) with
  | String d EmptyString => String d EmptyString
  | String d rest => String d ("." ++ rest)
  | EmptyString => EmptyString
  end ++ "e+" ++ Z_to_string (n - 1).

(** Number::toString (radix 10) of the Number [VNum n] stands for. *)
Definition Number_toString (n : Z) : string :=
  if n =? 0 then "0"
  else
    let x := round_double (Z.abs n) in
    (if n <? 0 then "-" else EmptyString)
      ++ (if 2 ^ 1024 <=? x then "Infinity"
          else
            let v := shortest (Z.to_nat (digits x - 1)) x in
            if digits v <=? 21 then Z_to_string v else exponential v).

Fixpoint join (sep : string) (parts : list string) : string :=
  match parts with
  | [] => EmptyString
  | [p] => p
  | p :: rest => p ++ sep ++ join sep rest
  end.

(** [fields] hold an own property [k]. *)
Definition has_own (k : string) (fields : list (string * value)) : bool :=
  existsb (fun kv => (fst kv =? k)%string) fields.

(** ToString: [String(v)] and the conversion a template literal applies to
    [${v}]; [None] is the TypeError "Cannot convert object to primitive
    value".  An object is converted by its [toString] method.  One without
    an own [toString] property inherits Object.prototype.toString and
    prints as "[object Object]"; with an own one, which in these values is
    data and not a function, the method is skipped, so is [valueOf] (own
    and not callable, or the inherited one, which returns the object), and
    the conversion throws.  An array is its elements joined by commas,
    [undefined] and [null] elements as the empty string, the others
    converted in turn. *)
Fixpoint ToString (v : value) : option string :=
  match v with
  | VUndefined => Some "undefined"
  | VNull => Some "null"
  | VBool true => Some "true"
  | VBool false => Some "false"
  | VNum n => Some (Number_toString n)
  | VStr s => Some s
  | VArr items =>
      option_map (join ",")
        ((fix elements (l : list value) : option (list string) :=
            match l with
            | [] => Some []
            | x :: rest =>
                match match x with
                      | VUndefined | VNull => Some EmptyString
                      | _ => ToString x
                      end with
                | Some s =>
                    match elements rest with
                    | Some ss => Some (s :: ss)
                    | None => None
                    end
                | None => None
                end
            end) items)
  | VObj fields =>
      if has_own "toString" fields then None else Some "[object Object]"
  end.

(** The conversion succeeds. *)
Definition printable (v : value) : bool :=
  match ToString v with
  | Some _ => true
  | None => false
  end.

(** *** JSON.stringify *)

Definition chr (n : nat) : string := String (ascii_of_nat n) EmptyString.
Definition dq : string := chr 34.
Definition backslash : string := chr 92.
Definition nl : string := chr 10.

Definition hex_digit (n : nat) : string :=
  match n with
  | 0 => "0" | 1 => "1" | 2 => "2" | 3 => "3" | 4 => "4" | 5 => "5"
  | 6 => "6" | 7 => "7" | 8 => "8" | 9 => "9" | 10 => "a" | 11 => "b"
  | 12 => "c" | 13 => "d" | 14 => "e" | _ => "f"
  end%nat.

(** One character of QuoteJSONString.  Strings are UTF-8 byte strings: the
    bytes of a code point above U+007F pass through unchanged. *)
Definition quote_char (c : ascii) : string :=
  let n := nat_of_ascii c in
  match n with
  | 8 => backslash ++ "b"
  | 9 => backslash ++ "t"
  | 10 => backslash ++ "n"
  | 12 => backslash ++ "f"
  | 13 => backslash ++ "r"
  | 34 => backslash ++ dq
  | 92 => backslash ++ backslash
  | _ => if (n <? 32)%nat
         then backslash ++ "u00" ++ hex_digit (n / 16) ++ hex_digit (n mod 16)
         else String c EmptyString
  end%nat.

Fixpoint quote_chars (s : string) : string :=
  match s with
  | EmptyString => EmptyString
  | String c rest => quote_char c ++ quote_chars rest
  end.

Definition QuoteJSONString (s : string) : string := dq ++ quote_chars s ++ dq.

(** The closing step of SerializeJSONObject / SerializeJSONArray. *)
Definition wrap (opening closing gap indent stepback : string)
    (partial : list string) : string :=
  match partial with
  | [] => opening ++ closing
  | _ =>
      if (gap =? "")%string
      then opening ++ join "," partial ++ closing
      else opening ++ nl ++ indent ++ join ("," ++ nl ++ indent) partial
             ++ nl ++ stepback ++ closing
  end.

(** SerializeJSONProperty of ECMA-262 with no replacer; [None] is
    [undefined].  A property whose value is [undefined] is left out of an
    object and written [null] in an array; a number that is not finite is
    written [null].  (No value here has a callable [toJSON].) *)
Fixpoint SerializeJSONProperty (gap indent : string) (v : value)
    {struct v} : option string :=
  match v with
  | VUndefined => None
  | VNull => Some "null"
  | VBool true => Some "true"
  | VBool false => Some "false"
  | VNum n => Some (if is_finite n then Number_toString n else "null")
  | VStr s => Some (QuoteJSONString s)
  | VArr items =>
      let stepback := indent in
      let indent := indent ++ gap in
      let partial :=
        map (fun x => match SerializeJSONProperty gap indent x with
                      | Some s => s
                      | None => "null"
                      end) items in
      Some (wrap "[" "]" gap indent stepback partial)
  | VObj fields =>
      let stepback := indent in
      let indent := indent ++ gap in
      let partial :=
        (fix members (fs : list (string * value)) : list string :=
           match fs with
           | [] => []
           | (k, x) :: rest =>
               match SerializeJSONProperty gap indent x with
               | Some s =>
                   (QuoteJSONString k ++ ":"
                      ++ (if (gap =? "")%string then EmptyString else " ") ++ s)
                     :: members rest
               | None => members rest
               end
           end) fields in
      Some (wrap "{" "}" gap indent stepback partial)
  end.

Fixpoint spaces (n : nat) : string :=
  match n with
  | O => EmptyString
  | S m => " " ++ spaces m
  end.

(** [JSON.stringify(v)] and [JSON.stringify(v, null, 2)]. *)
Definition JSON_stringify (v : value) : option string :=
  SerializeJSONProperty EmptyString EmptyString v.

Definition JSON_stringify_indent (v : value) (space : nat) : option string :=
  SerializeJSONProperty (spaces (Nat.min space 10)) EmptyString v.

(** Concatenating the result of a call that may be [undefined]. *)
Definition str_or_undefined (o : option string) : string :=
  match o with
  | Some s => s
  | None => "undefined"
  end.

End JS.
Import JS.

(** ** String methods of the configuration code *)

Module JSString.

(** [s.split(sep)] for a one-character separator: the fields between the
    separators, empty ones included; the empty string gives one empty
    field. *)
Fixpoint split (sep : ascii) (s : string) : list string :=
  match s with
  | EmptyString => [EmptyString]
  | String c rest =>
      if Ascii.eqb c sep then EmptyString :: split sep rest
      else match split sep rest with
           | field :: fields => String c field :: fields
           | [] => [String c EmptyString]
           end
  end.

Definition code (c : ascii) : nat := nat_of_ascii c.

(** WhiteSpace and LineTerminator of ECMA-262, as they stand in a UTF-8
    byte string: the one-byte ones (TAB, LF, VT, FF, CR, SP), U+00A0 in two
    bytes, and U+1680, U+2000 to U+200A, U+2028, U+2029, U+202F, U+205F,
    U+3000 and U+FEFF in three. *)
Definition space1 (a : ascii) : bool :=
  ((9 <=? code a) && (code a <=? 13) || (code a =? 32))%nat.

Definition space2 (a b : ascii) : bool :=
  ((code a =? 194) && (code b =? 160))%nat.

Definition space3 (a b c : ascii) : bool :=
  ((code a =? 225) && (code b =? 154) && (code c =? 128)
   || (code a =? 226) && (code b =? 128)
      && ((128 <=? code c) && (code c <=? 138)
          || (code c =? 168) || (code c =? 169) || (code c =? 175))
   || (code a =? 226) && (code b =? 129) && (code c =? 159)
   || (code a =? 227) && (code b =? 128) && (code c =? 128)
   || (code a =? 239) && (code b =? 187) && (code c =? 191))%nat.

(** Drops the white space a list of bytes starts with; [p2] and [p3]
    recognize the two- and three-byte characters in reading order. *)
Fixpoint drop_spaces (p2 : ascii -> ascii -> bool)
    (p3 : ascii -> ascii -> ascii -> bool) (l : list ascii) : list ascii :=
  match l with
  | a :: r1 =>
      if space1 a then drop_spaces p2 p3 r1
      else
        match r1 with
        | b :: r2 =>
            if p2 a b then drop_spaces p2 p3 r2
            else
              match r2 with
              | c :: r3 => if p3 a b c then drop_spaces p2 p3 r3 else l
              | [] => l
              end
        | [] => l
        end
  | [] => l
  end.

Definition trimStart_bytes (l : list ascii) : list ascii :=
  drop_spaces space2 space3 l.

(** From the end: the same on the reversed bytes, the characters read
    backwards. *)
Definition trimEnd_bytes (l : list ascii) : list ascii :=
  rev (drop_spaces (fun b a => space2 a b) (fun c b a => space3 a b c) (rev l)).

(** [s.trim()] *)
Definition trim (s : string) : string :=
  string_of_list_ascii
    (trimEnd_bytes (trimStart_bytes (list_ascii_of_string s))).

End JSString.

(** [process.env.EMAIL_RECIPIENTS.split(',').map(email => email.trim())] *)
Definition emailList_of (EMAIL_RECIPIENTS : string) : list string :=
  map JSString.trim (JSString.split "," EMAIL_RECIPIENTS).

(** ** Errors, the outside world, and the monad of [async] code *)

(** A thrown value.  Everything index.js catches is an [Error]: its own
    [new Error(msg)], a TypeError of the engine, or the error axios or
    nodemailer rejects with.  [response_data] is [error.response?.data]
    ([undefined] unless axios attached an HTTP response). *)
Record JsError : Type := mkJsError {
  message : string;
  response_data : value
}.

(** [new Error(msg)] *)
Definition Error (msg : string) : JsError :=
  {| message := msg; response_data := VUndefined |}.

(** The TypeError of reading property [k] of [undefined] or [null]. *)
Definition TypeError (v : value) (k : string) : JsError :=
  Error ("Cannot read properties of "
           ++ match v with VNull => "null" | _ => "undefined" end
           ++ " (reading '" ++ k ++ "')").

(** The TypeError of a conversion to a string that fails. *)
Definition ConversionError : JsError :=
  Error "Cannot convert object to primitive value".

(** A settled promise of the outside world. *)
Inductive reply (A : Type) : Type :=
| Resolve (a : A)
| Reject (e : JsError).
Arguments Resolve {A} a.
Arguments Reject {A} e.

(** The argument of [transporter.sendMail]. *)
Record mailOptions : Type := mkMail {
  from : string;
  to : list string;
  subject : string;
  html : string
}.

(** [new Date()]: the local calendar fields and the time of day. *)
Record Date : Type := mkDate {
  getFullYear : Z;
  getMonth : Z;
  getDate : Z;
  getHours : Z;
  getMinutes : Z;
  getSeconds : Z;
  getMilliseconds : Z
}.

(** The calls a run makes to the outside world, in the order made. *)
Inductive call : Type :=
| NewDate
| ConsoleLog (args : list value)
| ConsoleError (args : list value)
| AxiosPost (url : string) (body : value) (headers : list (string * string))
| AxiosGet (url : string) (headers : list (string * string))
| SetTimeout (delayMs : Z)
| SendMail (opts : mailOptions).

Definition is_NewDate (c : call) : bool :=
  match c with NewDate => true | _ => false end.
Definition is_AxiosPost (c : call) : bool :=
  match c with AxiosPost _ _ _ => true | _ => false end.
Definition is_AxiosGet (c : call) : bool :=
  match c with AxiosGet _ _ => true | _ => false end.
Definition is_SetTimeout (c : call) : bool :=
  match c with SetTimeout _ => true | _ => false end.
Definition is_SendMail (c : call) : bool :=
  match c with SendMail _ => true | _ => false end.
Definition is_console (c : call) : bool :=
  match c with ConsoleLog _ | ConsoleError _ => true | _ => false end.

(** How many calls of a kind a trace holds. *)
Definition count (p : call -> bool) (tr : list call) : nat :=
  List.length (filter p tr).

(** The mails handed to the transport, in order. *)
Fixpoint mails (tr : list call) : list mailOptions :=
  match tr with
  | [] => []
  | SendMail opts :: rest => opts :: mails rest
  | _ :: rest => mails rest
  end.

Inductive Result (A : Type) : Type :=
| Ok (a : A)
| Throw (e : JsError).
Arguments Ok {A} a.
Arguments Throw {A} e.

(** A computation runs from the trace so far to a result and the trace
    extended by the calls it made; a throw keeps the calls made before it. *)
Definition M (A : Type) : Type := list call -> Result A * list call.

Definition ret {A} (a : A) : M A := fun tr => (Ok a, tr).

Definition throw {A} (e : JsError) : M A := fun tr => (Throw e, tr).

Definition bind {A B} (m : M A) (k : A -> M B) : M B :=
  fun tr =>
    match m tr with
    | (Ok a, tr') => k a tr'
    | (Throw e, tr') => (Throw e, tr')
    end.

(** [try { m } catch (error) { handler }] *)
Definition try_catch {A} (m : M A) (handler : JsError -> M A) : M A :=
  fun tr =>
    match m tr with
    | (Ok a, tr') => (Ok a, tr')
    | (Throw e, tr') => handler e tr'
    end.

Definition emit (c : call) : M unit := fun tr => (Ok tt, (tr ++ [c])%list).

Declare Scope js_scope.
Delimit Scope js_scope with js.
Notation "x <- m ;; k" := (bind m (fun x => k))
  (at level 61, m at next level, right associativity) : js_scope.
Notation "m ;; k" := (bind m (fun _ => k))
  (at level 61, right associativity) : js_scope.
Local Open Scope js_scope.

Definition console_log (args : list value) : M unit := emit (ConsoleLog args).
Definition console_error (args : list value) : M unit := emit (ConsoleError args).

(** [await new Promise(resolve => setTimeout(resolve, delayMs))] *)
Definition setTimeout (delayMs : Z) : M unit := emit (SetTimeout delayMs).

(** [v.k], throwing where JavaScript does. *)
Definition prop (v : value) (k : string) : M value :=
  match get v k with
  | Some x => ret x
  | None => throw (TypeError v k)
  end.

(** The outcome of a conversion to a string, throwing where it fails. *)
Definition converted (text : option string) : M string :=
  match text with
  | Some s => ret s
  | None => throw ConversionError
  end.

(** [${v}] in a template literal, and [String(v)]. *)
Definition interpolate (v : value) : M string := converted (ToString v).

Definition settle {A} (r : reply A) : Result A :=
  match r with
  | Resolve a => Ok a
  | Reject e => Throw e
  end.

(** What [res.status(code).json(body)] sends; [res.json(body)] sends 200. *)
Record response : Type := mkResponse {
  statusCode : Z;
  json : value
}.

(** ** index.js *)

Section Service.

(** [process.env] *)
Variable process_env : string -> option string.

(** The n-th [new Date()] of the run. *)
Variable clock : nat -> Date.

(** What the workflow engine answers to the n-th POST and the n-th GET:
    [response.data] of the resolved promise, or the error it rejects with. *)
Variable axios_post_reply : nat -> string -> value -> reply value.
Variable axios_get_reply : nat -> string -> reply value.

(** What the SMTP transport answers to the n-th [sendMail]: the [info]
    object, or the error it rejects with. *)
Variable sendMail_reply : nat -> mailOptions -> reply value.

(** Locale formatting of the runtime.  The date-only formats are functions
    of the local calendar day (year, month, day of month). *)
Variable tr_TR_date : Z -> Z -> Z -> string.
Variable tr_TR_long_date : Z -> Z -> Z -> string.
Variable tr_TR_date_time : Date -> string.
Variable toISOString : Date -> string.

(** [d.toLocaleDateString('tr-TR')] *)
Definition toLocaleDateString (d : Date) : string :=
  tr_TR_date (getFullYear d) (getMonth d) (getDate d).

(** [d.toLocaleDateString('tr-TR', {year: 'numeric', month: 'long', day: 'numeric'})] *)
Definition toLocaleDateString_long (d : Date) : string :=
  tr_TR_long_date (getFullYear d) (getMonth d) (getDate d).

(** [d.toLocaleString('tr-TR')] *)
Definition toLocaleString (d : Date) : string := tr_TR_date_time d.

(** [process.env.NAME]: a string or [undefined]. *)
Definition env (name : string) : value :=
  match process_env name with
  | Some s => VStr s
  | None => VUndefined
  end.

(** [${process.env.NAME}]: the variable, or the text "undefined". *)
Definition env_text (name : string) : string :=
  match process_env name with
  | Some s => s
  | None => "undefined"
  end.

(** [${process.env.NAME || 'fallback'}]: an unset or empty variable gives
    the fallback. *)
Definition env_or (name fallback : string) : string :=
  match process_env name with
  | Some s => if (s =? "")%string then fallback else s
  | None => fallback
  end.

Definition new_Date : M Date :=
  fun tr => (Ok (clock (count is_NewDate tr)), (tr ++ [NewDate])%list).

Definition axios_post (url : string) (body : value)
    (headers : list (string * string)) : M value :=
  fun tr => (settle (axios_post_reply (count is_AxiosPost tr) url body),
             (tr ++ [AxiosPost url body headers])%list).

Definition axios_get (url : string) (headers : list (string * string)) : M value :=
  fun tr => (settle (axios_get_reply (count is_AxiosGet tr) url),
             (tr ++ [AxiosGet url headers])%list).

Definition transporter_sendMail (opts : mailOptions) : M value :=
  fun tr => (settle (sendMail_reply (count is_SendMail tr) opts),
             (tr ++ [SendMail opts])%list).

(** Email recipient list *)
Variable emailList : list string.

(** Dify API configuration: each is a string or [undefined], and shows in
    a template literal as [env_text] of its variable. *)
Definition difyConfig_apiKey : value := env "DIFY_API_KEY".
Definition difyConfig_apiEndpoint : value := env "DIFY_API_ENDPOINT".

(** The arguments of [axios.post] in [triggerDifyWorkflow]; [d1] and [d2]
    are the two [new Date()] of the [inputs] literal. *)
Definition run_url : string :=
  env_text "DIFY_API_ENDPOINT" ++ "/workflows/run".

Definition run_body (d1 d2 : Date) : value :=
  let inputs :=
    VObj [("date", VStr (toLocaleDateString d1));
          ("timestamp", VStr (toISOString d2));
          ("report_type", VStr "daily")] in
  VObj [("inputs", inputs);
        ("response_mode", or_else (env "DIFY_RESPONSE_MODE") (VStr "blocking"));
        ("user", or_else (env "DIFY_USER_ID") (VStr "daily-report-system"))].

Definition run_headers : list (string * string) :=
  [("Authorization", "Bearer " ++ env_text "DIFY_API_KEY");
   ("Content-Type", "application/json")].

(** Function to trigger Dify workflow *)
Definition triggerDifyWorkflow : M value :=
  try_catch
    (console_log [VStr "Triggering Dify workflow..."] ;;
     d1 <- new_Date ;;
     d2 <- new_Date ;;
     data <- axios_post run_url (run_body d1 d2) run_headers ;;
     workflow_run_id <- prop data "workflow_run_id" ;;
     console_log [VStr "Workflow response received:";
                  or_else workflow_run_id (VStr "completed")] ;;
     (* Handle blocking mode response *)
     data_data <- prop data "data" ;;
     succeeded <- (if truthy data_data then
                     status <- prop data_data "status" ;;
                     ret (strict_eq_str status "succeeded")
                   else ret false) ;;
     if succeeded then
       outputs <- prop data_data "outputs" ;;
       ret (VObj [("workflow_run_id", workflow_run_id);
                  ("outputs", outputs);
                  ("status", VStr "succeeded")])
     else
       (* Handle streaming mode or pending response *)
       task_id <- prop data "task_id" ;;
       ret (VObj [("workflow_run_id", workflow_run_id);
                  ("task_id", task_id)]))
    (fun error =>
       console_error [VStr "Error triggering Dify workflow:";
                      or_else (response_data error) (VStr (message error))] ;;
       throw error).

(** The arguments of [axios.get] in [waitForWorkflowCompletion].  The URL
    is a template literal over the run identifier: [None] when the
    identifier cannot be converted. *)
Definition status_url (workflowRunId : value) : option string :=
  option_map (fun id => env_text "DIFY_API_ENDPOINT" ++ "/workflows/run/" ++ id)
    (ToString workflowRunId).

Definition status_headers : list (string * string) :=
  [("Authorization", "Bearer " ++ env_text "DIFY_API_KEY")].

(** The text of the log line of a turn. *)
Definition checking_text (status : string) (i maxAttempts : Z) : string :=
  "Checking workflow status: " ++ status
    ++ " (attempt " ++ Number_toString (i + 1) ++ "/"
    ++ Number_toString maxAttempts ++ ")".

(** One turn of the polling loop: [Some result] is the [return] inside the
    loop, [None] falls out of the [try] into the next turn.  The three
    template literals of the turn (the URL, the log line, the message of
    the error) convert a value of the run to a string, in the order the
    source evaluates them, and throw inside the [try] when that fails. *)
Definition poll_attempt (workflowRunId : value) (maxAttempts delayMs i : Z)
    : M (option value) :=
  try_catch
    (url <- converted (status_url workflowRunId) ;;
     data <- axios_get url status_headers ;;
     status <- prop data "status" ;;
     status_text <- interpolate status ;;
     console_log [VStr (checking_text status_text i maxAttempts)] ;;
     if strict_eq_str status "succeeded" then
       outputs <- prop data "outputs" ;;
       elapsed_time <- prop data "elapsed_time" ;;
       total_tokens <- prop data "total_tokens" ;;
       ret (Some (VObj [("outputs", outputs);
                        ("status", VStr "succeeded");
                        ("elapsed_time", elapsed_time);
                        ("total_tokens", total_tokens)]))
     else if strict_eq_str status "failed" || strict_eq_str status "stopped" then
       error <- prop data "error" ;;
       error_text <- interpolate (or_else error (VStr "Unknown error")) ;;
       throw (Error ("Workflow " ++ status_text ++ ": " ++ error_text))
     else
       (* Status is 'running', wait and retry *)
       setTimeout delayMs ;;
       ret None)
    (fun error =>
       console_error [VStr "Error checking workflow status:";
                      or_else (response_data error) (VStr (message error))] ;;
       throw error).

(** [for (let i = 0; i < maxAttempts; i++) { ... }] followed by the throw
    after the loop.  [attempts_left] is the number of turns the loop test
    [i < maxAttempts] still lets through, [Z.to_nat (maxAttempts - i)].
    The counter is followed as an integer, which it is up to [MAX_EXACT];
    the statements about a generic [maxAttempts] stay within that bound
    (the only call in index.js passes the default, 30). *)
Fixpoint poll_loop (attempts_left : nat) (workflowRunId : value)
    (maxAttempts delayMs i : Z) : M value :=
  match attempts_left with
  | O => throw (Error "Workflow timeout - exceeded maximum attempts")
  | S n =>
      r <- poll_attempt workflowRunId maxAttempts delayMs i ;;
      match r with
      | Some result => ret result
      | None => poll_loop n workflowRunId maxAttempts delayMs (i + 1)
      end
  end.

(** Function to wait for workflow completion (for streaming mode) *)
Definition waitForWorkflowCompletion (workflowRunId : value)
    (maxAttempts delayMs : Z) : M value :=
  if negb (truthy workflowRunId) then ret VNull
  else poll_loop (Z.to_nat (maxAttempts - 0)) workflowRunId maxAttempts delayMs 0.

(** The defaults of [maxAttempts] and [delayMs]. *)
Definition default_maxAttempts : Z := 30.
Definition default_delayMs : Z := 10000.

(** The HTML template of [formatReport]. *)
Definition htmlContent (date reportContent year company : string) : string :=
  "
    <!DOCTYPE html>
    <html>
    <head>
      <meta charset="
    ++ dq
    ++ "UTF-8"
    ++ dq
    ++ ">
      <style>
        body {
          font-family: Arial, sans-serif;
          line-height: 1.6;
          color: #333;
          max-width: 800px;
          margin: 0 auto;
          padding: 20px;
        }
        .header {
          background-color: #f4f4f4;
          padding: 20px;
          border-radius: 5px;
          margin-bottom: 20px;
        }
        .content {
          background-color: #ffffff;
          padding: 20px;
          border: 1px solid #ddd;
          border-radius: 5px;
        }
        h1 {
          color: #2c3e50;
        }
        h2 {
          color: #34495e;
          border-bottom: 2px solid #ecf0f1;
          padding-bottom: 10px;
        }
        pre {
          background-color: #f5f5f5;
          padding: 10px;
          border-radius: 3px;
          overflow-x: auto;
        }
        .footer {
          margin-top: 30px;
          padding-top: 20px;
          border-top: 1px solid #eee;
          font-size: 12px;
          color: #777;
        }
      </style>
    </head>
    <body>
      <div class="
    ++ dq
    ++ "header"
    ++ dq
    ++ ">
        <h1>Günlük Rapor - "
    ++ date
    ++ "</h1>
      </div>
      <div class="
    ++ dq
    ++ "content"
    ++ dq
    ++ ">
        "
    ++ reportContent
    ++ "
      </div>
      <div class="
    ++ dq
    ++ "footer"
    ++ dq
    ++ ">
        <p>Bu rapor otomatik olarak oluşturulmuştur.</p>
        <p>© "
    ++ year
    ++ " "
    ++ company
    ++ "</p>
      </div>
    </body>
    </html>
  ".

(** [${process.env.COMPANY_NAME || 'Şirketiniz'}] in the footer. *)
Definition company_name : string := env_or "COMPANY_NAME" "Şirketiniz".

(** The [if] chain of [formatReport] that sets [reportContent]. *)
Definition select_reportContent (output : value) : M value :=
  (* Check if output has a specific structure *)
  if is_object output then
    (* If output has specific fields, format them *)
    text <- prop output "text" ;;
    report <- prop output "report" ;;
    content <- prop output "content" ;;
    if truthy text then ret text
    else if truthy report then ret report
    else if truthy content then ret content
    else
      (* Convert object to formatted HTML *)
      ret (VStr ("<pre>" ++ str_or_undefined (JSON_stringify_indent output 2)
                   ++ "</pre>"))
  else
    match output with
    | VStr _ => ret output
    | _ => text <- interpolate output ;; ret (VStr text)
    end.

(** Function to format the report.  The template literal converts
    [reportContent] before it evaluates [new Date().getFullYear()]: a
    content that cannot be converted throws after the first clock reading. *)
Definition formatReport (workflowOutput : value) : M string :=
  (* Extract the actual output from the workflow response *)
  workflowOutput_outputs <- prop workflowOutput "outputs" ;;
  let output := or_else workflowOutput_outputs workflowOutput in
  d <- new_Date ;;
  let date := toLocaleDateString_long d in
  reportContent <- select_reportContent output ;;
  reportContent_text <- interpolate reportContent ;;
  y <- new_Date ;;
  ret (htmlContent date reportContent_text
         (Number_toString (getFullYear y)) company_name).

(** The [mailOptions] literal of [sendEmail]; [d] is its [new Date()]. *)
Definition mailOptions_for (reportContent : string) (d : Date) : mailOptions :=
  {| from := dq ++ env_or "EMAIL_FROM_NAME" "Daily Report System"
               ++ dq ++ " <" ++ env_text "EMAIL_USER" ++ ">";
     to := emailList;
     subject := "Günlük Rapor - " ++ toLocaleDateString d;
     html := reportContent |}.

(** Function to send email *)
Definition sendEmail (reportContent : string) : M value :=
  try_catch
    (d <- new_Date ;;
     info <- transporter_sendMail (mailOptions_for reportContent d) ;;
     messageId <- prop info "messageId" ;;
     console_log [VStr "Email sent successfully:"; messageId] ;;
     ret info)
    (fun error =>
       console_error [VStr "Error sending email:"; VStr (message error)] ;;
       throw error).

(** The HTML template of the error notification. *)
Definition errorHtml (date msg details : string) : string :=
  "
        <!DOCTYPE html>
        <html>
        <head>
          <meta charset="
    ++ dq
    ++ "UTF-8"
    ++ dq
    ++ ">
          <style>
            body { font-family: Arial, sans-serif; padding: 20px; }
            .error { color: #d32f2f; }
          </style>
        </head>
        <body>
          <h2 class="
    ++ dq
    ++ "error"
    ++ dq
    ++ ">Hata: Günlük Rapor Oluşturulamadı</h2>
          <p><strong>Tarih:</strong> "
    ++ date
    ++ "</p>
          <p><strong>Hata Mesajı:</strong> "
    ++ msg
    ++ "</p>
          <p><strong>Detaylar:</strong> "
    ++ details
    ++ "</p>
          <p>Lütfen sistem yöneticisi ile iletişime geçin.</p>
        </body>
        </html>
      ".

(** Step 2 of [runDailyReport]: handle response based on mode. *)
Definition handle_response (workflowResult : value) : M value :=
  status <- prop workflowResult "status" ;;
  outputs <- prop workflowResult "outputs" ;;
  if strict_eq_str status "succeeded" && truthy outputs then
    (* Blocking mode - we already have the output *)
    ret workflowResult
  else
    workflow_run_id <- prop workflowResult "workflow_run_id" ;;
    if truthy workflow_run_id then
      (* Streaming mode or pending - wait for completion *)
      console_log [VStr "Workflow run ID:"; workflow_run_id] ;;
      waitForWorkflowCompletion workflow_run_id
        default_maxAttempts default_delayMs
    else
      throw (Error "Invalid workflow response - no outputs or run ID").

(** Steps 3 and 4 of [runDailyReport], to the end of the [try] block. *)
Definition report_and_send (finalOutput : value) : M unit :=
  console_log [VStr "Workflow completed successfully"] ;;
  (* Step 3: Format the report *)
  formattedReport <- formatReport finalOutput ;;
  (* Step 4: Send email *)
  sendEmail formattedReport ;;
  d <- new_Date ;;
  console_log [VStr ("[" ++ toISOString d
                       ++ "] Daily report completed successfully")].

(** The [try] block of [runDailyReport]. *)
Definition pipeline : M unit :=
  (* Step 1: Trigger Dify workflow *)
  workflowResult <- triggerDifyWorkflow ;;
  console_log [VStr "Workflow triggered successfully"] ;;
  (* Step 2: Handle response based on mode *)
  finalOutput <- handle_response workflowResult ;;
  report_and_send finalOutput.

(** The [errorHtml] document of the [catch] block; [d] is its [new Date()]. *)
Definition error_document (error : JsError) (d : Date) : string :=
  errorHtml (toLocaleString d) (message error)
    (if truthy (response_data error)
     then str_or_undefined (JSON_stringify (response_data error))
     else "N/A").

(** The [catch] block of [runDailyReport]. *)
Definition notify_failure (error : JsError) : M unit :=
  d <- new_Date ;;
  console_error [VStr ("[" ++ toISOString d ++ "] Daily report failed:");
                 VStr (message error)] ;;
  (* Send error notification *)
  try_catch
    (d' <- new_Date ;;
     sendEmail (error_document error d') ;;
     ret tt)
    (fun emailError =>
       console_error [VStr "Failed to send error notification:";
                      VStr (message emailError)]).

(** Main function to run the daily report *)
Definition runDailyReport : M unit :=
  d <- new_Date ;;
  console_log [VStr ("[" ++ toISOString d
                       ++ "] Starting daily report generation...")] ;;
  try_catch pipeline notify_failure.

(** Manual trigger endpoint: [app.post('/trigger', ...)].  The result is
    the response the handler sends. *)
Definition post_trigger : M response :=
  try_catch
    (runDailyReport ;;
     ret {| statusCode := 200;
            json := VObj [("status", VStr "Report sent successfully")] |})
    (fun error =>
       ret {| statusCode := 500;
              json := VObj [("error", VStr (message error))] |}).

(** Status endpoint: [app.get('/', ...)].  The response the handler sends;
    it makes no call. *)
Definition get_root : response :=
  {| statusCode := 200;
     json := VObj [("status", VStr "Running");
                   ("nextRun", VStr "9:00 AM Turkey Time");
                   ("recipients", VNum (Z.of_nat (List.length emailList)))] |}.

Arguments htmlContent : simpl never.
Arguments errorHtml : simpl never.

(** ** Vocabulary of the statements *)

(** A status other than the three the loop knows. *)
Definition unrecognized_status (status : value) : bool :=
  negb (strict_eq_str status "succeeded")
  && negb (strict_eq_str status "failed")
  && negb (strict_eq_str status "stopped").

(** A status on which the loop neither returns nor throws: one other than
    the three the loop knows, which the log line can show. *)
Definition pending_status (status : value) : bool :=
  unrecognized_status status && printable status.

(** [response.data.status] of the n-th status poll of a run, requested at
    [url], when the request resolves with data whose [status] can be
    read. *)
Definition polled_status (n : nat) (url : string) : option value :=
  match axios_get_reply n url with
  | Resolve data => get data "status"
  | Reject _ => None
  end.

Definition pending_at (n : nat) (url : string) : bool :=
  match polled_status n url with
  | Some status => pending_status status
  | None => false
  end.

Definition running_at (n : nat) (url : string) : bool :=
  match polled_status n url with
  | Some status => strict_eq_str status "running"
  | None => false
  end.

(** The calls of the loop. *)
Definition status_request (url : string) : call :=
  AxiosGet url status_headers.

Definition checking_log (status : string) (i maxAttempts : Z) : call :=
  ConsoleLog [VStr (checking_text status i maxAttempts)].

(** What the log line shows of the status of poll [n]. *)
Definition polled_text (n : nat) (url : string) : string :=
  match polled_status n url with
  | Some status =>
      match ToString status with
      | Some text => text
      | None => EmptyString
      end
  | None => EmptyString
  end.

(** The calls of [k] turns that all sleep, the first being turn [i] of the
    loop and poll number [n] of the run. *)
Fixpoint pending_rounds (k : nat) (url : string)
    (maxAttempts delayMs i : Z) (n : nat) : list call :=
  match k with
  | O => []
  | S k' =>
      status_request url
        :: checking_log (polled_text n url) i maxAttempts
        :: SetTimeout delayMs
        :: pending_rounds k' url maxAttempts delayMs (i + 1) (S n)
  end.

(** The errors of [waitForWorkflowCompletion].  The message of the first
    holds the text of [response.data.error || 'Unknown error']. *)
Definition WorkflowFailed (status error_text : string) : JsError :=
  Error ("Workflow " ++ status ++ ": " ++ error_text).

(** What a turn throws on a failed or stopped status whose answer carries
    [error]: the WorkflowFailed error, or the TypeError of the conversion
    when [error] cannot be converted to a string. *)
Definition thrown_on (status : string) (error : value) : JsError :=
  match ToString (or_else error (VStr "Unknown error")) with
  | Some error_text => WorkflowFailed status error_text
  | None => ConversionError
  end.

Definition WorkflowTimeout : JsError :=
  Error "Workflow timeout - exceeded maximum attempts".

(** The extraction policy of the formatter in the words of the
    specification: an ordered list of keys, tried in sequence, the first
    one holding a usable (truthy) value wins; when none does, the whole
    output mapping is serialized into a preformatted block. *)
Definition extraction_keys : list string := ["text"; "report"; "content"].

Fixpoint first_match (keys : list string) (output : value) : option value :=
  match keys with
  | [] => None
  | k :: rest =>
      match get output k with
      | Some v => if truthy v then Some v else first_match rest output
      | None => first_match rest output
      end
  end.

Definition serialized_fallback (output : value) : string :=
  "<pre>" ++ str_or_undefined (JSON_stringify_indent output 2) ++ "</pre>".

(** The body of the report, [None] when the selected value cannot be
    converted to a string. *)
Definition report_body (output : value) : option string :=
  if is_object output then
    match first_match extraction_keys output with
    | Some v => ToString v
    | None => Some (serialized_fallback output)
    end
  else ToString output.

(** [sub] occurs in [s]. *)
Definition contains (s sub : string) : Prop :=
  exists before after, s = before ++ sub ++ after.

(** The same as a test, to run on a concrete document. *)
Fixpoint occurs (sub s : string) : bool :=
  String.prefix sub s
  || match s with
     | EmptyString => false
     | String _ rest => occurs sub rest
     end.

(** The local calendar day of a clock reading. *)
Definition calendar_day (d : Date) : Z * Z * Z :=
  (getFullYear d, getMonth d, getDate d).

Definition not_NewDate (c : call) : bool := negb (is_NewDate c).

(** The console line [sendEmail] ends with, according to what the
    transport answered. *)
Definition sendEmail_log (answer : reply value) : call :=
  match answer with
  | Resolve info =>
      match get info "messageId" with
      | Some messageId => ConsoleLog [VStr "Email sent successfully:"; messageId]
      | None =>
          ConsoleError [VStr "Error sending email:";
                        VStr (message (TypeError info "messageId"))]
      end
  | Reject e => ConsoleError [VStr "Error sending email:"; VStr (message e)]
  end.

(** The result of [sendEmail], according to what the transport answered. *)
Definition sendEmail_result (answer : reply value) : Result value :=
  match answer with
  | Resolve info =>
      match get info "messageId" with
      | Some _ => Ok info
      | None => Throw (TypeError info "messageId")
      end
  | Reject e => Throw e
  end.

(** The mail of the error notification for [error], built and sent when
    the trace is [tr]. *)
Definition error_mail (error : JsError) (tr : list call) : mailOptions :=
  mailOptions_for
    (error_document error (clock (S (count is_NewDate tr))))
    (clock (S (S (count is_NewDate tr)))).

(** The calls of [notify_failure error] from trace [tr] up to the hand-over
    of the error mail to the transport. *)
Definition notify_calls (error : JsError) (tr : list call) : list call :=
  [NewDate;
   ConsoleError [VStr ("[" ++ toISOString (clock (count is_NewDate tr))
                         ++ "] Daily report failed:");
                 VStr (message error)];
   NewDate;
   NewDate;
   SendMail (error_mail error tr)].

(** What [runDailyReport] logs before its [try] block. *)
Definition starting_calls (tr : list call) : list call :=
  [NewDate;
   ConsoleLog [VStr ("[" ++ toISOString (clock (count is_NewDate tr))
                       ++ "] Starting daily report generation...")]].

(** [v.k] where it cannot throw ([undefined] where it would). *)
Definition field (v : value) (k : string) : value :=
  match get v k with
  | Some x => x
  | None => VUndefined
  end.

(** A blocking-mode answer to the run request:
    [data.data && data.data.status === 'succeeded'], with its outputs and
    its run identifier. *)
Definition blocking_succeeded (data : value) : bool :=
  strict_eq_str (field (field data "data") "status") "succeeded".

Definition blocking_outputs (data : value) : value :=
  field (field data "data") "outputs".

Definition run_id (data : value) : value := field data "workflow_run_id".

(** What the engine answers to the run request [triggerDifyWorkflow]
    makes when the trace is [tr]. *)
Definition start_answer (tr : list call) : reply value :=
  axios_post_reply (count is_AxiosPost tr) run_url
    (run_body (clock (count is_NewDate tr)) (clock (S (count is_NewDate tr)))).

(** The calls of a [triggerDifyWorkflow] that returns, started when the
    trace is [tr] and answered with run identifier [rid]. *)
Definition start_calls (rid : value) (tr : list call) : list call :=
  [ConsoleLog [VStr "Triggering Dify workflow..."];
   NewDate;
   NewDate;
   AxiosPost run_url
     (run_body (clock (count is_NewDate tr)) (clock (S (count is_NewDate tr))))
     run_headers;
   ConsoleLog [VStr "Workflow response received:";
               or_else rid (VStr "completed")]].

(** The workflow result [triggerDifyWorkflow] builds from a blocking-mode
    answer. *)
Definition blocking_result (data : value) : value :=
  VObj [("workflow_run_id", run_id data);
        ("outputs", blocking_outputs data);
        ("status", VStr "succeeded")].

(** The document [formatReport] renders around [body] when the trace is
    [tr]. *)
Definition report_document (body : string) (tr : list call) : string :=
  htmlContent
    (toLocaleDateString_long (clock (count is_NewDate tr)))
    body
    (Number_toString (getFullYear (clock (S (count is_NewDate tr)))))
    company_name.

(** The report mail of a run of [report_and_send] whose report has the
    body [body], started when the trace is [tr]. *)
Definition report_mail (body : string) (tr : list call) : mailOptions :=
  mailOptions_for (report_document body tr)
    (clock (S (S (count is_NewDate tr)))).

(** The first call a computation makes is [c]. *)
Definition starts_with {A} (c : call) (m : M A) : Prop :=
  forall tr, exists rest, snd (m tr) = (tr ++ c :: rest)%list.

(** A computation only ever extends the trace. *)
Definition appends {A} (m : M A) : Prop :=
  forall tr, exists ext, snd (m tr) = (tr ++ ext)%list.

(** The workflow result [triggerDifyWorkflow] builds from an answer that
    is not a blocking-mode success: the run identifier and the task
    identifier, with no status and no outputs. *)
Definition async_result (data : value) : value :=
  VObj [("workflow_run_id", run_id data);
        ("task_id", field data "task_id")].

(** The result [waitForWorkflowCompletion] builds from the data of a poll
    that reported succeeded. *)
Definition succeeded_result (data : value) : value :=
  VObj [("outputs", field data "outputs");
        ("status", VStr "succeeded");
        ("elapsed_time", field data "elapsed_time");
        ("total_tokens", field data "total_tokens")].

(** What [console.error] prints of a caught error in [triggerDifyWorkflow]
    and in the polling loop: [error.response?.data || error.message]. *)
Definition error_detail (error : JsError) : value :=
  or_else (response_data error) (VStr (message error)).

(** The time asked of [setTimeout] over a trace, in milliseconds. *)
Fixpoint slept (tr : list call) : Z :=
  match tr with
  | [] => 0
  | SetTimeout delayMs :: rest => delayMs + slept rest
  | _ :: rest => slept rest
  end.

(** What a stretch of trace holds when it comes from at most [n] turns of
    the polling loop: at most [n] status requests, no more sleeps than
    status requests, each of [delayMs], no run request and no mail. *)
Definition polling_only (n : nat) (delayMs : Z) (ext : list call) : Prop :=
  (count is_AxiosGet ext <= n)%nat
  /\ (count is_SetTimeout ext <= count is_AxiosGet ext)%nat
  /\ slept ext = delayMs * Z.of_nat (count is_SetTimeout ext)
  /\ count is_AxiosPost ext = O
  /\ count is_SendMail ext = O.

(** The poll whose answer a returned result [v] was built from: it
    resolved with data whose status is succeeded. *)
Definition from_succeeded_poll (n : nat) (workflowRunId v : value) : Prop :=
  exists url data,
    status_url workflowRunId = Some url
    /\ axios_get_reply n url = Resolve data
    /\ get data "status" = Some (VStr "succeeded")
    /\ v = succeeded_result data.

(** A stretch of trace with no HTTP call and no sleep. *)
Definition quiet (ext : list call) : Prop :=
  count is_AxiosPost ext = O
  /\ count is_AxiosGet ext = O
  /\ count is_SetTimeout ext = O
  /\ slept ext = 0.

(** Console output, clock readings and mails. *)
Definition is_local (c : call) : bool :=
  is_console c || is_NewDate c || is_SendMail c.

(** The run request [triggerDifyWorkflow] makes when the trace is [tr]. *)
Definition run_request (tr : list call) : call :=
  AxiosPost run_url
    (run_body (clock (count is_NewDate tr)) (clock (S (count is_NewDate tr))))
    run_headers.

(** Every mail of the list goes to the recipient list. *)
Definition to_recipients (ms : list mailOptions) : Prop :=
  Forall (fun m => to m = emailList) ms.

(** The trace when step 2 starts, after a [triggerDifyWorkflow] started at
    [tr] that returned with run identifier [rid]. *)
Definition triggered (rid : value) (tr : list call) : list call :=
  (tr ++ start_calls rid tr
      ++ [ConsoleLog [VStr "Workflow triggered successfully"]])%list.

(** The error of step 2 when there is neither a usable result nor a run
    identifier. *)
Definition InvalidResponse : JsError :=
  Error "Invalid workflow response - no outputs or run ID".

(** The trace when the polling of run [rid] starts, in a run of
    [runDailyReport] started at [tr] whose run request was answered with
    that run identifier and no usable result. *)
Definition polling_starts (rid : value) (tr : list call) : list call :=
  (triggered rid (tr ++ starting_calls tr)
     ++ [ConsoleLog [VStr "Workflow run ID:"; rid]])%list.

(** The members SerializeJSONObject collects for the properties [fields]:
    one per property whose value serializes, in order. *)
Fixpoint object_members (gap indent : string) (fields : list (string * value))
    : list string :=
  match fields with
  | [] => []
  | (k, x) :: rest =>
      match SerializeJSONProperty gap indent x with
      | Some s =>
          (QuoteJSONString k ++ ":"
             ++ (if (gap =? "")%string then EmptyString else " ") ++ s)
            :: object_members gap indent rest
      | None => object_members gap indent rest
      end
  end.

(** A call that is a status request or console output. *)
Definition is_poll_or_console (c : call) : bool :=
  is_AxiosGet c || is_console c.

(** ** Traces *)

Lemma count_app (p : call -> bool) (a b : list call) :
  count p (a ++ b)%list = (count p a + count p b)%nat.
Proof. unfold count. rewrite filter_app. apply length_app. Qed.

Lemma count_snoc (p : call -> bool) (a : list call) (c : call) :
  count p (a ++ [c])%list = (count p a + if p c then 1 else 0)%nat.
Proof. rewrite count_app. unfold count. simpl. destruct (p c); reflexivity. Qed.

Lemma count_cons (p : call -> bool) (c : call) (l : list call) :
  count p (c :: l) = ((if p c then 1 else 0) + count p l)%nat.
Proof. unfold count. cbn [filter]. now destruct (p c). Qed.

Lemma count_nil (p : call -> bool) : count p [] = O.
Proof. reflexivity. Qed.

(** Counting over a trace extended by explicit calls. *)
Ltac count_calls :=
  rewrite ?count_app;
  repeat (rewrite count_cons;
          cbn [is_NewDate is_AxiosPost is_AxiosGet is_SetTimeout is_SendMail]);
  rewrite ?count_nil;
  cbn [Nat.add];
  repeat rewrite Nat.add_succ_r;
  rewrite ?Nat.add_0_r.

Lemma mails_app (a b : list call) : mails (a ++ b)%list = (mails a ++ mails b)%list.
Proof.
  induction a as [|c a IH]; [reflexivity|].
  destruct c; simpl; rewrite IH; reflexivity.
Qed.

Lemma count_pending_rounds_get k url maxAttempts delayMs i n :
  count is_AxiosGet (pending_rounds k url maxAttempts delayMs i n) = k.
Proof.
  revert i n. induction k as [|k IH]; intros i n; [reflexivity|].
  unfold count in *. simpl. now rewrite IH.
Qed.

Lemma count_pending_rounds_sleep k url maxAttempts delayMs i n :
  count is_SetTimeout (pending_rounds k url maxAttempts delayMs i n) = k.
Proof.
  revert i n. induction k as [|k IH]; intros i n; [reflexivity|].
  unfold count in *. simpl. now rewrite IH.
Qed.

(** ** The polling loop *)

(** [attempts_left] follows the loop test: while [i < maxAttempts] holds one
    more turn is due and [i++] leaves one fewer; once it fails none is. *)
Lemma attempts_left_step (i maxAttempts : Z) :
  i < maxAttempts ->
  Z.to_nat (maxAttempts - i) = S (Z.to_nat (maxAttempts - (i + 1))).
Proof. lia. Qed.

Lemma attempts_left_done (i maxAttempts : Z) :
  maxAttempts <= i -> Z.to_nat (maxAttempts - i) = O.
Proof. lia. Qed.

(** The configuration values convert as [env_text] and [env_or] say. *)
Lemma ToString_env name : ToString (env name) = Some (env_text name).
Proof. unfold env, env_text. now destruct (process_env name). Qed.

Lemma ToString_env_or name fallback :
  ToString (or_else (env name) (VStr fallback)) = Some (env_or name fallback).
Proof.
  unfold or_else, env, env_or. destruct (process_env name) as [s|]; [|reflexivity].
  cbn [truthy]. now destruct (s =? "")%string.
Qed.

Lemma pending_status_cases status :
  pending_status status = true ->
  strict_eq_str status "succeeded" = false
  /\ strict_eq_str status "failed" = false
  /\ strict_eq_str status "stopped" = false
  /\ exists text, ToString status = Some text.
Proof.
  unfold pending_status, unrecognized_status, printable. intros H.
  apply andb_prop in H as [H H4].
  apply andb_prop in H as [H H3]. apply andb_prop in H as [H1 H2].
  repeat split; try now apply negb_true_iff.
  destruct (ToString status) as [text|]; [now exists text|discriminate].
Qed.

(** A turn whose poll reports a pending status logs it, sleeps [delayMs]
    and falls through to the next turn. *)
Lemma poll_attempt_pending rid url maxAttempts delayMs i tr :
  status_url rid = Some url ->
  pending_at (count is_AxiosGet tr) url = true ->
  poll_attempt rid maxAttempts delayMs i tr
  = (Ok None,
     (tr ++ pending_rounds 1 url maxAttempts delayMs i (count is_AxiosGet tr))%list).
Proof.
  unfold pending_at. intros Hurl H.
  destruct (polled_status _ _) as [status|] eqn:Hp; [|discriminate].
  apply pending_status_cases in H as (H1 & H2 & H3 & text & Htext).
  cbn [pending_rounds]. unfold polled_text. rewrite Hp. cbv iota.
  rewrite Htext. unfold polled_status in Hp.
  unfold poll_attempt, try_catch, bind, axios_get.
  rewrite Hurl. cbn [converted]. unfold ret at 1.
  destruct (axios_get_reply _ _) as [data|e]; [|discriminate].
  unfold prop. cbn [settle]. rewrite Hp. unfold ret at 1. cbv beta iota.
  unfold interpolate. rewrite Htext. cbn [converted].
  unfold ret, console_log, setTimeout, emit.
  rewrite H1, H2, H3. cbn [orb].
  now rewrite <- !app_assoc.
Qed.

(** A turn whose poll reports failed or stopped throws at once: the poll
    and the two console lines are all it does. *)
Lemma poll_attempt_negative rid url maxAttempts delayMs i tr data status error :
  status_url rid = Some url ->
  axios_get_reply (count is_AxiosGet tr) url = Resolve data ->
  get data "status" = Some (VStr status) ->
  status = "failed" \/ status = "stopped" ->
  get data "error" = Some error ->
  poll_attempt rid maxAttempts delayMs i tr
  = (Throw (thrown_on status error),
     (tr ++ [status_request url;
             checking_log status i maxAttempts;
             ConsoleError [VStr "Error checking workflow status:";
                           VStr (message (thrown_on status error))]])%list).
Proof.
  intros Hurl Hreply Hstatus Hneg Herror.
  assert (Hs : strict_eq_str (VStr status) "succeeded" = false)
    by (destruct Hneg; subst status; reflexivity).
  assert (Hf : strict_eq_str (VStr status) "failed"
               || strict_eq_str (VStr status) "stopped" = true)
    by (destruct Hneg; subst status; reflexivity).
  unfold poll_attempt, try_catch, bind, axios_get.
  rewrite Hurl. cbn [converted]. unfold ret at 1.
  rewrite Hreply. unfold prop. cbn [settle]. rewrite Hstatus.
  unfold ret at 1. cbv beta iota.
  unfold interpolate at 1. cbn [ToString converted].
  unfold ret at 1, console_log, console_error, emit. cbv beta iota.
  rewrite Hs, Hf, Herror. unfold ret at 1. cbv beta iota.
  unfold interpolate, thrown_on.
  destruct (ToString (or_else error (VStr "Unknown error"))) as [error_text|];
    cbn [converted]; unfold ret, throw, WorkflowFailed;
    now rewrite <- !app_assoc.
Qed.

Lemma poll_loop_pending_prefix k n rid url maxAttempts delayMs i tr :
  status_url rid = Some url ->
  (forall j, (j < k)%nat -> pending_at (count is_AxiosGet tr + j) url = true) ->
  poll_loop (k + n) rid maxAttempts delayMs i tr
  = poll_loop n rid maxAttempts delayMs (i + Z.of_nat k)
      (tr ++ pending_rounds k url maxAttempts delayMs i (count is_AxiosGet tr))%list.
Proof.
  intros Hurl. revert i tr. induction k as [|k IH]; intros i tr H.
  - simpl. now rewrite Z.add_0_r, app_nil_r.
  - change (S k + n)%nat with (S (k + n)). cbn [poll_loop]. unfold bind at 1.
    rewrite (poll_attempt_pending _ url)
      by (try assumption;
          specialize (H O); rewrite Nat.add_0_r in H; apply H; lia).
    cbn [pending_rounds]. rewrite IH.
    + rewrite <- app_assoc. cbn [app].
      rewrite count_app. unfold count at 2. cbn [filter is_AxiosGet status_request checking_log List.length].
      replace (i + 1 + Z.of_nat k) with (i + Z.of_nat (S k)) by lia.
      now rewrite Nat.add_1_r.
    + intros j Hj. rewrite count_app. unfold count at 2. cbn [filter is_AxiosGet status_request checking_log List.length].
      replace (count is_AxiosGet tr + 1 + j)%nat
        with (count is_AxiosGet tr + S j)%nat by lia.
      apply H. lia.
Qed.

Lemma poll_loop_exhausted k rid url maxAttempts delayMs i tr :
  status_url rid = Some url ->
  (forall j, (j < k)%nat -> pending_at (count is_AxiosGet tr + j) url = true) ->
  poll_loop k rid maxAttempts delayMs i tr
  = (Throw WorkflowTimeout,
     (tr ++ pending_rounds k url maxAttempts delayMs i (count is_AxiosGet tr))%list).
Proof.
  intros Hurl H. rewrite <- (Nat.add_0_r k) at 1.
  now rewrite (poll_loop_pending_prefix _ _ _ url).
Qed.

Lemma running_is_pending n url :
  running_at n url = true -> pending_at n url = true.
Proof.
  unfold running_at, pending_at.
  destruct (polled_status n url) as [status|]; [|discriminate].
  destruct status; try discriminate. cbn [strict_eq_str].
  intros H. apply String.eqb_eq in H. now subst s.
Qed.

Lemma waitForWorkflowCompletion_polls rid maxAttempts delayMs tr :
  truthy rid = true ->
  waitForWorkflowCompletion rid maxAttempts delayMs tr
  = poll_loop (Z.to_nat maxAttempts) rid maxAttempts delayMs 0 tr.
Proof.
  intros H. unfold waitForWorkflowCompletion.
  now rewrite H, Z.sub_0_r.
Qed.

(** A turn whose run identifier cannot be converted throws before any
    request: the URL is built first. *)
Lemma poll_attempt_unprintable_id rid maxAttempts delayMs i tr :
  status_url rid = None ->
  poll_attempt rid maxAttempts delayMs i tr
  = (Throw ConversionError,
     (tr ++ [ConsoleError [VStr "Error checking workflow status:";
                           VStr (message ConversionError)]])%list).
Proof.
  intros Hurl. unfold poll_attempt, try_catch, bind.
  rewrite Hurl. cbn [converted]. unfold throw, console_error, emit.
  reflexivity.
Qed.

(** A turn whose poll reports a status that cannot be converted throws
    when it builds the log line: after the request, with no sleep. *)
Lemma poll_attempt_unprintable_status rid url maxAttempts delayMs i tr status :
  status_url rid = Some url ->
  polled_status (count is_AxiosGet tr) url = Some status ->
  ToString status = None ->
  poll_attempt rid maxAttempts delayMs i tr
  = (Throw ConversionError,
     (tr ++ [status_request url;
             ConsoleError [VStr "Error checking workflow status:";
                           VStr (message ConversionError)]])%list).
Proof.
  unfold polled_status. intros Hurl Hp Htext.
  unfold poll_attempt, try_catch, bind, axios_get.
  rewrite Hurl. cbn [converted]. unfold ret at 1.
  destruct (axios_get_reply _ _) as [data|e]; [|discriminate].
  unfold prop. cbn [settle]. rewrite Hp. unfold ret at 1. cbv beta iota.
  unfold interpolate. rewrite Htext. cbn [converted].
  unfold ret, throw, console_error, emit.
  now rewrite <- !app_assoc.
Qed.

(** C1 (as amended): when a poll of the run reports failed or stopped
    (after any number [k] of polls that reported a pending status, within
    the attempt budget), [waitForWorkflowCompletion] throws on that very
    attempt: the trace ends with that poll and its two console lines, so
    the run was polled [k + 1] times, slept only after the [k] earlier
    polls, and returned no result.  What it throws is the WorkflowFailed
    error, with the text of the [error] member of the answer (or "Unknown
    error"), whenever that member converts to a string; when it does not,
    it is the TypeError of the conversion.  [url] is the status URL of the
    run, [maxAttempts] a count that the loop counter reaches exactly. *)
Theorem C1_failed_or_stopped_throws_at_once
    rid url maxAttempts delayMs tr k data status error :
  truthy rid = true ->
  status_url rid = Some url ->
  maxAttempts <= MAX_EXACT ->
  Z.of_nat k < maxAttempts ->
  (forall j, (j < k)%nat -> pending_at (count is_AxiosGet tr + j) url = true) ->
  axios_get_reply (count is_AxiosGet tr + k) url = Resolve data ->
  get data "status" = Some (VStr status) ->
  status = "failed" \/ status = "stopped" ->
  get data "error" = Some error ->
  let failure := thrown_on status error in
  let tr' :=
    (tr ++ pending_rounds k url maxAttempts delayMs 0 (count is_AxiosGet tr)
        ++ [status_request url;
            checking_log status (Z.of_nat k) maxAttempts;
            ConsoleError [VStr "Error checking workflow status:";
                          VStr (message failure)]])%list in
  waitForWorkflowCompletion rid maxAttempts delayMs tr = (Throw failure, tr')
  /\ count is_AxiosGet tr' = (count is_AxiosGet tr + k + 1)%nat
  /\ count is_SetTimeout tr' = (count is_SetTimeout tr + k)%nat
  /\ (forall error_text,
         ToString (or_else error (VStr "Unknown error")) = Some error_text ->
         failure = WorkflowFailed status error_text)
  /\ (ToString (or_else error (VStr "Unknown error")) = None ->
      failure = ConversionError).
Proof.
  intros Hrid Hurl Hmax Hk Hpending Hreply Hstatus Hneg Herror failure tr'.
  subst failure tr'.
  split; [|split; [|split; [|split]]].
  - rewrite waitForWorkflowCompletion_polls by assumption.
    replace (Z.to_nat maxAttempts)
      with (k + S (Z.to_nat maxAttempts - k - 1))%nat by lia.
    rewrite (poll_loop_pending_prefix _ _ _ url) by assumption.
    cbn [poll_loop]. unfold bind. rewrite Z.add_0_l.
    rewrite (poll_attempt_negative _ url _ _ _ _ data status error);
      try assumption.
    + now rewrite <- app_assoc.
    + now rewrite count_app, count_pending_rounds_get.
  - rewrite !count_app, count_pending_rounds_get.
    unfold count.
    cbn [filter is_AxiosGet status_request checking_log List.length]. lia.
  - rewrite !count_app, count_pending_rounds_sleep.
    unfold count.
    cbn [filter is_SetTimeout status_request checking_log List.length]. lia.
  - intros error_text Htext. unfold thrown_on. now rewrite Htext.
  - intros Htext. unfold thrown_on. now rewrite Htext.
Qed.

(** C2: with [maxAttempts = N >= 1] and a run reported "running" on each
    of the [N] polls, [waitForWorkflowCompletion] throws the WorkflowTimeout
    error after exactly [N] status requests (each followed by its log line
    and the sleep): the trace gains [N] GETs, no more.  [url] is the status
    URL the run is polled at, and [N] a count the loop counter reaches
    exactly. *)
Theorem C2_running_for_all_attempts_times_out rid url maxAttempts delayMs tr :
  1 <= maxAttempts <= MAX_EXACT ->
  truthy rid = true ->
  status_url rid = Some url ->
  (forall j, (j < Z.to_nat maxAttempts)%nat ->
             running_at (count is_AxiosGet tr + j) url = true) ->
  let tr' :=
    (tr ++ pending_rounds (Z.to_nat maxAttempts) url maxAttempts delayMs 0
             (count is_AxiosGet tr))%list in
  waitForWorkflowCompletion rid maxAttempts delayMs tr
  = (Throw WorkflowTimeout, tr')
  /\ Z.of_nat (count is_AxiosGet tr')
     = Z.of_nat (count is_AxiosGet tr) + maxAttempts
  /\ (forall j, (j < Z.to_nat maxAttempts)%nat ->
                polled_text (count is_AxiosGet tr + j) url = "running").
Proof.
  intros HN Hrid Hurl Hrunning tr'. subst tr'. split; [|split].
  - rewrite waitForWorkflowCompletion_polls by assumption.
    apply poll_loop_exhausted; [assumption|].
    intros j Hj. now apply running_is_pending, Hrunning.
  - rewrite count_app, count_pending_rounds_get. lia.
  - intros j Hj. specialize (Hrunning j Hj).
    unfold running_at in Hrunning. unfold polled_text.
    destruct (polled_status _ _) as [status|]; [|discriminate].
    destruct status; try discriminate. cbn [strict_eq_str] in Hrunning.
    apply String.eqb_eq in Hrunning. now subst s.
Qed.

(** C6: a falsy run identifier (undefined, null, the empty string)
    makes [waitForWorkflowCompletion] return [null] at once: the trace is
    unchanged, so no status request is issued. *)
Theorem C6_no_run_identifier_is_a_no_op rid maxAttempts delayMs tr :
  truthy rid = false ->
  waitForWorkflowCompletion rid maxAttempts delayMs tr = (Ok VNull, tr).
Proof.
  intros H. unfold waitForWorkflowCompletion. now rewrite H.
Qed.

(** C9 (as amended): a status other than succeeded, failed and stopped
    that the log line can show (an absent status included: it shows as
    "undefined") is handled as "running" is.  While the first [k] polls of
    a run report such a status, each turn logs, sleeps [delayMs] and the
    loop goes on with the next poll; when that is so for every one of the
    [maxAttempts] polls the call ends in the WorkflowTimeout error.  A
    status that cannot be converted to a string is not handled so: when the
    next poll reports one, the turn throws the TypeError of the conversion
    after its status request, without a sleep, and the loop ends there. *)
Theorem C9_unrecognized_status_sleeps_and_repolls
    rid url maxAttempts delayMs tr k :
  truthy rid = true ->
  status_url rid = Some url ->
  maxAttempts <= MAX_EXACT ->
  (k <= Z.to_nat maxAttempts)%nat ->
  (forall j, (j < k)%nat -> pending_at (count is_AxiosGet tr + j) url = true) ->
  let tr' :=
    (tr ++ pending_rounds k url maxAttempts delayMs 0
             (count is_AxiosGet tr))%list in
  waitForWorkflowCompletion rid maxAttempts delayMs tr
  = poll_loop (Z.to_nat maxAttempts - k) rid maxAttempts delayMs
      (Z.of_nat k) tr'
  /\ count is_SetTimeout tr' = (count is_SetTimeout tr + k)%nat
  /\ (k = Z.to_nat maxAttempts ->
      waitForWorkflowCompletion rid maxAttempts delayMs tr
      = (Throw WorkflowTimeout, tr'))
  /\ (forall status,
        (k < Z.to_nat maxAttempts)%nat ->
        polled_status (count is_AxiosGet tr + k) url = Some status ->
        ToString status = None ->
        unrecognized_status status = true
        /\ waitForWorkflowCompletion rid maxAttempts delayMs tr
           = (Throw ConversionError,
              (tr' ++ [status_request url;
                       ConsoleError [VStr "Error checking workflow status:";
                                     VStr (message ConversionError)]])%list)).
Proof.
  intros Hrid Hurl Hmax Hk Hpending tr'. subst tr'.
  rewrite waitForWorkflowCompletion_polls by assumption.
  assert (Hprefix :
    poll_loop (Z.to_nat maxAttempts) rid maxAttempts delayMs 0 tr
    = poll_loop (Z.to_nat maxAttempts - k) rid maxAttempts delayMs (Z.of_nat k)
        (tr ++ pending_rounds k url maxAttempts delayMs 0
                 (count is_AxiosGet tr))%list).
  { replace (Z.to_nat maxAttempts)
      with (k + (Z.to_nat maxAttempts - k))%nat at 1 by lia.
    now rewrite (poll_loop_pending_prefix _ _ _ url). }
  split; [exact Hprefix|]. split; [|split].
  - now rewrite count_app, count_pending_rounds_sleep.
  - intros ->. now apply poll_loop_exhausted.
  - intros status Hlt Hp Htext. split.
    + destruct status; try discriminate; reflexivity.
    + rewrite Hprefix.
      destruct (Z.to_nat maxAttempts - k)%nat as [|n] eqn:Hn; [lia|].
      cbn [poll_loop]. unfold bind.
      rewrite (poll_attempt_unprintable_status _ url _ _ _ _ status);
        [reflexivity|assumption| |assumption].
      now rewrite count_app, count_pending_rounds_get.
Qed.

(** ** The formatter *)

Lemma contains_here (sub rest : string) : contains (sub ++ rest) sub.
Proof. exists EmptyString, rest. reflexivity. Qed.

Lemma contains_skip (p s sub : string) :
  contains s sub -> contains (p ++ s) sub.
Proof.
  intros (before & after & ->). exists (p ++ before), after.
  induction p as [|c p IH]; [reflexivity|]. cbn. now rewrite IH.
Qed.

Lemma prefix_append (sub s : string) :
  String.prefix sub s = true <-> exists after, s = sub ++ after.
Proof.
  revert s. induction sub as [|c sub IH]; intros s.
  - split; [intros _; now exists s|intros _; now destruct s].
  - destruct s as [|c' s]; cbn [String.prefix].
    + split; [discriminate|intros (after & H); discriminate].
    + destruct (Ascii.ascii_dec c c') as [->|Hc]; split.
      * intros H. apply IH in H as (after & ->). now exists after.
      * intros (after & H). injection H as ->. apply IH. now exists after.
      * discriminate.
      * intros (after & H). injection H as H _. congruence.
Qed.

Lemma occurs_contains (sub s : string) :
  occurs sub s = true <-> contains s sub.
Proof.
  induction s as [|c s IH]; cbn [occurs].
  - rewrite orb_false_r, prefix_append. split.
    + intros (after & H). now exists EmptyString, after.
    + intros (before & after & H). destruct before; [now exists after|].
      discriminate.
  - rewrite orb_true_iff, prefix_append, IH. split.
    + intros [(after & H)|(before & after & H)].
      * now exists EmptyString, after.
      * exists (String c before), after. cbn. now rewrite H.
    + intros (before & after & H). destruct before as [|c' before].
      * left. now exists after.
      * right. injection H as _ H. now exists before, after.
Qed.

Lemma htmlContent_contains date reportContent year company :
  contains (htmlContent date reportContent year company) reportContent.
Proof.
  unfold htmlContent.
  repeat first [apply contains_here | apply contains_skip].
Qed.

Lemma errorHtml_contains date msg details :
  contains (errorHtml date msg details) msg.
Proof.
  unfold errorHtml.
  repeat first [apply contains_here | apply contains_skip].
Qed.

(** The [if] chain makes no call and never throws; what it selects
    converts to a string as [report_body] says. *)
Lemma select_reportContent_run output tr :
  exists reportContent,
    select_reportContent output tr = (Ok reportContent, tr)
    /\ ToString reportContent = report_body output.
Proof.
  unfold select_reportContent, report_body, first_match, extraction_keys,
    serialized_fallback.
  destruct output as [| |[]| | |items|fields]; cbn [is_object];
    try (eexists; split; reflexivity).
  unfold bind, prop, ret. cbn [get].
  destruct (truthy (lookup "text" fields));
    [eexists; split; reflexivity|].
  destruct (truthy (lookup "report" fields));
    [eexists; split; reflexivity|].
  destruct (truthy (lookup "content" fields));
    eexists; split; reflexivity.
Qed.

(** [formatReport] on a value whose [outputs] can be read: the first clock
    reading, then the conversion of the selected content; the document
    after the second clock reading when the content converts, the
    TypeError of the conversion when it does not. *)
Lemma formatReport_outcome workflowOutput outputs tr :
  get workflowOutput "outputs" = Some outputs ->
  formatReport workflowOutput tr
  = match report_body (or_else outputs workflowOutput) with
    | Some body =>
        (Ok (report_document body tr), (tr ++ [NewDate; NewDate])%list)
    | None => (Throw ConversionError, (tr ++ [NewDate])%list)
    end.
Proof.
  intros H. unfold formatReport, bind at 1, prop. rewrite H.
  unfold ret at 1. unfold bind at 1, new_Date at 1. unfold bind at 1.
  destruct (select_reportContent_run (or_else outputs workflowOutput)
              (tr ++ [NewDate])%list) as (v & -> & Hv).
  unfold bind at 1, interpolate. rewrite Hv.
  destruct (report_body (or_else outputs workflowOutput)) as [body|];
    cbn [converted]; [|reflexivity].
  unfold ret at 1, bind, new_Date, ret, report_document.
  rewrite count_snoc. cbn [is_NewDate]. rewrite Nat.add_1_r.
  now rewrite <- app_assoc.
Qed.

(** [formatReport] reads the clock twice and renders the template around
    the body the extraction policy selects. *)
Lemma formatReport_run workflowOutput outputs body tr :
  get workflowOutput "outputs" = Some outputs ->
  report_body (or_else outputs workflowOutput) = Some body ->
  formatReport workflowOutput tr
  = (Ok (report_document body tr), (tr ++ [NewDate; NewDate])%list).
Proof.
  intros H Hbody. rewrite (formatReport_outcome _ outputs) by assumption.
  now rewrite Hbody.
Qed.

Lemma formatReport_unprintable workflowOutput outputs tr :
  get workflowOutput "outputs" = Some outputs ->
  report_body (or_else outputs workflowOutput) = None ->
  formatReport workflowOutput tr
  = (Throw ConversionError, (tr ++ [NewDate])%list).
Proof.
  intros H Hbody. rewrite (formatReport_outcome _ outputs) by assumption.
  now rewrite Hbody.
Qed.

Lemma formatReport_TypeError workflowOutput tr :
  get workflowOutput "outputs" = None ->
  formatReport workflowOutput tr
  = (Throw (TypeError workflowOutput "outputs"), tr).
Proof.
  intros H. unfold formatReport, bind, prop. now rewrite H.
Qed.

(** C7: [formatReport] selects the body by the fixed key order text,
    report, content, stopping at the first key that holds a truthy value,
    and falls back to the serialized output mapping when none does.  The
    selected value is converted to a string: the document is rendered
    around that text, and a value that cannot be converted makes the call
    throw after its first clock reading.  For [{text: "Hello"}] the content
    slot of the template is exactly "Hello" (no [<pre>] block); for
    [{other: 1}] it is the [<pre>] block holding [JSON.stringify] of the
    whole mapping; and the content slot is part of the document. *)
Theorem C7_formatReport_key_priority tr :
  let date := toLocaleDateString_long (clock (count is_NewDate tr)) in
  let year := Number_toString (getFullYear (clock (S (count is_NewDate tr)))) in
  let rendered body :=
    (Ok (htmlContent date body year company_name),
     (tr ++ [NewDate; NewDate])%list) in
  (forall workflowOutput outputs,
      get workflowOutput "outputs" = Some outputs ->
      formatReport workflowOutput tr
      = match report_body (or_else outputs workflowOutput) with
        | Some body => rendered body
        | None => (Throw ConversionError, (tr ++ [NewDate])%list)
        end)
  /\ (forall fields,
         report_body (VObj fields)
         = if truthy (lookup "text" fields)
           then ToString (lookup "text" fields)
           else if truthy (lookup "report" fields)
           then ToString (lookup "report" fields)
           else if truthy (lookup "content" fields)
           then ToString (lookup "content" fields)
           else Some (serialized_fallback (VObj fields)))
  /\ formatReport (VObj [("text", VStr "Hello")]) tr = rendered "Hello"
  /\ formatReport (VObj [("other", VNum 1)]) tr
     = rendered ("<pre>{" ++ nl ++ "  " ++ dq ++ "other" ++ dq ++ ": 1"
                   ++ nl ++ "}</pre>")
  /\ (forall d body y company,
         contains (htmlContent d body y company) body).
Proof.
  intros date year rendered. subst date year rendered. cbv beta.
  split; [|split; [|split; [|split]]].
  - intros workflowOutput outputs H. now apply formatReport_outcome.
  - intros fields. unfold report_body, first_match, extraction_keys.
    cbn [is_object get].
    destruct (truthy (lookup "text" fields)); [reflexivity|].
    destruct (truthy (lookup "report" fields)); [reflexivity|].
    destruct (truthy (lookup "content" fields)); reflexivity.
  - now rewrite (formatReport_run _ VUndefined "Hello").
  - now rewrite (formatReport_run _ VUndefined
                   ("<pre>{" ++ nl ++ "  " ++ dq ++ "other" ++ dq ++ ": 1"
                      ++ nl ++ "}</pre>")).
  - apply htmlContent_contains.
Qed.

(** C8: [formatReport] is deterministic for a fixed input and a fixed day.
    Two calls on the same value, made at any two points of a run at which
    the clock reads the same calendar day, give the same result (the same
    document, byte for byte); and a call adds nothing to the trace but its
    clock readings: no console, network or mail call. *)
Theorem C8_formatReport_deterministic workflowOutput tr1 tr2 :
  calendar_day (clock (count is_NewDate tr1))
  = calendar_day (clock (count is_NewDate tr2)) ->
  calendar_day (clock (S (count is_NewDate tr1)))
  = calendar_day (clock (S (count is_NewDate tr2))) ->
  fst (formatReport workflowOutput tr1) = fst (formatReport workflowOutput tr2)
  /\ filter not_NewDate (snd (formatReport workflowOutput tr1))
     = filter not_NewDate tr1
  /\ filter not_NewDate (snd (formatReport workflowOutput tr2))
     = filter not_NewDate tr2.
Proof.
  unfold calendar_day. intros Hday Hyear.
  injection Hday as Hy Hm Hd. injection Hyear as Hy' _ _.
  destruct (get workflowOutput "outputs") as [outputs|] eqn:H.
  - rewrite !(formatReport_outcome _ outputs) by assumption.
    destruct (report_body (or_else outputs workflowOutput)) as [body|].
    + cbn [fst snd]. unfold report_document, toLocaleDateString_long.
      rewrite Hy, Hm, Hd, Hy', !filter_app, !app_nil_r. auto.
    + cbn [fst snd]. rewrite !filter_app, !app_nil_r. auto.
  - rewrite !formatReport_TypeError by assumption. auto.
Qed.

(** ** Delivery and the error notification *)

Lemma mails_console logs : forallb is_console logs = true -> mails logs = [].
Proof.
  induction logs as [|c logs IH]; [reflexivity|].
  cbn [forallb]. intros H. apply andb_prop in H as [Hc Hl].
  destruct c; try discriminate; cbn [mails]; auto.
Qed.

(** [sendEmail] reads the clock, hands one mail to the transport and
    writes one console line, whatever the transport answers. *)
Lemma sendEmail_run reportContent tr :
  let opts := mailOptions_for reportContent (clock (count is_NewDate tr)) in
  let answer := sendMail_reply (count is_SendMail tr) opts in
  sendEmail reportContent tr
  = (sendEmail_result answer,
     (tr ++ [NewDate; SendMail opts; sendEmail_log answer])%list).
Proof.
  intros opts answer. subst opts answer.
  unfold sendEmail, try_catch, bind, new_Date, transporter_sendMail.
  rewrite count_snoc. cbn [is_SendMail]. rewrite Nat.add_0_r.
  destruct (sendMail_reply _ _) as [info|e]; cbn [settle].
  - unfold prop, sendEmail_result, sendEmail_log.
    destruct (get info "messageId") as [messageId|].
    + unfold ret, console_log, emit. now rewrite <- !app_assoc.
    + unfold throw, console_error, emit. now rewrite <- !app_assoc.
  - unfold sendEmail_result, sendEmail_log, throw, console_error, emit.
    now rewrite <- !app_assoc.
Qed.

Lemma sendEmail_log_is_console answer : is_console (sendEmail_log answer) = true.
Proof.
  destruct answer as [info|e]; [|reflexivity].
  unfold sendEmail_log. now destruct (get info "messageId").
Qed.

Lemma sendEmail_log_kind answer (p : call -> bool) :
  In p [is_NewDate; is_AxiosPost; is_AxiosGet; is_SetTimeout; is_SendMail] ->
  p (sendEmail_log answer) = false.
Proof.
  intros Hp. pose proof (sendEmail_log_is_console answer) as Hc.
  destruct (sendEmail_log answer); try discriminate;
    cbn in Hp; intuition (subst p; reflexivity).
Qed.

(** Counting over a trace that holds the console line of [sendEmail]. *)
Ltac count_calls_with_log :=
  rewrite ?count_app;
  repeat (rewrite count_cons;
          rewrite ?sendEmail_log_kind by (cbn; tauto);
          cbn [is_NewDate is_AxiosPost is_AxiosGet is_SetTimeout is_SendMail]);
  rewrite ?count_nil;
  cbn [Nat.add];
  repeat rewrite Nat.add_succ_r;
  rewrite ?Nat.add_0_r.

(** The [catch] block always returns: it sends the error mail once and,
    when that delivery throws, only writes a second console line. *)
Lemma notify_failure_run error tr :
  let answer := sendMail_reply (count is_SendMail tr) (error_mail error tr) in
  notify_failure error tr
  = (Ok tt,
     (tr ++ notify_calls error tr
         ++ sendEmail_log answer
         :: match sendEmail_result answer with
            | Ok _ => []
            | Throw emailError =>
                [ConsoleError [VStr "Failed to send error notification:";
                               VStr (message emailError)]]
            end)%list).
Proof.
  intros answer. subst answer.
  unfold notify_failure, bind at 1, new_Date at 1.
  unfold bind at 1, console_error at 1, emit at 1.
  unfold try_catch, bind at 1, new_Date at 1. unfold bind at 1.
  rewrite sendEmail_run.
  rewrite <- !app_assoc. cbn [app].
  count_calls.
  fold (error_mail error tr).
  destruct (sendEmail_result _) as [info|emailError].
  - unfold ret, notify_calls. reflexivity.
  - unfold console_error, emit, notify_calls.
    now rewrite <- !app_assoc.
Qed.

Lemma runDailyReport_run tr :
  runDailyReport tr
  = try_catch pipeline notify_failure (tr ++ starting_calls tr)%list.
Proof.
  unfold runDailyReport, bind, new_Date, console_log, emit, starting_calls.
  now rewrite <- app_assoc.
Qed.

(** [runDailyReport] never throws. *)
Lemma runDailyReport_returns tr :
  exists tr', runDailyReport tr = (Ok tt, tr').
Proof.
  rewrite runDailyReport_run. unfold try_catch.
  destruct (pipeline _) as [[[]|error] tr1].
  - now exists tr1.
  - rewrite notify_failure_run. eauto.
Qed.


(** ** The trace only grows *)

Lemma appends_ret {A} (a : A) : appends (ret a).
Proof. intros tr. exists []. cbn. now rewrite app_nil_r. Qed.

Lemma appends_throw {A} (e : JsError) : appends (@throw A e).
Proof. intros tr. exists []. cbn. now rewrite app_nil_r. Qed.

Lemma appends_emit c : appends (emit c).
Proof. intros tr. now exists [c]. Qed.

Lemma appends_bind {A B} (m : M A) (k : A -> M B) :
  appends m -> (forall a, appends (k a)) -> appends (bind m k).
Proof.
  intros Hm Hk tr. unfold bind. destruct (Hm tr) as (ext & Hext).
  destruct (m tr) as [[a|e] tr1]; cbn [snd] in Hext; subst tr1.
  - destruct (Hk a (tr ++ ext)%list) as (ext' & ->).
    exists (ext ++ ext')%list. now rewrite app_assoc.
  - now exists ext.
Qed.

Lemma appends_try_catch {A} (m : M A) (handler : JsError -> M A) :
  appends m -> (forall e, appends (handler e)) -> appends (try_catch m handler).
Proof.
  intros Hm Hh tr. unfold try_catch. destruct (Hm tr) as (ext & Hext).
  destruct (m tr) as [[a|e] tr1]; cbn [snd] in Hext; subst tr1.
  - now exists ext.
  - destruct (Hh e (tr ++ ext)%list) as (ext' & ->).
    exists (ext ++ ext')%list. now rewrite app_assoc.
Qed.

Lemma appends_prop v k : appends (prop v k).
Proof.
  unfold prop. destruct (get v k); [apply appends_ret|apply appends_throw].
Qed.

Lemma appends_converted text : appends (converted text).
Proof.
  destruct text; [apply appends_ret|apply appends_throw].
Qed.

Lemma appends_new_Date : appends new_Date.
Proof. intros tr. now exists [NewDate]. Qed.

Lemma appends_axios_post url body headers : appends (axios_post url body headers).
Proof. intros tr. now exists [AxiosPost url body headers]. Qed.

Lemma appends_axios_get url headers : appends (axios_get url headers).
Proof. intros tr. now exists [AxiosGet url headers]. Qed.

Lemma appends_transporter_sendMail opts : appends (transporter_sendMail opts).
Proof. intros tr. now exists [SendMail opts]. Qed.

(** Splits a computation along its binds, handlers and branches. *)
Ltac appends_step :=
  match goal with
  | |- appends (bind _ _) => apply appends_bind; [|intro]
  | |- appends (try_catch _ _) => apply appends_try_catch; [|intro]
  | |- appends (ret _) => apply appends_ret
  | |- appends (throw _) => apply appends_throw
  | |- appends (emit _) => apply appends_emit
  | |- appends (console_log _) => apply appends_emit
  | |- appends (console_error _) => apply appends_emit
  | |- appends (setTimeout _) => apply appends_emit
  | |- appends (prop _ _) => apply appends_prop
  | |- appends (converted _) => apply appends_converted
  | |- appends (interpolate _) => apply appends_converted
  | |- appends new_Date => apply appends_new_Date
  | |- appends (axios_post _ _ _) => apply appends_axios_post
  | |- appends (axios_get _ _) => apply appends_axios_get
  | |- appends (transporter_sendMail _) => apply appends_transporter_sendMail
  | |- appends (if ?b then _ else _) => destruct b
  | |- appends (match ?v with _ => _ end) => destruct v
  end.

Lemma appends_poll_attempt rid maxAttempts delayMs i :
  appends (poll_attempt rid maxAttempts delayMs i).
Proof. unfold poll_attempt. repeat appends_step. Qed.

Lemma appends_poll_loop n rid maxAttempts delayMs i :
  appends (poll_loop n rid maxAttempts delayMs i).
Proof.
  revert i. induction n as [|n IH]; intros i; cbn [poll_loop].
  - apply appends_throw.
  - apply appends_bind; [apply appends_poll_attempt|].
    intros [result|]; [apply appends_ret|apply IH].
Qed.

Lemma appends_waitForWorkflowCompletion rid maxAttempts delayMs :
  appends (waitForWorkflowCompletion rid maxAttempts delayMs).
Proof.
  unfold waitForWorkflowCompletion.
  destruct (negb (truthy rid)); [apply appends_ret|apply appends_poll_loop].
Qed.

Lemma appends_formatReport workflowOutput : appends (formatReport workflowOutput).
Proof. unfold formatReport, select_reportContent. repeat appends_step. Qed.

Lemma appends_sendEmail reportContent : appends (sendEmail reportContent).
Proof. unfold sendEmail. repeat appends_step. Qed.

Lemma appends_report_and_send finalOutput : appends (report_and_send finalOutput).
Proof.
  unfold report_and_send.
  repeat first [apply appends_formatReport | apply appends_sendEmail
               | appends_step].
Qed.

(** ** The run request and the choice of the final output *)

Lemma blocking_succeeded_shape data :
  blocking_succeeded data = true ->
  exists fields inner,
    data = VObj fields
    /\ lookup "data" fields = VObj inner
    /\ lookup "status" inner = VStr "succeeded".
Proof.
  unfold blocking_succeeded, field.
  destruct data; cbn [get strict_eq_str]; try discriminate.
  destruct (lookup "data" fields) as [| | | | |items|inner] eqn:Hdata;
    cbn [get strict_eq_str]; try discriminate.
  destruct (lookup "status" inner) eqn:Hstatus;
    cbn [strict_eq_str]; try discriminate.
  intros H. apply String.eqb_eq in H. subst s. eauto.
Qed.

(** A blocking-mode answer makes [triggerDifyWorkflow] return the result
    with its outputs. *)
Lemma triggerDifyWorkflow_blocking tr data :
  start_answer tr = Resolve data ->
  blocking_succeeded data = true ->
  triggerDifyWorkflow tr
  = (Ok (blocking_result data), (tr ++ start_calls (run_id data) tr)%list).
Proof.
  intros Hanswer Hblocking.
  destruct (blocking_succeeded_shape _ Hblocking)
    as (fields & inner & -> & Hdata & Hstatus).
  unfold start_answer in Hanswer.
  unfold triggerDifyWorkflow, try_catch, bind at 1, console_log at 1, emit at 1.
  unfold bind at 1, new_Date at 1. unfold bind at 1, new_Date at 1.
  unfold bind at 1, axios_post.
  revert Hanswer. count_calls. intros ->. cbn [settle].
  unfold bind, prop, console_log, emit, ret. cbn [get].
  rewrite Hdata. cbn [truthy get]. rewrite Hstatus. cbn [strict_eq_str String.eqb Ascii.eqb Bool.eqb].
  unfold blocking_result, blocking_outputs, run_id, field, start_calls.
  cbn [get]. rewrite Hdata. cbn [get].
  now rewrite <- !app_assoc.
Qed.

Lemma handle_response_blocking data tr :
  truthy (blocking_outputs data) = true ->
  handle_response (blocking_result data) tr = (Ok (blocking_result data), tr).
Proof.
  intros H. unfold handle_response, bind, prop, blocking_result.
  cbn [get lookup String.eqb Ascii.eqb Bool.eqb strict_eq_str ret andb].
  now rewrite H.
Qed.

Lemma handle_response_no_outputs data tr :
  truthy (blocking_outputs data) = false ->
  handle_response (blocking_result data) tr
  = if truthy (run_id data)
    then waitForWorkflowCompletion (run_id data)
           default_maxAttempts default_delayMs
           (tr ++ [ConsoleLog [VStr "Workflow run ID:"; run_id data]])%list
    else (Throw (Error "Invalid workflow response - no outputs or run ID"), tr).
Proof.
  intros H. unfold handle_response, bind, prop, blocking_result.
  cbn [get lookup String.eqb Ascii.eqb Bool.eqb strict_eq_str ret andb].
  rewrite H. destruct (truthy (run_id data)); reflexivity.
Qed.

(** Steps 3 and 4 on a final output whose [outputs] can be read and whose
    report body converts to [body]. *)
Lemma report_and_send_run finalOutput outputs body tr :
  get finalOutput "outputs" = Some outputs ->
  report_body (or_else outputs finalOutput) = Some body ->
  let opts := report_mail body tr in
  let answer := sendMail_reply (count is_SendMail tr) opts in
  report_and_send finalOutput tr
  = match sendEmail_result answer with
    | Ok _ =>
        (Ok tt,
         (tr ++ [ConsoleLog [VStr "Workflow completed successfully"];
                 NewDate; NewDate; NewDate; SendMail opts;
                 sendEmail_log answer;
                 NewDate;
                 ConsoleLog
                   [VStr ("[" ++ toISOString
                                   (clock (S (S (S (count is_NewDate tr)))))
                              ++ "] Daily report completed successfully")]])%list)
    | Throw e =>
        (Throw e,
         (tr ++ [ConsoleLog [VStr "Workflow completed successfully"];
                 NewDate; NewDate; NewDate; SendMail opts;
                 sendEmail_log answer])%list)
    end.
Proof.
  intros H Hbody opts answer. subst opts answer.
  unfold report_and_send, bind at 1, console_log at 1, emit at 1.
  unfold bind at 1. rewrite (formatReport_run _ outputs body) by assumption.
  unfold bind at 1. rewrite sendEmail_run.
  rewrite <- !app_assoc. cbn [app]. unfold report_document. count_calls.
  fold (report_document body tr). fold (report_mail body tr).
  destruct (sendEmail_result _); [|reflexivity].
  unfold bind, new_Date, console_log, emit. count_calls_with_log.
  now rewrite <- !app_assoc.
Qed.

(** Steps 3 and 4 on a final output whose report body cannot be converted:
    [formatReport] throws, and nothing is sent. *)
Lemma report_and_send_unprintable finalOutput outputs tr :
  get finalOutput "outputs" = Some outputs ->
  report_body (or_else outputs finalOutput) = None ->
  report_and_send finalOutput tr
  = (Throw ConversionError,
     (tr ++ [ConsoleLog [VStr "Workflow completed successfully"];
             NewDate])%list).
Proof.
  intros H Hbody.
  unfold report_and_send, bind at 1, console_log at 1, emit at 1.
  unfold bind at 1. rewrite (formatReport_unprintable _ outputs) by assumption.
  now rewrite <- !app_assoc.
Qed.

(** With a truthy run identifier that converts to a string and a positive
    attempt budget, the first call of the polling is the status request of
    that run. *)
Lemma starts_with_bind {A B} c (m : M A) (k : A -> M B) :
  starts_with c m -> (forall a, appends (k a)) -> starts_with c (bind m k).
Proof.
  intros Hm Hk tr. unfold bind. destruct (Hm tr) as (rest & Hrest).
  destruct (m tr) as [[a|e] tr1]; cbn [snd] in Hrest; subst tr1.
  - destruct (Hk a (tr ++ c :: rest)%list) as (ext & ->).
    exists (rest ++ ext)%list. now rewrite <- app_assoc.
  - now exists rest.
Qed.

Lemma starts_with_try_catch {A} c (m : M A) (handler : JsError -> M A) :
  starts_with c m -> (forall e, appends (handler e)) ->
  starts_with c (try_catch m handler).
Proof.
  intros Hm Hh tr. unfold try_catch. destruct (Hm tr) as (rest & Hrest).
  destruct (m tr) as [[a|e] tr1]; cbn [snd] in Hrest; subst tr1.
  - now exists rest.
  - destruct (Hh e (tr ++ c :: rest)%list) as (ext & ->).
    exists (rest ++ ext)%list. now rewrite <- app_assoc.
Qed.

Lemma starts_with_poll_attempt rid url maxAttempts delayMs i :
  status_url rid = Some url ->
  starts_with (status_request url) (poll_attempt rid maxAttempts delayMs i).
Proof.
  intros Hurl. unfold poll_attempt. rewrite Hurl.
  apply starts_with_try_catch; [|intro; repeat appends_step].
  change (converted (Some url)) with (@ret string url).
  intros tr. unfold bind at 1, ret at 1. revert tr.
  apply starts_with_bind; [|intro; repeat appends_step].
  intros tr. now exists [].
Qed.

Lemma starts_with_polling rid url maxAttempts delayMs :
  truthy rid = true ->
  status_url rid = Some url ->
  1 <= maxAttempts ->
  starts_with (status_request url)
    (waitForWorkflowCompletion rid maxAttempts delayMs).
Proof.
  intros Hrid Hurl Hmax tr.
  rewrite waitForWorkflowCompletion_polls by assumption.
  destruct (Z.to_nat maxAttempts) as [|n] eqn:Hn; [lia|].
  cbn [poll_loop]. revert tr.
  apply starts_with_bind; [now apply starts_with_poll_attempt|].
  intros [result|]; [apply appends_ret|apply appends_poll_loop].
Qed.

Lemma mails_sendEmail_log answer rest :
  mails (sendEmail_log answer :: rest) = mails rest.
Proof.
  pose proof (sendEmail_log_is_console answer) as Hc.
  now destruct (sendEmail_log answer).
Qed.

(** C5: when the run request is answered in blocking mode with status
    succeeded and truthy outputs (any mapping is), [runDailyReport] uses
    that answer: its [try] block goes on with steps 3 and 4 on the result
    built from the answer, and the run issues no status request and no
    sleep (its only HTTP call is the run request itself).  The first mail
    it hands to the transport is the report rendered from those outputs;
    when the content selected from them cannot be converted to a string,
    formatting throws and the only mail is the error notification. *)
Theorem C5_blocking_result_skips_polling tr data :
  start_answer (tr ++ starting_calls tr)%list = Resolve data ->
  blocking_succeeded data = true ->
  truthy (blocking_outputs data) = true ->
  let started :=
    (tr ++ starting_calls tr
        ++ start_calls (run_id data) (tr ++ starting_calls tr)
        ++ [ConsoleLog [VStr "Workflow triggered successfully"]])%list in
  exists tr',
    runDailyReport tr = (Ok tt, tr')
    /\ pipeline (tr ++ starting_calls tr)%list
       = report_and_send (blocking_result data) started
    /\ count is_AxiosGet tr' = count is_AxiosGet tr
    /\ count is_SetTimeout tr' = count is_SetTimeout tr
    /\ count is_AxiosPost tr' = S (count is_AxiosPost tr)
    /\ (forall body,
          report_body (blocking_outputs data) = Some body ->
          exists rest,
            mails tr' = (mails tr ++ report_mail body started :: rest)%list)
    /\ (report_body (blocking_outputs data) = None ->
        mails tr'
        = (mails tr
             ++ [error_mail ConversionError
                   (started
                      ++ [ConsoleLog [VStr "Workflow completed successfully"];
                          NewDate])])%list).
Proof.
  intros Hanswer Hblocking Houtputs started.
  assert (Hpipeline :
    pipeline (tr ++ starting_calls tr)%list
    = report_and_send (blocking_result data) started).
  { unfold pipeline, bind at 1.
    rewrite (triggerDifyWorkflow_blocking _ data) by assumption.
    unfold bind at 1, console_log at 1, emit at 1. unfold bind at 1.
    rewrite handle_response_blocking by assumption.
    subst started. now rewrite <- !app_assoc. }
  rewrite runDailyReport_run. unfold try_catch. rewrite Hpipeline.
  assert (Hstarted_get : count is_AxiosGet started = count is_AxiosGet tr).
  { subst started. unfold starting_calls, start_calls. now count_calls. }
  assert (Hstarted_sleep : count is_SetTimeout started = count is_SetTimeout tr).
  { subst started. unfold starting_calls, start_calls. now count_calls. }
  assert (Hstarted_post : count is_AxiosPost started = S (count is_AxiosPost tr)).
  { subst started. unfold starting_calls, start_calls. now count_calls. }
  assert (Hstarted_mails : mails started = mails tr).
  { subst started. unfold starting_calls, start_calls.
    rewrite !mails_app. cbn [mails app]. now rewrite app_nil_r. }
  clearbody started.
  assert (Hor : or_else (blocking_outputs data) (blocking_result data)
                = blocking_outputs data)
    by (unfold or_else; now rewrite Houtputs).
  destruct (report_body (blocking_outputs data)) as [body|] eqn:Hbody.
  - rewrite (report_and_send_run _ (blocking_outputs data) body)
      by (try reflexivity; now rewrite Hor).
    set (answer := sendMail_reply _ _). clearbody answer.
    destruct (sendEmail_result answer) as [info|e].
    + eexists. split; [reflexivity|]. split; [reflexivity|].
      pose proof (sendEmail_log_is_console answer) as Hc.
      destruct (sendEmail_log answer); try discriminate;
        rewrite mails_app, Hstarted_mails; cbn [mails]; count_calls;
        (repeat split; try assumption;
         [intros body' [= <-]; now exists []|discriminate]).
    + rewrite notify_failure_run. set (answer' := sendMail_reply _ _).
      clearbody answer'.
      eexists. split; [reflexivity|]. split; [reflexivity|].
      unfold notify_calls.
      pose proof (sendEmail_log_is_console answer) as Hc.
      pose proof (sendEmail_log_is_console answer') as Hc'.
      destruct (sendEmail_log answer); try discriminate;
        destruct (sendEmail_log answer'); try discriminate;
        destruct (sendEmail_result answer') as [info'|e'];
        rewrite !mails_app, Hstarted_mails; cbn [mails app]; count_calls;
        (repeat split; try assumption;
         [intros body' [= <-]; eexists; rewrite <- app_assoc; reflexivity
         |discriminate]).
  - rewrite (report_and_send_unprintable _ (blocking_outputs data))
      by (try reflexivity; now rewrite Hor).
    rewrite notify_failure_run. set (answer' := sendMail_reply _ _).
    clearbody answer'.
    eexists. split; [reflexivity|]. split; [reflexivity|].
    unfold notify_calls.
    pose proof (sendEmail_log_is_console answer') as Hc'.
    destruct (sendEmail_log answer'); try discriminate;
      destruct (sendEmail_result answer') as [info'|e'];
      rewrite !mails_app, Hstarted_mails; cbn [mails app]; count_calls;
      (repeat split; try assumption;
       [discriminate|intros _; now rewrite ?app_nil_r]).
Qed.

(** C10 (as amended): a blocking-mode answer whose status is succeeded
    but whose outputs are absent or falsy (null, false, 0, the empty
    string) is not the pipeline's result.  With a truthy run identifier the
    [try] block goes on as the polling of that run followed by steps 3 and
    4 on what the polling returns: its next call after the console line is
    the status request of that run, at the URL the identifier converts to
    (and when the identifier cannot be converted, the polling throws the
    TypeError of the conversion at its first turn, before any request);
    with a falsy run identifier it throws the invalid-response error. *)
Theorem C10_falsy_outputs_are_not_the_result tr data :
  start_answer tr = Resolve data ->
  blocking_succeeded data = true ->
  truthy (blocking_outputs data) = false ->
  let started :=
    (tr ++ start_calls (run_id data) tr
        ++ [ConsoleLog [VStr "Workflow triggered successfully"]])%list in
  (truthy (run_id data) = true ->
   pipeline tr
   = (finalOutput <- waitForWorkflowCompletion (run_id data)
                       default_maxAttempts default_delayMs ;;
      report_and_send finalOutput)
       (started ++ [ConsoleLog [VStr "Workflow run ID:"; run_id data]])%list
   /\ (forall url,
         status_url (run_id data) = Some url ->
         exists rest,
           snd (pipeline tr)
           = (started ++ ConsoleLog [VStr "Workflow run ID:"; run_id data]
                      :: status_request url :: rest)%list)
   /\ (status_url (run_id data) = None ->
       pipeline tr
       = (Throw ConversionError,
          (started
             ++ [ConsoleLog [VStr "Workflow run ID:"; run_id data];
                 ConsoleError [VStr "Error checking workflow status:";
                               VStr (message ConversionError)]])%list)))
  /\ (truthy (run_id data) = false ->
      pipeline tr
      = (Throw (Error "Invalid workflow response - no outputs or run ID"),
         started)).
Proof.
  intros Hanswer Hblocking Houtputs started.
  assert (Hpipeline :
    pipeline tr
    = (finalOutput <- handle_response (blocking_result data) ;;
       report_and_send finalOutput) started).
  { unfold pipeline, bind at 1.
    rewrite (triggerDifyWorkflow_blocking _ data) by assumption.
    unfold bind at 1, console_log at 1, emit at 1.
    subst started. now rewrite <- app_assoc. }
  assert (Hstep :
    (finalOutput <- handle_response (blocking_result data) ;;
     report_and_send finalOutput) started
    = if truthy (run_id data)
      then (finalOutput <- waitForWorkflowCompletion (run_id data)
                             default_maxAttempts default_delayMs ;;
            report_and_send finalOutput)
             (started ++ [ConsoleLog [VStr "Workflow run ID:"; run_id data]])%list
      else (Throw (Error "Invalid workflow response - no outputs or run ID"),
            started)).
  { unfold bind. rewrite handle_response_no_outputs by assumption.
    now destruct (truthy (run_id data)). }
  rewrite Hpipeline, Hstep.
  split; intros Hrid; rewrite Hrid; [|reflexivity].
  split; [reflexivity|]. split.
  - intros url Hurl.
    destruct (starts_with_bind (status_request url)
                (waitForWorkflowCompletion (run_id data)
                   default_maxAttempts default_delayMs)
                report_and_send
                (starts_with_polling (run_id data) url default_maxAttempts
                   default_delayMs Hrid Hurl
                   ltac:(unfold default_maxAttempts; lia))
                appends_report_and_send
                (started ++ [ConsoleLog [VStr "Workflow run ID:"; run_id data]])%list)
      as (rest & Hrest).
    exists rest. rewrite <- app_assoc in Hrest. exact Hrest.
  - intros Hurl. unfold bind at 1.
    rewrite waitForWorkflowCompletion_polls by assumption.
    change (Z.to_nat default_maxAttempts) with 30%nat.
    cbn [poll_loop]. unfold bind at 1.
    rewrite poll_attempt_unprintable_id by assumption.
    now rewrite <- app_assoc.
Qed.

(** ** The manual trigger *)

(** [runDailyReport] returns whatever happened in it, so the handler of
    POST /trigger always answers 200: its [catch] block is never entered. *)
Lemma post_trigger_responds_200 tr :
  exists tr',
    post_trigger tr
    = (Ok {| statusCode := 200;
             json := VObj [("status", VStr "Report sent successfully")] |},
       tr').
Proof.
  unfold post_trigger, try_catch, bind.
  destruct (runDailyReport_returns tr) as (tr' & ->).
  now exists tr'.
Qed.

(** ** More on the run request *)

(** X1: when the run request is rejected (network or HTTP error),
    [triggerDifyWorkflow] throws that very error after one console line
    showing the response data of the error, or its message when it has
    none; the request is not repeated. *)
Theorem X1_rejected_run_request_is_rethrown tr e :
  start_answer tr = Reject e ->
  triggerDifyWorkflow tr
  = (Throw e,
     (tr ++ [ConsoleLog [VStr "Triggering Dify workflow..."];
             NewDate;
             NewDate;
             AxiosPost run_url
               (run_body (clock (count is_NewDate tr))
                  (clock (S (count is_NewDate tr))))
               run_headers;
             ConsoleError [VStr "Error triggering Dify workflow:";
                           error_detail e]])%list).
Proof.
  unfold start_answer. intros Hanswer.
  unfold triggerDifyWorkflow, try_catch, bind at 1, console_log at 1, emit at 1.
  unfold bind at 1, new_Date at 1. unfold bind at 1, new_Date at 1.
  unfold bind at 1, axios_post.
  revert Hanswer. count_calls. intros ->. cbn [settle].
  unfold bind, console_error, emit, throw, error_detail.
  now rewrite <- !app_assoc.
Qed.

Lemma triggerDifyWorkflow_other tr data :
  start_answer tr = Resolve data ->
  get data "workflow_run_id" = Some (run_id data) ->
  blocking_succeeded data = false ->
  triggerDifyWorkflow tr
  = (Ok (async_result data), (tr ++ start_calls (run_id data) tr)%list).
Proof.
  unfold start_answer. intros Hanswer Hrid Hblocking.
  assert (Hfield : forall k, get data k = Some (field data k)).
  { intros k. unfold field. destruct data; try discriminate; reflexivity. }
  unfold triggerDifyWorkflow, try_catch, bind at 1, console_log at 1, emit at 1.
  unfold bind at 1, new_Date at 1. unfold bind at 1, new_Date at 1.
  unfold bind at 1, axios_post.
  revert Hanswer. count_calls. intros ->. cbn [settle].
  unfold bind at 1, prop at 1. rewrite Hrid. unfold ret at 1.
  unfold bind at 1, console_log at 1, emit at 1.
  unfold bind at 1, prop at 1. rewrite (Hfield "data"). unfold ret at 1.
  unfold blocking_succeeded in Hblocking.
  assert (Hsucceeded : forall tr0,
      (if truthy (field data "data")
       then status <- prop (field data "data") "status" ;;
            ret (strict_eq_str status "succeeded")
       else ret false) tr0 = (Ok false, tr0)).
  { intros tr0. destruct (truthy (field data "data")) eqn:Htruthy;
      [|reflexivity].
    unfold bind, prop.
    destruct (get (field data "data") "status") as [status|] eqn:Hstatus.
    - unfold ret. unfold field at 1 in Hblocking. rewrite Hstatus in Hblocking.
      now rewrite Hblocking.
    - destruct (field data "data"); discriminate. }
  unfold bind at 1. rewrite Hsucceeded.
  unfold bind, prop. rewrite (Hfield "task_id"). unfold ret.
  unfold async_result, start_calls. now rewrite <- !app_assoc.
Qed.

(** X2: an answer to the run request that is not a blocking-mode success
    (no [data] member, or a [data.status] other than succeeded, a blocking
    answer with status failed included) makes [triggerDifyWorkflow] return
    only the run identifier and the task identifier: the status and the
    outputs of the answer are dropped. *)
Theorem X2_other_answers_keep_only_the_identifiers tr data :
  start_answer tr = Resolve data ->
  get data "workflow_run_id" = Some (run_id data) ->
  blocking_succeeded data = false ->
  triggerDifyWorkflow tr
  = (Ok (async_result data), (tr ++ start_calls (run_id data) tr)%list).
Proof.
  intros Hanswer Hrid Hblocking.
  now apply triggerDifyWorkflow_other.
Qed.

(** X3: an answer to the run request whose body is [null] or [undefined]
    makes [triggerDifyWorkflow] throw the TypeError of reading
    [workflow_run_id], after the request and one console line with the
    message of that error. *)
Theorem X3_empty_answer_is_a_TypeError tr data :
  start_answer tr = Resolve data ->
  get data "workflow_run_id" = None ->
  triggerDifyWorkflow tr
  = (Throw (TypeError data "workflow_run_id"),
     (tr ++ [ConsoleLog [VStr "Triggering Dify workflow..."];
             NewDate;
             NewDate;
             AxiosPost run_url
               (run_body (clock (count is_NewDate tr))
                  (clock (S (count is_NewDate tr))))
               run_headers;
             ConsoleError
               [VStr "Error triggering Dify workflow:";
                VStr (message (TypeError data "workflow_run_id"))]])%list).
Proof.
  unfold start_answer. intros Hanswer Hrid.
  unfold triggerDifyWorkflow, try_catch, bind at 1, console_log at 1, emit at 1.
  unfold bind at 1, new_Date at 1. unfold bind at 1, new_Date at 1.
  unfold bind at 1, axios_post.
  revert Hanswer. count_calls. intros ->. cbn [settle].
  unfold bind at 1, prop at 1. rewrite Hrid.
  unfold bind, throw, console_error, emit.
  now rewrite <- !app_assoc.
Qed.

(** ** More on the polling loop *)

Lemma get_field (data : value) (k k' : string) (x : value) :
  get data k = Some x -> get data k' = Some (field data k').
Proof. unfold field. destruct data; try discriminate; reflexivity. Qed.

Lemma poll_attempt_succeeded rid url maxAttempts delayMs i tr data :
  status_url rid = Some url ->
  axios_get_reply (count is_AxiosGet tr) url = Resolve data ->
  get data "status" = Some (VStr "succeeded") ->
  poll_attempt rid maxAttempts delayMs i tr
  = (Ok (Some (succeeded_result data)),
     (tr ++ [status_request url;
             checking_log "succeeded" i maxAttempts])%list).
Proof.
  intros Hurl Hreply Hstatus.
  unfold poll_attempt, try_catch, bind at 1.
  rewrite Hurl. cbn [converted]. unfold ret at 1.
  unfold bind at 1, axios_get.
  rewrite Hreply. cbn [settle].
  unfold bind at 1, prop at 1. rewrite Hstatus. unfold ret at 1.
  unfold bind at 1, interpolate at 1. cbn [ToString converted]. unfold ret at 1.
  unfold bind at 1, console_log, emit.
  cbn [strict_eq_str String.eqb Ascii.eqb Bool.eqb].
  unfold bind, prop.
  rewrite (get_field data "status" "outputs" _ Hstatus).
  rewrite (get_field data "status" "elapsed_time" _ Hstatus).
  rewrite (get_field data "status" "total_tokens" _ Hstatus).
  unfold ret, succeeded_result. now rewrite <- !app_assoc.
Qed.

Lemma poll_attempt_rejected rid url maxAttempts delayMs i tr e :
  status_url rid = Some url ->
  axios_get_reply (count is_AxiosGet tr) url = Reject e ->
  poll_attempt rid maxAttempts delayMs i tr
  = (Throw e,
     (tr ++ [status_request url;
             ConsoleError [VStr "Error checking workflow status:";
                           error_detail e]])%list).
Proof.
  intros Hurl Hreply.
  unfold poll_attempt, try_catch, bind at 1.
  rewrite Hurl. cbn [converted]. unfold ret at 1.
  unfold bind at 1, axios_get.
  rewrite Hreply. cbn [settle].
  unfold bind, console_error, emit, throw, error_detail.
  now rewrite <- !app_assoc.
Qed.

Lemma poll_or_console_counts ext :
  forallb is_poll_or_console ext = true ->
  count is_AxiosPost ext = O
  /\ count is_SetTimeout ext = O
  /\ count is_SendMail ext = O
  /\ slept ext = 0.
Proof.
  induction ext as [|c ext IH]; [now cbn|].
  cbn [forallb]. intros H. apply andb_prop in H as [Hc Hext].
  destruct (IH Hext) as (Hp & Hs & Hm & Hsl).
  rewrite !count_cons, Hp, Hs, Hm.
  destruct c; try discriminate; cbn; auto.
Qed.

(** The three ways a turn of the loop can end, whatever the engine
    answers: a result from a poll that reported succeeded, a sleep, or a
    throw after at most the status request and console output. *)
Lemma poll_attempt_cases rid maxAttempts delayMs i tr :
  (exists url v log,
      poll_attempt rid maxAttempts delayMs i tr
      = (Ok (Some v), (tr ++ [status_request url; log])%list)
      /\ is_console log = true
      /\ from_succeeded_poll (count is_AxiosGet tr) rid v)
  \/ (exists url log,
         poll_attempt rid maxAttempts delayMs i tr
         = (Ok None, (tr ++ [status_request url; log; SetTimeout delayMs])%list)
         /\ is_console log = true)
  \/ (exists e ext,
         poll_attempt rid maxAttempts delayMs i tr = (Throw e, (tr ++ ext)%list)
         /\ (count is_AxiosGet ext <= 1)%nat
         /\ forallb is_poll_or_console ext = true).
Proof.
  destruct (status_url rid) as [url|] eqn:Hurl;
    [|right; right; eexists _, _;
      rewrite poll_attempt_unprintable_id by assumption;
      split; [reflexivity|]; split; [cbn; lia|reflexivity]].
  destruct (axios_get_reply (count is_AxiosGet tr) url)
    as [data|e] eqn:Hreply.
  - destruct (get data "status") as [status|] eqn:Hstatus.
    + destruct (ToString status) as [text|] eqn:Htext.
      * destruct (strict_eq_str status "succeeded") eqn:Hs.
        -- left. assert (status = VStr "succeeded") as ->.
           { destruct status; try discriminate. cbn in Hs.
             apply String.eqb_eq in Hs. now subst. }
           eexists url, _, _.
           rewrite (poll_attempt_succeeded _ url _ _ _ _ data) by assumption.
           split; [reflexivity|]. split; [reflexivity|]. now exists url, data.
        -- destruct (strict_eq_str status "failed"
                     || strict_eq_str status "stopped") eqn:Hneg.
           ++ right. right.
              assert (exists s, status = VStr s /\ (s = "failed" \/ s = "stopped"))
                as (s & -> & Hs').
              { destruct status; try discriminate. cbn in Hneg.
                apply orb_prop in Hneg as [H|H]; apply String.eqb_eq in H; eauto. }
              eexists _, _.
              rewrite (poll_attempt_negative _ url _ _ _ _ data s
                         (field data "error"))
                by eauto using get_field.
              split; [reflexivity|]. split; [cbn; lia|reflexivity].
           ++ right. left.
              apply orb_false_elim in Hneg as [Hf Hst].
              assert (Hpending : pending_at (count is_AxiosGet tr) url = true).
              { unfold pending_at, polled_status. rewrite Hreply, Hstatus.
                unfold pending_status, unrecognized_status, printable.
                now rewrite Hs, Hf, Hst, Htext. }
              rewrite (poll_attempt_pending _ url) by assumption.
              cbn [pending_rounds]. eexists url, _. split; reflexivity.
      * right. right. eexists _, _.
        rewrite (poll_attempt_unprintable_status _ url _ _ _ _ status);
          [|assumption|unfold polled_status; now rewrite Hreply|assumption].
        split; [reflexivity|]. split; [cbn; lia|reflexivity].
    + right. right. eexists _, _.
      unfold poll_attempt, try_catch, bind at 1.
      rewrite Hurl. cbn [converted]. unfold ret at 1.
      unfold bind at 1, axios_get.
      rewrite Hreply. cbn [settle].
      unfold bind at 1, prop at 1. rewrite Hstatus.
      unfold bind, throw, console_error, emit.
      rewrite <- !app_assoc. split; [reflexivity|].
      split; [cbn; lia|reflexivity].
  - right. right. eexists _, _.
    rewrite (poll_attempt_rejected _ url _ _ _ _ e) by assumption.
    split; [reflexivity|]. split; [cbn; lia|reflexivity].
Qed.

Lemma slept_app (a b : list call) : slept (a ++ b)%list = slept a + slept b.
Proof.
  induction a as [|c a IH]; [reflexivity|].
  destruct c; cbn [app slept]; rewrite IH; lia.
Qed.

Lemma console_kind c :
  is_console c = true ->
  (forall p,
      In p [is_NewDate; is_AxiosPost; is_AxiosGet; is_SetTimeout; is_SendMail] ->
      p c = false)
  /\ forall rest, slept (c :: rest) = slept rest.
Proof.
  intros Hc. split.
  - intros p Hp. destruct c; try discriminate;
      cbn in Hp; intuition (subst p; reflexivity).
  - intros rest. now destruct c.
Qed.

Lemma slept_status_request url rest :
  slept (status_request url :: rest) = slept rest.
Proof. reflexivity. Qed.

Lemma slept_console logs : forallb is_console logs = true -> slept logs = 0.
Proof.
  induction logs as [|c logs IH]; [reflexivity|].
  cbn [forallb]. intros H. apply andb_prop in H as [Hc Hl].
  destruct (console_kind _ Hc) as (_ & ->). auto.
Qed.

Lemma count_console p logs :
  In p [is_NewDate; is_AxiosPost; is_AxiosGet; is_SetTimeout; is_SendMail] ->
  forallb is_console logs = true -> count p logs = O.
Proof.
  intros Hp. induction logs as [|c logs IH]; [reflexivity|].
  cbn [forallb]. intros H. apply andb_prop in H as [Hc Hl].
  rewrite count_cons, (IH Hl).
  destruct c; try discriminate; cbn in Hp; intuition (subst p; reflexivity).
Qed.

(** Whatever the engine answers, [n] turns of the loop stay within
    [polling_only n], and a result they return comes from the last poll,
    which reported succeeded. *)
Lemma poll_loop_footprint n rid maxAttempts delayMs i tr :
  exists r ext,
    poll_loop n rid maxAttempts delayMs i tr = (r, (tr ++ ext)%list)
    /\ polling_only n delayMs ext
    /\ forall v, r = Ok v ->
         (1 <= count is_AxiosGet ext)%nat
         /\ from_succeeded_poll (pred (count is_AxiosGet (tr ++ ext)%list)) rid v.
Proof.
  clear clock axios_post_reply sendMail_reply tr_TR_date tr_TR_long_date
    tr_TR_date_time toISOString emailList.
  revert i tr. induction n as [|n IH]; intros i tr; cbn [poll_loop].
  - exists (Throw WorkflowTimeout), []. rewrite app_nil_r.
    split; [reflexivity|]. split; [|discriminate].
    unfold polling_only. cbn. repeat split; lia.
  - unfold bind.
    destruct (poll_attempt_cases rid maxAttempts delayMs i tr)
      as [(url & v & log & -> & Hlog & Hv)
         |[(url & log & -> & Hlog)|(e & ext & -> & Hone & Hext)]].
    + eexists _, _. split; [reflexivity|].
      destruct (console_kind _ Hlog) as (Hkind & Hslept).
      split.
      * unfold polling_only. rewrite !count_cons, !count_nil.
        rewrite !Hkind by (cbn; tauto).
        rewrite slept_status_request, Hslept.
        cbn. repeat split; lia.
      * intros v' [= <-]. rewrite count_app, !count_cons, count_nil.
        rewrite Hkind by (cbn; tauto). cbn [is_AxiosGet status_request].
        split; [cbn; lia|].
        now replace (pred (count is_AxiosGet tr + (1 + (0 + 0))))
          with (count is_AxiosGet tr) by lia.
    + destruct (IH (i + 1)
                  (tr ++ [status_request url; log; SetTimeout delayMs])%list)
        as (r & ext & -> & (Hg & Hs & Hsl & Hp & Hm) & Hr).
      destruct (console_kind _ Hlog) as (Hkind & Hslept).
      exists r, ([status_request url; log; SetTimeout delayMs] ++ ext)%list.
      rewrite <- app_assoc. split; [reflexivity|]. split.
      * unfold polling_only.
        rewrite !count_app, !count_cons, !count_nil, slept_app.
        rewrite !Hkind by (cbn; tauto).
        rewrite slept_status_request, Hslept. cbn [slept]. rewrite Hsl.
        cbn [is_AxiosGet is_SetTimeout is_AxiosPost is_SendMail status_request].
        repeat split; lia.
      * intros v Hv. destruct (Hr v Hv) as (Hone & Hfrom).
        rewrite <- app_assoc in Hfrom. split; [|exact Hfrom].
        rewrite count_app. lia.
    + exists (Throw e), ext. split; [reflexivity|].
      split; [|discriminate].
      destruct (poll_or_console_counts ext Hext) as (Hp & Hs & Hm & Hsl).
      unfold polling_only. rewrite Hp, Hs, Hm, Hsl.
      repeat split; lia.
Qed.

(** X4: when a poll of the run reports succeeded, after any number [k] of
    polls that reported a pending status within the attempt budget,
    [waitForWorkflowCompletion] returns at once the outputs, the status and
    the two metrics of that poll: [k + 1] status requests, a sleep after
    each of the [k] earlier ones only, and none after the last.  [url] is
    the status URL of the run, [maxAttempts] a count that the loop counter
    reaches exactly. *)
Theorem X4_succeeded_poll_returns_its_outputs
    rid url maxAttempts delayMs tr k data :
  truthy rid = true ->
  status_url rid = Some url ->
  maxAttempts <= MAX_EXACT ->
  Z.of_nat k < maxAttempts ->
  (forall j, (j < k)%nat -> pending_at (count is_AxiosGet tr + j) url = true) ->
  axios_get_reply (count is_AxiosGet tr + k) url = Resolve data ->
  get data "status" = Some (VStr "succeeded") ->
  let tr' :=
    (tr ++ pending_rounds k url maxAttempts delayMs 0 (count is_AxiosGet tr)
        ++ [status_request url;
            checking_log "succeeded" (Z.of_nat k) maxAttempts])%list in
  waitForWorkflowCompletion rid maxAttempts delayMs tr
  = (Ok (succeeded_result data), tr')
  /\ count is_AxiosGet tr' = (count is_AxiosGet tr + k + 1)%nat
  /\ count is_SetTimeout tr' = (count is_SetTimeout tr + k)%nat.
Proof.
  intros Hrid Hurl Hmax Hk Hpending Hreply Hstatus tr'. subst tr'.
  split; [|split].
  - rewrite waitForWorkflowCompletion_polls by assumption.
    replace (Z.to_nat maxAttempts)
      with (k + S (Z.to_nat maxAttempts - k - 1))%nat by lia.
    rewrite (poll_loop_pending_prefix _ _ _ url) by assumption.
    cbn [poll_loop]. unfold bind. rewrite Z.add_0_l.
    rewrite (poll_attempt_succeeded _ url _ _ _ _ data).
    + unfold ret. now rewrite <- app_assoc.
    + assumption.
    + now rewrite count_app, count_pending_rounds_get.
    + assumption.
  - rewrite !count_app, count_pending_rounds_get.
    unfold count.
    cbn [filter is_AxiosGet status_request checking_log List.length]. lia.
  - rewrite !count_app, count_pending_rounds_sleep.
    unfold count.
    cbn [filter is_SetTimeout status_request checking_log List.length]. lia.
Qed.

(** X5: a status request that is rejected (network or HTTP error) is not
    retried: after any number [k] of polls that reported a pending status,
    [waitForWorkflowCompletion] throws that very error after one console
    line, with the rest of the attempt budget unused.  [url] is the status
    URL of the run, [maxAttempts] a count that the loop counter reaches
    exactly. *)
Theorem X5_rejected_status_request_is_not_retried
    rid url maxAttempts delayMs tr k e :
  truthy rid = true ->
  status_url rid = Some url ->
  maxAttempts <= MAX_EXACT ->
  Z.of_nat k < maxAttempts ->
  (forall j, (j < k)%nat -> pending_at (count is_AxiosGet tr + j) url = true) ->
  axios_get_reply (count is_AxiosGet tr + k) url = Reject e ->
  let tr' :=
    (tr ++ pending_rounds k url maxAttempts delayMs 0 (count is_AxiosGet tr)
        ++ [status_request url;
            ConsoleError [VStr "Error checking workflow status:";
                          error_detail e]])%list in
  waitForWorkflowCompletion rid maxAttempts delayMs tr = (Throw e, tr')
  /\ count is_AxiosGet tr' = (count is_AxiosGet tr + k + 1)%nat.
Proof.
  intros Hrid Hurl Hmax Hk Hpending Hreply tr'. subst tr'. split.
  - rewrite waitForWorkflowCompletion_polls by assumption.
    replace (Z.to_nat maxAttempts)
      with (k + S (Z.to_nat maxAttempts - k - 1))%nat by lia.
    rewrite (poll_loop_pending_prefix _ _ _ url) by assumption.
    cbn [poll_loop]. unfold bind.
    rewrite (poll_attempt_rejected _ url _ _ _ _ e).
    + now rewrite <- app_assoc.
    + assumption.
    + now rewrite count_app, count_pending_rounds_get.
  - rewrite !count_app, count_pending_rounds_get.
    unfold count.
    cbn [filter is_AxiosGet status_request List.length]. lia.
Qed.


(** X7: [waitForWorkflowCompletion] returns a value only in two cases: it
    returns [null] without any call when the run identifier is falsy, and
    otherwise the result built from its last poll, which resolved with
    status succeeded.  No failed, stopped, unknown or unread status ever
    yields a result. *)
Theorem X7_a_result_comes_from_a_succeeded_poll
    rid maxAttempts delayMs tr v tr' :
  waitForWorkflowCompletion rid maxAttempts delayMs tr = (Ok v, tr') ->
  (truthy rid = false /\ v = VNull /\ tr' = tr)
  \/ (truthy rid = true
      /\ from_succeeded_poll (pred (count is_AxiosGet tr')) rid v
      /\ (count is_AxiosGet tr < count is_AxiosGet tr')%nat).
Proof.
  clear clock axios_post_reply sendMail_reply tr_TR_date tr_TR_long_date
    tr_TR_date_time toISOString emailList.
  destruct (truthy rid) eqn:Hrid.
  - rewrite waitForWorkflowCompletion_polls by assumption.
    destruct (poll_loop_footprint (Z.to_nat maxAttempts) rid maxAttempts
                delayMs 0 tr) as (r & ext & -> & _ & Hr).
    intros [= -> <-]. right. split; [reflexivity|].
    destruct (Hr v eq_refl) as (Hone & Hv). split; [exact Hv|].
    rewrite count_app. lia.
  - unfold waitForWorkflowCompletion. rewrite Hrid. cbn [negb].
    intros [= <- <-]. now left.
Qed.

(** X21: a run identifier that cannot be converted to a string is never
    polled.  The URL of the status request is built first, inside the
    [try] of the first turn: with such an identifier (a mapping with an own
    [toString] member, or a list holding one; it is truthy) and a budget of
    at least one attempt, [waitForWorkflowCompletion] throws the TypeError
    of the conversion after one console line, without any status request
    or sleep. *)
Theorem X21_unprintable_run_id_is_never_polled rid maxAttempts delayMs tr :
  ToString rid = None ->
  1 <= maxAttempts ->
  truthy rid = true
  /\ waitForWorkflowCompletion rid maxAttempts delayMs tr
     = (Throw ConversionError,
        (tr ++ [ConsoleError [VStr "Error checking workflow status:";
                              VStr "Cannot convert object to primitive value"]])%list).
Proof.
  intros Htext Hmax.
  assert (Hrid : truthy rid = true)
    by (destruct rid as [| |[]| | | |]; try discriminate; reflexivity).
  split; [exact Hrid|].
  rewrite waitForWorkflowCompletion_polls by assumption.
  destruct (Z.to_nat maxAttempts) as [|n] eqn:Hn; [lia|].
  cbn [poll_loop]. unfold bind.
  rewrite poll_attempt_unprintable_id; [reflexivity|].
  unfold status_url. now rewrite Htext.
Qed.

(** ** What a run does whatever the outside world answers *)

Lemma local_quiet ext : forallb is_local ext = true -> quiet ext.
Proof.
  unfold quiet. induction ext as [|c ext IH]; [now cbn|].
  cbn [forallb]. intros H. apply andb_prop in H as [Hc Hext].
  destruct (IH Hext) as (Hp & Hg & Hs & Hsl).
  rewrite !count_cons, Hp, Hg, Hs.
  destruct c; try discriminate; cbn; auto.
Qed.

Lemma console_local logs :
  forallb is_console logs = true -> forallb is_local logs = true.
Proof.
  induction logs as [|c logs IH]; [reflexivity|].
  cbn [forallb]. intros H. apply andb_prop in H as [Hc Hl].
  unfold is_local at 1. now rewrite Hc, IH.
Qed.

Lemma quiet_app a b : quiet a -> quiet b -> quiet (a ++ b)%list.
Proof.
  unfold quiet. intros (Hp & Hg & Hs & Hsl) (Hp' & Hg' & Hs' & Hsl').
  rewrite !count_app, slept_app. repeat split; lia.
Qed.

(** [triggerDifyWorkflow] always makes the run request, once, and apart
    from it only reads the clock and writes to the console. *)
Lemma triggerDifyWorkflow_footprint tr :
  exists r logs,
    triggerDifyWorkflow tr
    = (r, (tr ++ [ConsoleLog [VStr "Triggering Dify workflow..."];
                  NewDate; NewDate; run_request tr] ++ logs)%list)
    /\ forallb is_console logs = true.
Proof.
  unfold triggerDifyWorkflow, try_catch, bind at 1, console_log at 1, emit at 1.
  unfold bind at 1, new_Date at 1. unfold bind at 1, new_Date at 1.
  unfold bind at 1, axios_post. count_calls. fold (run_request tr).
  destruct (axios_post_reply _ _ _) as [data|e]; cbn [settle].
  - unfold bind at 1, prop at 1.
    destruct (get data "workflow_run_id") as [rid|] eqn:Hrid.
    + assert (Hfield : forall k, get data k = Some (field data k))
        by (intros k; exact (get_field data _ k _ Hrid)).
      unfold ret at 1. unfold bind at 1, console_log at 1, emit at 1.
      unfold bind at 1, prop at 1. rewrite (Hfield "data"). unfold ret at 1.
      assert (Hsucceeded : forall tr0, exists b,
        (if truthy (field data "data")
         then status <- prop (field data "data") "status" ;;
              ret (strict_eq_str status "succeeded")
         else ret false) tr0 = (Ok b, tr0)).
      { intros tr0. destruct (truthy (field data "data")) eqn:Htruthy;
          [|now exists false].
        unfold bind, prop.
        destruct (get (field data "data") "status") as [status|] eqn:Hstatus;
          [eexists; reflexivity|].
        destruct (field data "data"); discriminate. }
      unfold bind at 1.
      destruct (Hsucceeded
        ((((((tr ++ [ConsoleLog [VStr "Triggering Dify workflow..."]])
               ++ [NewDate]) ++ [NewDate]) ++ [run_request tr])
           ++ [ConsoleLog [VStr "Workflow response received:";
                           or_else rid (VStr "completed")]])%list))
        as (b & ->).
      destruct b.
      * unfold bind, prop.
        destruct (get (field data "data") "outputs") as [outputs|].
        -- unfold ret. eexists _, [_]. rewrite <- !app_assoc.
           split; reflexivity.
        -- unfold throw, console_error, emit. eexists _, [_; _].
           rewrite <- !app_assoc. split; reflexivity.
      * unfold bind, prop. rewrite (Hfield "task_id").
        unfold ret. eexists _, [_]. rewrite <- !app_assoc.
        split; reflexivity.
    + unfold bind, throw, console_error, emit. eexists _, [_].
      rewrite <- !app_assoc. split; reflexivity.
  - unfold bind, throw, console_error, emit. eexists _, [_].
    rewrite <- !app_assoc. split; reflexivity.
Qed.

Lemma waitForWorkflowCompletion_footprint rid maxAttempts delayMs tr :
  exists r ext,
    waitForWorkflowCompletion rid maxAttempts delayMs tr
    = (r, (tr ++ ext)%list)
    /\ polling_only (Z.to_nat maxAttempts) delayMs ext.
Proof.
  clear clock axios_post_reply sendMail_reply tr_TR_date tr_TR_long_date
    tr_TR_date_time toISOString emailList.
  unfold waitForWorkflowCompletion. destruct (negb (truthy rid)).
  - exists (Ok VNull), []. rewrite app_nil_r. split; [reflexivity|].
    unfold polling_only. cbn. repeat split; lia.
  - rewrite Z.sub_0_r.
    destruct (poll_loop_footprint (Z.to_nat maxAttempts) rid maxAttempts
                delayMs 0 tr) as (r & ext & Hrun & Hext & _).
    now exists r, ext.
Qed.

(** Step 2 makes no call, or one console line and the polling with the
    default budget. *)
Lemma handle_response_footprint workflowResult tr :
  exists r ext,
    handle_response workflowResult tr = (r, (tr ++ ext)%list)
    /\ polling_only 30 default_delayMs ext.
Proof.
  assert (Hnone : polling_only 30 default_delayMs [])
    by (unfold polling_only; cbn; repeat split; lia).
  unfold handle_response, bind at 1, prop at 1.
  destruct (get workflowResult "status") as [status|];
    [|exists (Throw (TypeError workflowResult "status")), [];
      now rewrite app_nil_r].
  unfold ret at 1, bind at 1, prop at 1.
  destruct (get workflowResult "outputs") as [outputs|];
    [|eexists _, []; now rewrite app_nil_r].
  unfold ret at 1.
  destruct (strict_eq_str status "succeeded" && truthy outputs);
    [eexists _, []; now rewrite app_nil_r|].
  unfold bind at 1, prop at 1.
  destruct (get workflowResult "workflow_run_id") as [rid|];
    [|eexists _, []; now rewrite app_nil_r].
  unfold ret at 1.
  destruct (truthy rid); [|eexists _, []; now rewrite app_nil_r].
  unfold bind, console_log, emit.
  destruct (waitForWorkflowCompletion_footprint rid default_maxAttempts
              default_delayMs
              (tr ++ [ConsoleLog [VStr "Workflow run ID:"; rid]])%list)
    as (r & ext & -> & Hg & Hs & Hsl & Hp & Hm).
  exists r, (ConsoleLog [VStr "Workflow run ID:"; rid] :: ext).
  rewrite <- app_assoc. split; [reflexivity|].
  unfold polling_only. rewrite !count_cons. cbn [slept].
  change (Z.to_nat default_maxAttempts) with 30%nat in Hg.
  cbn [is_AxiosGet is_SetTimeout is_AxiosPost is_SendMail].
  repeat split; (lia || assumption).
Qed.

(** Steps 3 and 4 make no HTTP call and hand at most one mail to the
    transport, exactly one when they return. *)
Lemma report_and_send_footprint finalOutput tr :
  exists r ext,
    report_and_send finalOutput tr = (r, (tr ++ ext)%list)
    /\ quiet ext
    /\ (List.length (mails ext) <= 1)%nat
    /\ (r = Ok tt -> List.length (mails ext) = 1%nat)
    /\ to_recipients (mails ext).
Proof.
  destruct (get finalOutput "outputs") as [outputs|] eqn:Houtputs.
  - destruct (report_body (or_else outputs finalOutput)) as [body|] eqn:Hbody.
    + rewrite (report_and_send_run _ outputs body) by assumption.
      set (opts := report_mail _ _). set (answer := sendMail_reply _ _).
      pose proof (sendEmail_log_is_console answer) as Hlog.
      assert (Hto : to_recipients [opts])
        by (constructor; [reflexivity|constructor]).
      clearbody opts.
      destruct (sendEmail_log answer); try discriminate;
        destruct (sendEmail_result answer) as [info|e];
        eexists _, _; (split; [reflexivity|]);
        (split; [now apply local_quiet|]);
        cbn [mails List.length]; repeat split; auto; discriminate.
    + rewrite (report_and_send_unprintable _ outputs) by assumption.
      eexists _, [_; _]. split; [reflexivity|].
      split; [now apply local_quiet|].
      cbn [mails List.length]. repeat split; auto; try discriminate.
      constructor.
  - unfold report_and_send, bind at 1, console_log at 1, emit at 1.
    unfold bind at 1. rewrite formatReport_TypeError by assumption.
    eexists _, [_]. split; [reflexivity|].
    split; [now apply local_quiet|].
    cbn [mails List.length]. repeat split; auto; try discriminate.
    constructor.
Qed.

Lemma notify_failure_footprint error tr :
  exists ext,
    notify_failure error tr = (Ok tt, (tr ++ ext)%list)
    /\ quiet ext
    /\ mails ext = [error_mail error tr].
Proof.
  rewrite notify_failure_run. set (answer := sendMail_reply _ _).
  pose proof (sendEmail_log_is_console answer) as Hlog.
  eexists. split; [reflexivity|].
  unfold notify_calls. split.
  - apply local_quiet. rewrite forallb_app. cbn [forallb]. unfold is_local.
    rewrite Hlog. now destruct (sendEmail_result answer).
  - rewrite mails_app, mails_sendEmail_log.
    now destruct (sendEmail_result answer).
Qed.

(** The whole run: it always returns, with one run request, at most thirty
    polls, and one or two mails. *)
Lemma runDailyReport_footprint tr :
  exists ext,
    runDailyReport tr = (Ok tt, (tr ++ ext)%list)
    /\ count is_AxiosPost ext = 1%nat
    /\ (count is_AxiosGet ext <= 30)%nat
    /\ (count is_SetTimeout ext <= count is_AxiosGet ext)%nat
    /\ slept ext = default_delayMs * Z.of_nat (count is_SetTimeout ext)
    /\ (1 <= List.length (mails ext) <= 2)%nat
    /\ to_recipients (mails ext).
Proof.
  rewrite runDailyReport_run. unfold try_catch, pipeline, bind at 1.
  set (tr0 := (tr ++ starting_calls tr)%list).
  destruct (triggerDifyWorkflow_footprint tr0) as (r1 & logs & -> & Hlogs).
  set (T := ([ConsoleLog [VStr "Triggering Dify workflow..."];
              NewDate; NewDate; run_request tr0] ++ logs)%list).
  assert (HT : count is_AxiosPost T = 1%nat /\ count is_AxiosGet T = O
               /\ count is_SetTimeout T = O /\ slept T = 0 /\ mails T = []).
  { subst T. rewrite !count_app, slept_app, mails_app.
    rewrite !(count_console _ logs) by (cbn; tauto || assumption).
    rewrite (slept_console logs Hlogs), (mails_console logs Hlogs).
    now cbn. }
  destruct HT as (HTp & HTg & HTs & HTsl & HTm).
  assert (Hstart : count is_AxiosPost (starting_calls tr) = O
                   /\ count is_AxiosGet (starting_calls tr) = O
                   /\ count is_SetTimeout (starting_calls tr) = O
                   /\ slept (starting_calls tr) = 0
                   /\ mails (starting_calls tr) = []) by now cbn.
  destruct Hstart as (HSp & HSg & HSs & HSsl & HSm).
  clearbody T.
  assert (Hnotify : forall error ext1,
    count is_AxiosPost ext1 = 1%nat ->
    (count is_AxiosGet ext1 <= 30)%nat ->
    (count is_SetTimeout ext1 <= count is_AxiosGet ext1)%nat ->
    slept ext1 = default_delayMs * Z.of_nat (count is_SetTimeout ext1) ->
    (List.length (mails ext1) <= 1)%nat ->
    to_recipients (mails ext1) ->
    exists ext,
      notify_failure error (tr ++ ext1)%list = (Ok tt, (tr ++ ext)%list)
      /\ count is_AxiosPost ext = 1%nat
      /\ (count is_AxiosGet ext <= 30)%nat
      /\ (count is_SetTimeout ext <= count is_AxiosGet ext)%nat
      /\ slept ext = default_delayMs * Z.of_nat (count is_SetTimeout ext)
      /\ (1 <= List.length (mails ext) <= 2)%nat
      /\ to_recipients (mails ext)).
  { intros error ext1 Hp Hg Hs Hsl Hm Hto.
    destruct (notify_failure_footprint error (tr ++ ext1)%list)
      as (extN & -> & (HNp & HNg & HNs & HNsl) & HNm).
    exists (ext1 ++ extN)%list. rewrite <- app_assoc.
    split; [reflexivity|].
    rewrite !count_app, slept_app, mails_app, length_app, HNm.
    cbn [List.length]. repeat split; try lia.
    apply Forall_app. split; [assumption|].
    constructor; [reflexivity|constructor]. }
  destruct r1 as [workflowResult|error].
  - unfold bind at 1, console_log at 1, emit at 1. unfold bind at 1.
    destruct (handle_response_footprint workflowResult
                ((tr0 ++ T) ++ [ConsoleLog [VStr "Workflow triggered successfully"]])%list)
      as (r2 & H & -> & HHg & HHs & HHsl & HHp & HHm).
    assert (HHmails : mails H = []).
    { clear - HHm. induction H as [|c H IH]; [reflexivity|].
      rewrite count_cons in HHm. destruct c; cbn in *; try (apply IH; lia).
      discriminate. }
    destruct r2 as [finalOutput|error].
    + destruct (report_and_send_footprint finalOutput
                  (((tr0 ++ T)
                      ++ [ConsoleLog [VStr "Workflow triggered successfully"]])
                     ++ H)%list)
        as (r3 & R & -> & (HRp & HRg & HRs & HRsl) & HRm & HRok & HRto).
      assert (Hshape :
        ((((tr0 ++ T) ++ [ConsoleLog [VStr "Workflow triggered successfully"]])
            ++ H) ++ R)%list
        = (tr ++ (starting_calls tr ++ T
                    ++ [ConsoleLog [VStr "Workflow triggered successfully"]]
                    ++ H ++ R))%list).
      { subst tr0. now rewrite <- !app_assoc. }
      rewrite Hshape.
      destruct r3 as [[]|error].
      * eexists. split; [reflexivity|].
        rewrite !count_app, !slept_app, !mails_app, !length_app.
        rewrite HSm, HTm, HHmails, (HRok eq_refl).
        cbn [count filter is_AxiosPost is_AxiosGet is_SetTimeout slept mails
             List.length app].
        repeat split; try lia.
        cbn [app]. exact HRto.
      * apply Hnotify;
          rewrite ?count_app, ?slept_app, ?mails_app, ?length_app;
          rewrite ?HSm, ?HTm, ?HHmails;
          cbn [count filter is_AxiosPost is_AxiosGet is_SetTimeout slept mails
               List.length app];
          try lia.
        exact HRto.
    + assert (Hshape :
        (((tr0 ++ T) ++ [ConsoleLog [VStr "Workflow triggered successfully"]])
            ++ H)%list
        = (tr ++ (starting_calls tr ++ T
                    ++ [ConsoleLog [VStr "Workflow triggered successfully"]]
                    ++ H))%list).
      { subst tr0. now rewrite <- !app_assoc. }
      rewrite Hshape.
      apply Hnotify;
        rewrite ?count_app, ?slept_app, ?mails_app, ?length_app;
        rewrite ?HSm, ?HTm, ?HHmails;
        cbn [count filter is_AxiosPost is_AxiosGet is_SetTimeout slept mails
             List.length app];
        try lia.
      constructor.
  - assert (Hshape : (tr0 ++ T)%list = (tr ++ (starting_calls tr ++ T))%list).
    { subst tr0. now rewrite <- !app_assoc. }
    rewrite Hshape.
    apply Hnotify;
      rewrite ?count_app, ?slept_app, ?mails_app, ?length_app;
      rewrite ?HSm, ?HTm;
      cbn [List.length app]; try lia.
    constructor.
Qed.

(** X8: whatever the workflow engine and the mail transport answer,
    [runDailyReport] returns normally, having made exactly one run
    request, at most 30 status requests, no more sleeps than status
    requests, and having asked [setTimeout] for at most 300000 ms in
    total. *)
Theorem X8_a_run_ends_within_bounded_calls tr :
  exists ext,
    runDailyReport tr = (Ok tt, (tr ++ ext)%list)
    /\ count is_AxiosPost ext = 1%nat
    /\ (count is_AxiosGet ext <= 30)%nat
    /\ (count is_SetTimeout ext <= count is_AxiosGet ext)%nat
    /\ 0 <= slept ext <= 300000.
Proof.
  destruct (runDailyReport_footprint tr)
    as (ext & Hrun & Hp & Hg & Hs & Hsl & _).
  exists ext. repeat split; try assumption.
  - rewrite Hsl. unfold default_delayMs. lia.
  - rewrite Hsl. unfold default_delayMs. lia.
Qed.

(** X9: whatever the outside world answers, a run of [runDailyReport]
    hands one or two mails to the transport, never none and never more,
    and each of them is addressed to the configured recipient list. *)
Theorem X9_a_run_sends_one_or_two_mails tr :
  exists ext,
    snd (runDailyReport tr) = (tr ++ ext)%list
    /\ (1 <= List.length (mails ext) <= 2)%nat
    /\ to_recipients (mails ext).
Proof.
  destruct (runDailyReport_footprint tr)
    as (ext & Hrun & _ & _ & _ & _ & Hm & Hto).
  exists ext. rewrite Hrun. now repeat split.
Qed.

(** X10: [formatReport] has three outcomes.  On [null] and [undefined]
    it throws the TypeError of reading [outputs] and reads no clock.  On a
    value whose selected content cannot be converted to a string it throws
    the TypeError of the conversion, after one clock reading.  On every
    other value it returns a document, rendered around the body the
    extraction policy selects from [workflowOutput.outputs ||
    workflowOutput], after two clock readings.  Only a mapping or a list
    can fail to convert. *)
Theorem X10_formatReport_outcomes workflowOutput tr :
  formatReport workflowOutput tr
  = match workflowOutput with
    | VUndefined | VNull => (Throw (TypeError workflowOutput "outputs"), tr)
    | _ =>
        match report_body
                (or_else (field workflowOutput "outputs") workflowOutput) with
        | Some body =>
            (Ok (htmlContent
                   (toLocaleDateString_long (clock (count is_NewDate tr)))
                   body
                   (Number_toString
                      (getFullYear (clock (S (count is_NewDate tr)))))
                   company_name),
             (tr ++ [NewDate; NewDate])%list)
        | None => (Throw ConversionError, (tr ++ [NewDate])%list)
        end
    end
  /\ forall output, report_body output = None -> is_object output = true.
Proof.
  split.
  - destruct workflowOutput;
      try (now apply formatReport_TypeError);
      now apply formatReport_outcome.
  - intros output. unfold report_body.
    destruct output as [| |[]| | | |]; try discriminate; reflexivity.
Qed.

(** ** Runs that go through the polling *)

Lemma handle_response_async data tr :
  handle_response (async_result data) tr
  = if truthy (run_id data)
    then waitForWorkflowCompletion (run_id data)
           default_maxAttempts default_delayMs
           (tr ++ [ConsoleLog [VStr "Workflow run ID:"; run_id data]])%list
    else (Throw InvalidResponse, tr).
Proof.
  unfold handle_response, bind, prop, async_result.
  cbn [get lookup String.eqb Ascii.eqb Bool.eqb strict_eq_str ret andb].
  now destruct (truthy (run_id data)).
Qed.

(** The [try] block after an answer that is not a blocking-mode success. *)
Lemma pipeline_not_blocking tr data :
  start_answer tr = Resolve data ->
  get data "workflow_run_id" = Some (run_id data) ->
  blocking_succeeded data = false ->
  pipeline tr
  = if truthy (run_id data)
    then (finalOutput <- waitForWorkflowCompletion (run_id data)
                           default_maxAttempts default_delayMs ;;
          report_and_send finalOutput)
           (triggered (run_id data) tr
              ++ [ConsoleLog [VStr "Workflow run ID:"; run_id data]])%list
    else (Throw InvalidResponse, triggered (run_id data) tr).
Proof.
  intros Hanswer Hrid Hblocking.
  unfold pipeline, bind at 1.
  rewrite (triggerDifyWorkflow_other _ data) by assumption.
  unfold bind at 1, console_log at 1, emit at 1.
  unfold bind at 1. rewrite handle_response_async.
  unfold triggered. rewrite <- !app_assoc.
  now destruct (truthy (run_id data)).
Qed.

Lemma wait_after_pending rid url maxAttempts delayMs tr k :
  truthy rid = true ->
  status_url rid = Some url ->
  Z.of_nat k < maxAttempts ->
  (forall j, (j < k)%nat -> pending_at (count is_AxiosGet tr + j) url = true) ->
  waitForWorkflowCompletion rid maxAttempts delayMs tr
  = poll_loop (S (Z.to_nat maxAttempts - k - 1)) rid maxAttempts delayMs
      (Z.of_nat k)
      (tr ++ pending_rounds k url maxAttempts delayMs 0 (count is_AxiosGet tr))%list.
Proof.
  intros Hrid Hurl Hk Hpending.
  rewrite waitForWorkflowCompletion_polls by assumption.
  replace (Z.to_nat maxAttempts)
    with (k + S (Z.to_nat maxAttempts - k - 1))%nat at 1 by lia.
  now rewrite (poll_loop_pending_prefix _ _ _ url).
Qed.

(** What is left of a run once its [try] block has thrown: the error
    notification, and nothing else but console output and clock readings. *)
Lemma run_after_failure tr error tr1 :
  pipeline (tr ++ starting_calls tr)%list = (Throw error, tr1) ->
  exists ext,
    runDailyReport tr = (Ok tt, (tr1 ++ ext)%list)
    /\ quiet ext
    /\ mails ext = [error_mail error tr1].
Proof.
  intros Hfail. rewrite runDailyReport_run. unfold try_catch. rewrite Hfail.
  apply notify_failure_footprint.
Qed.

(** What is left of a run once its [try] block has reached steps 3 and 4
    with a final output whose [outputs] can be read and whose report body
    converts to [body]: no HTTP call, the report mail, and the error
    notification after it when the delivery of the report threw. *)
Lemma run_after_result tr finalOutput outputs body tr1 :
  pipeline (tr ++ starting_calls tr)%list = report_and_send finalOutput tr1 ->
  get finalOutput "outputs" = Some outputs ->
  report_body (or_else outputs finalOutput) = Some body ->
  let opts := report_mail body tr1 in
  let answer := sendMail_reply (count is_SendMail tr1) opts in
  exists ext,
    runDailyReport tr = (Ok tt, (tr1 ++ ext)%list)
    /\ quiet ext
    /\ mails ext
       = opts :: match sendEmail_result answer with
                 | Ok _ => []
                 | Throw e =>
                     [error_mail e
                        (tr1 ++ [ConsoleLog [VStr "Workflow completed successfully"];
                                 NewDate; NewDate; NewDate; SendMail opts;
                                 sendEmail_log answer])%list]
                 end.
Proof.
  intros Hpipeline Houtputs Hbody opts answer.
  rewrite runDailyReport_run. unfold try_catch. rewrite Hpipeline.
  rewrite (report_and_send_run _ outputs body) by assumption.
  fold opts. fold answer.
  pose proof (sendEmail_log_is_console answer) as Hlog.
  destruct (sendEmail_result answer) as [info|e].
  - eexists. split; [reflexivity|].
    destruct (sendEmail_log answer); try discriminate;
      (split; [now apply local_quiet|reflexivity]).
  - set (tr2 := (tr1 ++ _)%list).
    destruct (notify_failure_footprint e tr2) as (extN & -> & HN & HNm).
    subst tr2. rewrite <- app_assoc. eexists. split; [reflexivity|].
    rewrite mails_app, HNm.
    destruct (sendEmail_log answer); try discriminate;
      (split; [apply quiet_app; [now apply local_quiet|exact HN]|reflexivity]).
Qed.

Lemma polling_starts_counts rid tr :
  count is_AxiosGet (polling_starts rid tr) = count is_AxiosGet tr
  /\ count is_SetTimeout (polling_starts rid tr) = count is_SetTimeout tr
  /\ mails (polling_starts rid tr) = mails tr.
Proof.
  unfold polling_starts, triggered, starting_calls, start_calls.
  rewrite !mails_app. cbn [mails app]. rewrite !app_nil_r.
  split; [|split]; [now count_calls|now count_calls|reflexivity].
Qed.

Lemma mails_pending_rounds k url maxAttempts delayMs i n :
  mails (pending_rounds k url maxAttempts delayMs i n) = [].
Proof.
  revert i n. induction k as [|k IH]; intros i n; [reflexivity|].
  cbn [pending_rounds mails status_request checking_log]. apply IH.
Qed.

(** X11: the asynchronous path end to end.  When the run request is
    answered with a truthy run identifier and no blocking-mode success,
    and the run reports succeeded at its poll number [k + 1 <= 30] after
    [k] polls with a pending status, [runDailyReport] polls [k + 1] times,
    sleeps [k] times, makes no further HTTP call, and the first mail it
    hands to the transport is the report rendered from the outputs of that
    last poll, of body [body].  [url] is the status URL of the run. *)
Theorem X11_polled_outputs_become_the_report tr start url k data body :
  start_answer (tr ++ starting_calls tr)%list = Resolve start ->
  get start "workflow_run_id" = Some (run_id start) ->
  blocking_succeeded start = false ->
  truthy (run_id start) = true ->
  status_url (run_id start) = Some url ->
  (k < 30)%nat ->
  (forall j, (j < k)%nat ->
             pending_at (count is_AxiosGet tr + j) url = true) ->
  axios_get_reply (count is_AxiosGet tr + k) url = Resolve data ->
  get data "status" = Some (VStr "succeeded") ->
  report_body (or_else (field data "outputs") (succeeded_result data))
  = Some body ->
  let polled :=
    (polling_starts (run_id start) tr
       ++ pending_rounds k url default_maxAttempts default_delayMs 0
            (count is_AxiosGet tr)
       ++ [status_request url;
           checking_log "succeeded" (Z.of_nat k) default_maxAttempts])%list in
  exists ext rest,
    runDailyReport tr = (Ok tt, (polled ++ ext)%list)
    /\ quiet ext
    /\ count is_AxiosGet polled = (count is_AxiosGet tr + k + 1)%nat
    /\ count is_SetTimeout polled = (count is_SetTimeout tr + k)%nat
    /\ mails (polled ++ ext)%list
       = (mails tr ++ report_mail body polled :: rest)%list.
Proof.
  intros Hanswer Hrid Hblocking Htruthy Hurl Hk Hpending Hreply Hstatus Hbody
    polled.
  destruct (polling_starts_counts (run_id start) tr) as (Hg & Hs & Hm).
  assert (Hpipeline :
    pipeline (tr ++ starting_calls tr)%list
    = report_and_send (succeeded_result data) polled).
  { rewrite (pipeline_not_blocking _ start) by assumption.
    rewrite Htruthy. fold (polling_starts (run_id start) tr).
    unfold bind.
    rewrite (wait_after_pending _ url _ _ _ k)
      by first [assumption
               |unfold default_maxAttempts; lia
               |intros j Hj; rewrite Hg; now apply Hpending].
    cbn [poll_loop]. unfold bind.
    rewrite (poll_attempt_succeeded _ url _ _ _ _ data);
      [|assumption
       |now rewrite count_app, count_pending_rounds_get, Hg|assumption].
    unfold ret. subst polled. now rewrite Hg, <- !app_assoc. }
  destruct (run_after_result tr (succeeded_result data)
              (field data "outputs") body polled Hpipeline eq_refl Hbody)
    as (ext & Hrun & Hquiet & Hmails).
  eexists ext, _. split; [exact Hrun|]. split; [exact Hquiet|].
  split; [|split].
  - subst polled. rewrite !count_app, count_pending_rounds_get, Hg.
    now count_calls.
  - subst polled. rewrite !count_app, count_pending_rounds_sleep, Hs.
    now count_calls.
  - rewrite mails_app, Hmails. f_equal.
    subst polled. rewrite !mails_app, mails_pending_rounds, Hm.
    cbn [mails status_request checking_log app]. now rewrite app_nil_r.
Qed.

(** X12: a run whose workflow ends failed or stopped sends no report.
    When the run request is answered with a truthy run identifier and no
    blocking-mode success, and poll number [k + 1 <= 30] reports failed or
    stopped after [k] polls with a pending status, the only mail of the run
    is the error notification.  Its document contains the message of what
    the poll threw: "Workflow <status>: <error>" when the [error] member of
    the answer converts to a string, the message of the TypeError of the
    conversion when it does not.  [url] is the status URL of the run. *)
Theorem X12_failed_workflow_sends_only_the_error_mail
    tr start url k data status :
  start_answer (tr ++ starting_calls tr)%list = Resolve start ->
  get start "workflow_run_id" = Some (run_id start) ->
  blocking_succeeded start = false ->
  truthy (run_id start) = true ->
  status_url (run_id start) = Some url ->
  (k < 30)%nat ->
  (forall j, (j < k)%nat ->
             pending_at (count is_AxiosGet tr + j) url = true) ->
  axios_get_reply (count is_AxiosGet tr + k) url = Resolve data ->
  get data "status" = Some (VStr status) ->
  status = "failed" \/ status = "stopped" ->
  let failure := thrown_on status (field data "error") in
  exists tr1 ext,
    pipeline (tr ++ starting_calls tr)%list = (Throw failure, tr1)
    /\ runDailyReport tr = (Ok tt, (tr1 ++ ext)%list)
    /\ mails (tr1 ++ ext)%list = (mails tr ++ [error_mail failure tr1])%list
    /\ contains (html (error_mail failure tr1)) (message failure)
    /\ count is_AxiosGet (tr1 ++ ext)%list = (count is_AxiosGet tr + k + 1)%nat
    /\ (forall error_text,
          ToString (or_else (field data "error") (VStr "Unknown error"))
          = Some error_text ->
          message failure = "Workflow " ++ status ++ ": " ++ error_text)
    /\ (ToString (or_else (field data "error") (VStr "Unknown error")) = None ->
        failure = ConversionError).
Proof.
  intros Hanswer Hrid Hblocking Htruthy Hurl Hk Hpending Hreply Hstatus Hneg
    failure.
  destruct (polling_starts_counts (run_id start) tr) as (Hg & Hs & Hm).
  set (tr1 :=
    (polling_starts (run_id start) tr
       ++ pending_rounds k url default_maxAttempts default_delayMs 0
            (count is_AxiosGet tr)
       ++ [status_request url;
           checking_log status (Z.of_nat k) default_maxAttempts;
           ConsoleError [VStr "Error checking workflow status:";
                         VStr (message failure)]])%list).
  assert (Hpipeline :
    pipeline (tr ++ starting_calls tr)%list = (Throw failure, tr1)).
  { rewrite (pipeline_not_blocking _ start) by assumption.
    rewrite Htruthy. fold (polling_starts (run_id start) tr).
    unfold bind.
    rewrite (wait_after_pending _ url _ _ _ k)
      by first [assumption
               |unfold default_maxAttempts; lia
               |intros j Hj; rewrite Hg; now apply Hpending].
    cbn [poll_loop]. unfold bind.
    rewrite (poll_attempt_negative _ url _ _ _ _ data status
               (field data "error"));
      [|assumption
       |now rewrite count_app, count_pending_rounds_get, Hg
       |assumption|assumption|exact (get_field _ _ _ _ Hstatus)].
    subst tr1 failure. now rewrite Hg, <- !app_assoc. }
  destruct (run_after_failure tr failure tr1 Hpipeline)
    as (ext & Hrun & (_ & Hquiet & _) & Hmails).
  exists tr1, ext. split; [exact Hpipeline|]. split; [exact Hrun|].
  split; [|split; [|split; [|split]]].
  - rewrite mails_app, Hmails. f_equal.
    subst tr1. rewrite !mails_app, mails_pending_rounds, Hm.
    cbn [mails status_request checking_log app]. now rewrite app_nil_r.
  - unfold error_mail, mailOptions_for, error_document. cbn [html].
    apply errorHtml_contains.
  - rewrite count_app, Hquiet. subst tr1.
    rewrite !count_app, count_pending_rounds_get, Hg. now count_calls.
  - intros error_text Htext. subst failure. unfold thrown_on.
    now rewrite Htext.
  - intros Htext. subst failure. unfold thrown_on. now rewrite Htext.
Qed.

Lemma slept_pending_rounds k url maxAttempts delayMs i n :
  slept (pending_rounds k url maxAttempts delayMs i n) = delayMs * Z.of_nat k.
Proof.
  revert i n. induction k as [|k IH]; intros i n; [cbn; lia|].
  cbn [pending_rounds slept status_request checking_log]. rewrite IH. lia.
Qed.

(** X13: a run whose workflow never leaves a pending status.  When the
    run request is answered with a truthy run identifier and no
    blocking-mode success and all 30 polls report a pending status (one
    the loop does not know and the log line can show), the [try] block
    throws the timeout error after 30 status requests and 300000 ms of
    sleep, and the only mail of the run is the error notification, whose
    document contains the timeout message.  [url] is the status URL of the
    run. *)
Theorem X13_a_stuck_workflow_times_out_after_five_minutes tr start url :
  start_answer (tr ++ starting_calls tr)%list = Resolve start ->
  get start "workflow_run_id" = Some (run_id start) ->
  blocking_succeeded start = false ->
  truthy (run_id start) = true ->
  status_url (run_id start) = Some url ->
  (forall j, (j < 30)%nat ->
             pending_at (count is_AxiosGet tr + j) url = true) ->
  let tr1 :=
    (polling_starts (run_id start) tr
       ++ pending_rounds 30 url default_maxAttempts default_delayMs 0
            (count is_AxiosGet tr))%list in
  exists ext,
    pipeline (tr ++ starting_calls tr)%list = (Throw WorkflowTimeout, tr1)
    /\ runDailyReport tr = (Ok tt, (tr1 ++ ext)%list)
    /\ count is_AxiosGet (tr1 ++ ext)%list = (count is_AxiosGet tr + 30)%nat
    /\ slept (tr1 ++ ext)%list = slept tr + 300000
    /\ mails (tr1 ++ ext)%list
       = (mails tr ++ [error_mail WorkflowTimeout tr1])%list
    /\ contains (html (error_mail WorkflowTimeout tr1))
         "Workflow timeout - exceeded maximum attempts".
Proof.
  intros Hanswer Hrid Hblocking Htruthy Hurl Hpending tr1.
  destruct (polling_starts_counts (run_id start) tr) as (Hg & Hs & Hm).
  assert (Hslept : slept (polling_starts (run_id start) tr) = slept tr).
  { unfold polling_starts, triggered, starting_calls, start_calls.
    rewrite !slept_app. cbn [slept]. lia. }
  assert (Hpipeline :
    pipeline (tr ++ starting_calls tr)%list = (Throw WorkflowTimeout, tr1)).
  { rewrite (pipeline_not_blocking _ start) by assumption.
    rewrite Htruthy. fold (polling_starts (run_id start) tr).
    unfold bind.
    rewrite waitForWorkflowCompletion_polls by assumption.
    change (Z.to_nat default_maxAttempts) with 30%nat.
    rewrite (poll_loop_exhausted _ _ url)
      by first [assumption|intros j Hj; rewrite Hg; now apply Hpending].
    subst tr1. now rewrite Hg. }
  destruct (run_after_failure tr WorkflowTimeout tr1 Hpipeline)
    as (ext & Hrun & (_ & Hquiet & _ & Hsl) & Hmails).
  exists ext. split; [exact Hpipeline|]. split; [exact Hrun|].
  split; [|split; [|split]].
  - rewrite count_app, Hquiet. subst tr1.
    rewrite count_app, count_pending_rounds_get, Hg. lia.
  - rewrite slept_app, Hsl. subst tr1.
    rewrite slept_app, slept_pending_rounds, Hslept.
    unfold default_delayMs. lia.
  - rewrite mails_app, Hmails. f_equal.
    subst tr1. rewrite mails_app, mails_pending_rounds, Hm.
    now rewrite app_nil_r.
  - unfold error_mail, mailOptions_for, error_document. cbn [html].
    exact (errorHtml_contains _ (message WorkflowTimeout) _).
Qed.

(** X14: an answer to the run request that is no blocking-mode success
    and carries no truthy run identifier (an asynchronous answer without
    run identifier, or a blocking answer with status failed and none) is
    an error, not a no-op: the [try] block throws the invalid-response
    error without any status request, and the only mail of the run is the
    error notification. *)
Theorem X14_no_result_and_no_run_identifier_is_an_error tr start :
  start_answer (tr ++ starting_calls tr)%list = Resolve start ->
  get start "workflow_run_id" = Some (run_id start) ->
  blocking_succeeded start = false ->
  truthy (run_id start) = false ->
  let tr1 := triggered (run_id start) (tr ++ starting_calls tr) in
  exists ext,
    pipeline (tr ++ starting_calls tr)%list = (Throw InvalidResponse, tr1)
    /\ runDailyReport tr = (Ok tt, (tr1 ++ ext)%list)
    /\ count is_AxiosGet (tr1 ++ ext)%list = count is_AxiosGet tr
    /\ mails (tr1 ++ ext)%list
       = (mails tr ++ [error_mail InvalidResponse tr1])%list.
Proof.
  intros Hanswer Hrid Hblocking Hfalsy tr1.
  assert (Hpipeline :
    pipeline (tr ++ starting_calls tr)%list = (Throw InvalidResponse, tr1)).
  { rewrite (pipeline_not_blocking _ start) by assumption.
    now rewrite Hfalsy. }
  destruct (run_after_failure tr InvalidResponse tr1 Hpipeline)
    as (ext & Hrun & (_ & Hquiet & _) & Hmails).
  exists ext. split; [exact Hpipeline|]. split; [exact Hrun|].
  split.
  - rewrite count_app, Hquiet. subst tr1.
    unfold triggered, starting_calls, start_calls. now count_calls.
  - rewrite mails_app, Hmails. f_equal. subst tr1.
    unfold triggered, starting_calls, start_calls.
    rewrite !mails_app. cbn [mails app]. now rewrite !app_nil_r.
Qed.

(** ** Delivery, and the report of a result without outputs *)

(** X15: [sendEmail] hands exactly one mail to the transport, whatever it
    answers: the document unchanged as [html], addressed to the recipient
    list, followed by one console line.  A rejection of the transport is
    rethrown as it is, with no second attempt; an [info] object is returned
    as it is, and a resolution without one ([null], [undefined]) is a
    TypeError although the mail was handed over. *)
Theorem X15_sendEmail_sends_once_and_rethrows reportContent tr :
  let opts := mailOptions_for reportContent (clock (count is_NewDate tr)) in
  let answer := sendMail_reply (count is_SendMail tr) opts in
  exists r log,
    sendEmail reportContent tr
    = (r, (tr ++ [NewDate; SendMail opts; log])%list)
    /\ is_console log = true
    /\ html opts = reportContent
    /\ to opts = emailList
    /\ (forall e, answer = Reject e -> r = Throw e)
    /\ (forall info, answer = Resolve info ->
          r = match info with
              | VUndefined | VNull => Throw (TypeError info "messageId")
              | _ => Ok info
              end).
Proof.
  intros opts answer. rewrite sendEmail_run. fold opts. fold answer.
  eexists _, _. split; [reflexivity|].
  split; [apply sendEmail_log_is_console|].
  split; [reflexivity|]. split; [reflexivity|]. split.
  - intros e ->. reflexivity.
  - intros info ->. now destruct info.
Qed.

Lemma SerializeJSONProperty_VObj gap indent fields :
  SerializeJSONProperty gap indent (VObj fields)
  = Some (wrap "{" "}" gap (indent ++ gap) indent
            (object_members gap (indent ++ gap) fields)).
Proof.
  cbn [SerializeJSONProperty]. do 2 f_equal.
  induction fields as [|[k x] rest IH]; [reflexivity|].
  cbn [object_members]. rewrite <- IH.
  now destruct (SerializeJSONProperty gap (indent ++ gap) x).
Qed.

Lemma contains_within (s q sub : string) :
  contains s sub -> contains (s ++ q) sub.
Proof.
  intros (before & after & ->). exists before, (after ++ q).
  induction before as [|c before IH]; cbn.
  - induction sub as [|c sub IH]; cbn; [reflexivity|now rewrite IH].
  - now rewrite IH.
Qed.

Lemma contains_join sep parts x :
  In x parts -> contains (join sep parts) x.
Proof.
  induction parts as [|p parts IH]; [contradiction|].
  intros [->|Hin].
  - destruct parts; cbn [join]; [|apply contains_here].
    exists EmptyString, EmptyString. cbn.
    induction x as [|c x IHx]; cbn; [reflexivity|now rewrite <- IHx].
  - destruct parts as [|p' parts]; [contradiction|].
    cbn [join]. do 2 apply contains_skip. now apply IH.
Qed.

Lemma contains_wrap opening closing gap indent stepback partial x :
  In x partial ->
  contains (wrap opening closing gap indent stepback partial) x.
Proof.
  intros Hin. unfold wrap. destruct partial as [|p partial]; [contradiction|].
  destruct (gap =? "")%string.
  - apply contains_skip, contains_within. now apply contains_join.
  - do 3 apply contains_skip. apply contains_within. now apply contains_join.
Qed.

(** X16: a poll that reports succeeded without usable outputs (absent,
    [null], an empty string) still yields a report.  [formatReport] then
    falls back from [outputs] to the result object itself, finds none of
    its text keys in it, and renders the serialized result: a [<pre>] block
    that shows ["status": "succeeded"] and whatever metrics the poll
    carried, where the report text was expected. *)
Theorem X16_succeeded_without_outputs_reports_the_raw_result data tr :
  truthy (field data "outputs") = false ->
  formatReport (succeeded_result data) tr
  = (Ok (htmlContent
           (toLocaleDateString_long (clock (count is_NewDate tr)))
           (serialized_fallback (succeeded_result data))
           (Number_toString (getFullYear (clock (S (count is_NewDate tr)))))
           company_name),
     (tr ++ [NewDate; NewDate])%list)
  /\ contains (serialized_fallback (succeeded_result data))
       (dq ++ "status" ++ dq ++ ": " ++ dq ++ "succeeded" ++ dq).
Proof.
  intros Houtputs. split.
  - rewrite (formatReport_run _ (field data "outputs")
               (serialized_fallback (succeeded_result data)));
      [reflexivity|reflexivity|].
    unfold or_else. rewrite Houtputs. unfold report_body, succeeded_result.
    cbn [is_object first_match extraction_keys get lookup String.eqb
         Ascii.eqb Bool.eqb truthy].
    reflexivity.
  - unfold serialized_fallback, JSON_stringify_indent, succeeded_result.
    rewrite SerializeJSONProperty_VObj. cbn [str_or_undefined].
    apply contains_skip, contains_within, contains_wrap.
    cbn [object_members].
    destruct (SerializeJSONProperty _ _ (field data "outputs"));
      cbn [SerializeJSONProperty];
      [right; left; reflexivity|left; reflexivity].
Qed.

(** X20: the error notification shows more than the message.  When the
    caught error carries the body of an HTTP response (an axios error), the
    document contains that body serialized by [JSON.stringify]; when it
    carries none, or a falsy one, the document says "N/A" in its place. *)
Theorem X20_error_document_quotes_the_response_body error d :
  (truthy (response_data error) = true ->
   exists body,
     JSON_stringify (response_data error) = Some body
     /\ contains (error_document error d) body)
  /\ (truthy (response_data error) = false ->
      error_document error d
      = errorHtml (toLocaleString d) (message error) "N/A").
Proof.
  unfold error_document. split; intros Htruthy; rewrite Htruthy.
  - assert (Hbody : exists body, JSON_stringify (response_data error) = Some body).
    { unfold JSON_stringify.
      destruct (response_data error) as [| |[]| | | |];
        try discriminate; cbn [SerializeJSONProperty]; eauto. }
    destruct Hbody as (body & Hbody). exists body. split; [exact Hbody|].
    rewrite Hbody. cbn [str_or_undefined]. unfold errorHtml.
    repeat first [apply contains_here | apply contains_skip].
  - reflexivity.
Qed.

End Service.

(** ** The recipient list *)

(** How often the character [c] occurs in [s]. *)
Fixpoint occurrences (c : ascii) (s : string) : nat :=
  match s with
  | EmptyString => O
  | String c' rest =>
      ((if Ascii.eqb c' c then 1 else 0) + occurrences c rest)%nat
  end.

(** The bytes start with a white space character; [p2] and [p3] as in
    [JSString.drop_spaces]. *)
Definition leading_space (p2 : ascii -> ascii -> bool)
    (p3 : ascii -> ascii -> ascii -> bool) (l : list ascii) : bool :=
  match l with
  | a :: r1 =>
      JSString.space1 a
      || match r1 with
         | b :: r2 =>
             p2 a b
             || match r2 with
                | c :: _ => p3 a b c
                | [] => false
                end
         | [] => false
         end
  | [] => false
  end.

Definition starts_with_space (s : string) : bool :=
  leading_space JSString.space2 JSString.space3 (list_ascii_of_string s).

Definition ends_with_space (s : string) : bool :=
  leading_space (fun b a => JSString.space2 a b)
    (fun c b a => JSString.space3 a b c) (rev (list_ascii_of_string s)).

Lemma split_not_nil sep s : JSString.split sep s <> [].
Proof.
  destruct s as [|c rest]; cbn [JSString.split]; [discriminate|].
  destruct (Ascii.eqb c sep); [discriminate|].
  now destruct (JSString.split sep rest).
Qed.

Lemma split_length sep s :
  List.length (JSString.split sep s) = S (occurrences sep s).
Proof.
  induction s as [|c rest IH]; [reflexivity|].
  cbn [JSString.split occurrences].
  destruct (Ascii.eqb c sep); cbn [List.length Nat.add]; [now rewrite IH|].
  destruct (JSString.split sep rest); [discriminate|exact IH].
Qed.

Lemma split_fields_without_sep sep s field :
  In field (JSString.split sep s) -> occurrences sep field = O.
Proof.
  revert field. induction s as [|c rest IH]; intros field.
  - intros [<-|[]]. reflexivity.
  - cbn [JSString.split]. destruct (Ascii.eqb c sep) eqn:Hc.
    + intros [<-|Hin]; [reflexivity|now apply IH].
    + destruct (JSString.split sep rest) as [|f fields] eqn:Hsplit.
      * intros [<-|[]]. cbn [occurrences]. now rewrite Hc.
      * intros [<-|Hin].
        -- cbn [occurrences]. rewrite Hc. apply IH. now left.
        -- apply IH. now right.
Qed.

Lemma drop_spaces_suffix p2 p3 l :
  exists dropped, l = (dropped ++ JSString.drop_spaces p2 p3 l)%list.
Proof.
  assert (H : forall n l, (List.length l <= n)%nat ->
    exists dropped, l = (dropped ++ JSString.drop_spaces p2 p3 l)%list).
  { clear l. induction n as [|n IH]; intros l Hn.
    - destruct l; [now exists []|cbn in Hn; lia].
    - destruct l as [|a r1]; [now exists []|]. cbn [JSString.drop_spaces].
      cbn [List.length] in Hn.
      destruct (JSString.space1 a).
      + destruct (IH r1 ltac:(lia)) as (d & Hd).
        exists (a :: d). cbn. now rewrite <- Hd.
      + destruct r1 as [|b r2]; [now exists []|]. cbn [List.length] in Hn.
        destruct (p2 a b).
        * destruct (IH r2 ltac:(lia)) as (d & Hd).
          exists (a :: b :: d). cbn. now rewrite <- Hd.
        * destruct r2 as [|c r3]; [now exists []|]. cbn [List.length] in Hn.
          destruct (p3 a b c); [|now exists []].
          destruct (IH r3 ltac:(lia)) as (d & Hd).
          exists (a :: b :: c :: d). cbn. now rewrite <- Hd. }
  now apply (H (List.length l)).
Qed.

Lemma drop_spaces_no_leading_space p2 p3 l :
  leading_space p2 p3 (JSString.drop_spaces p2 p3 l) = false.
Proof.
  assert (H : forall n l, (List.length l <= n)%nat ->
    leading_space p2 p3 (JSString.drop_spaces p2 p3 l) = false).
  { clear l. induction n as [|n IH]; intros l Hn.
    - destruct l; [reflexivity|cbn in Hn; lia].
    - destruct l as [|a r1]; [reflexivity|]. cbn [JSString.drop_spaces].
      cbn [List.length] in Hn.
      destruct (JSString.space1 a) eqn:H1; [apply IH; lia|].
      destruct r1 as [|b r2]; [cbn; now rewrite H1|]. cbn [List.length] in Hn.
      destruct (p2 a b) eqn:H2; [apply IH; lia|].
      destruct r2 as [|c r3]; [cbn; now rewrite H1, H2|].
      cbn [List.length] in Hn.
      destruct (p3 a b c) eqn:H3; [apply IH; lia|].
      cbn. now rewrite H1, H2, H3. }
  now apply (H (List.length l)).
Qed.

Lemma leading_space_prefix p2 p3 l rest :
  leading_space p2 p3 l = true -> leading_space p2 p3 (l ++ rest)%list = true.
Proof.
  destruct l as [|a [|b [|c l]]]; cbn; try discriminate;
    try (rewrite !orb_false_r; intros ->; reflexivity).
  - destruct (JSString.space1 a); [reflexivity|]. cbn.
    rewrite orb_false_r. intros ->. reflexivity.
  - intros H. exact H.
Qed.

Lemma trimEnd_bytes_prefix l :
  exists dropped, l = (JSString.trimEnd_bytes l ++ dropped)%list.
Proof.
  unfold JSString.trimEnd_bytes.
  destruct (drop_spaces_suffix (fun b a => JSString.space2 a b)
              (fun c b a => JSString.space3 a b c) (rev l)) as (d & Hd).
  exists (rev d). rewrite <- rev_app_distr, <- Hd. now rewrite rev_involutive.
Qed.

Lemma occurrences_bytes c s :
  occurrences c s = O <-> ~ In c (list_ascii_of_string s).
Proof.
  induction s as [|c' rest IH]; cbn [occurrences list_ascii_of_string In].
  - tauto.
  - destruct (Ascii.eqb c' c) eqn:Hc.
    + apply Ascii.eqb_eq in Hc. split; [discriminate|]. intros H. tauto.
    + apply Ascii.eqb_neq in Hc. cbn [Nat.add]. rewrite IH. tauto.
Qed.

(** X17: the recipient list has one entry per comma-separated field of
    [EMAIL_RECIPIENTS], empty fields included: its length is the number of
    commas plus one.  It is never empty (an empty variable gives one empty
    address), and GET / reports that number as [recipients]. *)
Theorem X17_one_recipient_per_field EMAIL_RECIPIENTS :
  List.length (emailList_of EMAIL_RECIPIENTS)
  = S (occurrences "," EMAIL_RECIPIENTS)
  /\ emailList_of EMAIL_RECIPIENTS <> []
  /\ emailList_of EmptyString = [EmptyString]
  /\ get_root (emailList_of EMAIL_RECIPIENTS)
     = {| statusCode := 200;
          json := VObj [("status", VStr "Running");
                        ("nextRun", VStr "9:00 AM Turkey Time");
                        ("recipients",
                         VNum (Z.of_nat (S (occurrences "," EMAIL_RECIPIENTS))))] |}.
Proof.
  assert (Hlength : List.length (emailList_of EMAIL_RECIPIENTS)
                    = S (occurrences "," EMAIL_RECIPIENTS)).
  { unfold emailList_of. now rewrite length_map, split_length. }
  split; [exact Hlength|]. split; [|split].
  - intros Hnil. rewrite Hnil in Hlength. discriminate.
  - reflexivity.
  - unfold get_root. now rewrite Hlength.
Qed.

(** X18: every entry of the recipient list is trimmed and holds no comma:
    it neither starts nor ends with a white space character (the Unicode
    ones included), whatever surrounded it in [EMAIL_RECIPIENTS]. *)
Theorem X18_recipients_are_trimmed EMAIL_RECIPIENTS recipient :
  In recipient (emailList_of EMAIL_RECIPIENTS) ->
  starts_with_space recipient = false
  /\ ends_with_space recipient = false
  /\ occurrences "," recipient = O.
Proof.
  unfold emailList_of. intros Hin. apply in_map_iff in Hin as (field & <- & Hin).
  unfold starts_with_space, ends_with_space, JSString.trim.
  rewrite occurrences_bytes, !list_ascii_of_string_of_list_ascii.
  set (bytes := list_ascii_of_string field).
  split; [|split].
  - destruct (leading_space JSString.space2 JSString.space3
                (JSString.trimEnd_bytes (JSString.trimStart_bytes bytes)))
      eqn:Hlead; [|reflexivity].
    destruct (trimEnd_bytes_prefix (JSString.trimStart_bytes bytes))
      as (dropped & Hd).
    apply (leading_space_prefix _ _ _ dropped) in Hlead.
    rewrite <- Hd in Hlead. unfold JSString.trimStart_bytes in Hlead.
    now rewrite drop_spaces_no_leading_space in Hlead.
  - unfold JSString.trimEnd_bytes. rewrite rev_involutive.
    apply drop_spaces_no_leading_space.
  - intros Hcomma.
    apply split_fields_without_sep in Hin. apply occurrences_bytes in Hin.
    apply Hin. fold bytes.
    destruct (trimEnd_bytes_prefix (JSString.trimStart_bytes bytes))
      as (dropped & Hd).
    destruct (drop_spaces_suffix JSString.space2 JSString.space3 bytes)
      as (dropped' & Hd').
    rewrite Hd'. apply in_or_app. right.
    unfold JSString.trimStart_bytes in Hd. rewrite Hd.
    apply in_or_app. now left.
Qed.

(** X19: splitting loses nothing: the fields of [EMAIL_RECIPIENTS],
    untrimmed and joined by commas again, are the variable itself. *)
Theorem X19_split_then_join_is_the_identity s :
  join "," (JSString.split "," s) = s.
Proof.
  induction s as [|c rest IH]; [reflexivity|].
  cbn [JSString.split]. destruct (Ascii.eqb c ",") eqn:Hc.
  - apply Ascii.eqb_eq in Hc. subst c.
    pose proof (split_not_nil "," rest) as Hnil.
    destruct (JSString.split "," rest) as [|f fields]; [contradiction|].
    change (join "," (EmptyString :: f :: fields))
      with ("," ++ join "," (f :: fields)).
    now rewrite IH.
  - pose proof (split_not_nil "," rest) as Hnil.
    destruct (JSString.split "," rest) as [|f fields]; [contradiction|].
    rewrite <- IH. destruct fields; reflexivity.
Qed.

(** ** Concrete runs

    A runtime to evaluate the service on: the tr-TR formats of a full-ICU
    Node.js in the UTC time zone, a configured endpoint, and scripted
    answers of the workflow engine and of the SMTP transport. *)

Module Sample.

Definition process_env (name : string) : option string :=
  if (name =? "DIFY_API_ENDPOINT")%string then Some "http://dify.local/v1"
  else if (name =? "DIFY_API_KEY")%string then Some "app-key"
  else if (name =? "EMAIL_USER")%string then Some "reports@example.com"
  else None.

Definition emailList : list string := ["ops@example.com"; "team@example.com"].

(** 3 November 2026, 06:00 UTC and [n] minutes. *)
Definition clock (n : nat) : Date :=
  {| getFullYear := 2026; getMonth := 10; getDate := 3;
     getHours := 6; getMinutes := Z.of_nat n; getSeconds := 0;
     getMilliseconds := 0 |}.

Definition pad2 (n : Z) : string :=
  if n <? 10 then "0" ++ Z_to_string n else Z_to_string n.

Definition month_name (m : Z) : string :=
  nth (Z.to_nat m)
    ["Ocak"; "Şubat"; "Mart"; "Nisan"; "Mayıs"; "Haziran"; "Temmuz";
     "Ağustos"; "Eylül"; "Ekim"; "Kasım"; "Aralık"] EmptyString.

Definition tr_TR_date (y m d : Z) : string :=
  pad2 d ++ "." ++ pad2 (m + 1) ++ "." ++ Z_to_string y.

Definition tr_TR_long_date (y m d : Z) : string :=
  Z_to_string d ++ " " ++ month_name m ++ " " ++ Z_to_string y.

Definition time_of_day (d : Date) : string :=
  pad2 (getHours d) ++ ":" ++ pad2 (getMinutes d) ++ ":" ++ pad2 (getSeconds d).

Definition tr_TR_date_time (d : Date) : string :=
  tr_TR_date (getFullYear d) (getMonth d) (getDate d) ++ " " ++ time_of_day d.

Definition toISOString (d : Date) : string :=
  Z_to_string (getFullYear d) ++ "-" ++ pad2 (getMonth d + 1) ++ "-"
    ++ pad2 (getDate d) ++ "T" ++ time_of_day d ++ ".000Z".

(** Answers of the workflow engine to the run request. *)
Definition engine_down : JsError :=
  {| message := "connect ECONNREFUSED 10.0.0.5:80"; response_data := VUndefined |}.

Definition post_refused (n : nat) (url : string) (body : value) : reply value :=
  Reject engine_down.

Definition blocking_data (outputs : value) : value :=
  VObj [("workflow_run_id", VStr "r1");
        ("data", VObj [("status", VStr "succeeded"); ("outputs", outputs)])].

Definition post_blocking (outputs : value) (n : nat) (url : string)
    (body : value) : reply value :=
  Resolve (blocking_data outputs).

(** Answers of the workflow engine to the status requests. *)
Definition get_running (n : nat) (url : string) : reply value :=
  Resolve (VObj [("status", VStr "running")]).

Definition get_queued (n : nat) (url : string) : reply value :=
  Resolve (VObj [("status", VStr "queued")]).

Definition failed_data : value :=
  VObj [("status", VStr "failed"); ("error", VStr "node 3 crashed")].

Definition get_running_then_failed (n : nat) (url : string) : reply value :=
  match n with
  | O => Resolve (VObj [("status", VStr "running")])
  | _ => Resolve failed_data
  end.

(** Answers of the SMTP transport. *)
Definition smtp_ok (n : nat) (opts : mailOptions) : reply value :=
  Resolve (VObj [("messageId", VStr "<1@example.com>")]).


(** The service in these runtimes. *)
Definition wait (gets : nat -> string -> reply value) :=
  waitForWorkflowCompletion process_env gets.

Definition format := formatReport process_env clock tr_TR_long_date.

Definition try_block (posts : nat -> string -> value -> reply value)
    (gets : nat -> string -> reply value)
    (smtp : nat -> mailOptions -> reply value) : M unit :=
  pipeline process_env clock posts gets smtp
    tr_TR_date tr_TR_long_date toISOString emailList.

Definition run (posts : nat -> string -> value -> reply value)
    (gets : nat -> string -> reply value)
    (smtp : nat -> mailOptions -> reply value) : M unit :=
  runDailyReport process_env clock posts gets smtp
    tr_TR_date tr_TR_long_date tr_TR_date_time toISOString emailList.

Definition trigger (posts : nat -> string -> value -> reply value)
    (gets : nat -> string -> reply value)
    (smtp : nat -> mailOptions -> reply value) : M response :=
  post_trigger process_env clock posts gets smtp
    tr_TR_date tr_TR_long_date tr_TR_date_time toISOString emailList.

(** The status URL of run "r1", and its status request. *)
Definition r1_url : string := "http://dify.local/v1/workflows/run/r1".

Definition poll : call :=
  AxiosGet r1_url [("Authorization", "Bearer app-key")].

(** Answers that hold a value no template literal can show: a mapping
    with a member named toString. *)
Definition unprintable : value := VObj [("toString", VNull)].

Definition failed_unprintable : value :=
  VObj [("status", VStr "failed"); ("error", unprintable)].

Definition get_failed_unprintable (n : nat) (url : string) : reply value :=
  Resolve failed_unprintable.

Definition get_unprintable_status (n : nat) (url : string) : reply value :=
  Resolve (VObj [("status", unprintable)]).

(** The end-to-end scenario of the specification: the run request is
    answered with a run identifier only, the first poll says running, the
    second succeeded with outputs [{report: "X"}]. *)
Definition post_async (n : nat) (url : string) (body : value) : reply value :=
  Resolve (VObj [("workflow_run_id", VStr "r1"); ("task_id", VStr "t1")]).

Definition get_running_then_succeeded (n : nat) (url : string) : reply value :=
  match n with
  | O => Resolve (VObj [("status", VStr "running")])
  | _ => Resolve (VObj [("status", VStr "succeeded");
                        ("outputs", VObj [("report", VStr "X")])])
  end.

(** More answers: an empty body, an answer without run identifier, a
    status request refused after one poll. *)
Definition post_null (n : nat) (url : string) (body : value) : reply value :=
  Resolve VNull.

Definition post_no_id (n : nat) (url : string) (body : value) : reply value :=
  Resolve (VObj [("data", VObj [("status", VStr "failed")])]).

Definition gateway_error : JsError :=
  {| message := "Request failed with status code 502";
     response_data := VObj [("code", VStr "bad_gateway")] |}.

Definition get_running_then_refused (n : nat) (url : string) : reply value :=
  match n with
  | O => Resolve (VObj [("status", VStr "running")])
  | _ => Reject gateway_error
  end.

Definition start (posts : nat -> string -> value -> reply value) : M value :=
  triggerDifyWorkflow process_env clock posts tr_TR_date toISOString.

Definition run_request : call :=
  AxiosPost "http://dify.local/v1/workflows/run"
    (VObj [("inputs",
            VObj [("date", VStr "03.11.2026");
                  ("timestamp", VStr "2026-11-03T06:01:00.000Z");
                  ("report_type", VStr "daily")]);
           ("response_mode", VStr "blocking");
           ("user", VStr "daily-report-system")])
    [("Authorization", "Bearer app-key");
     ("Content-Type", "application/json")].

End Sample.

(** ** The statements on concrete runs *)

(** A run that reports running, then failed: two polls, one sleep, and the
    WorkflowFailed error. *)
Lemma C1_witness :
  Sample.wait Sample.get_running_then_failed (VStr "r1") 30 10000 []
  = (Throw (Error "Workflow failed: node 3 crashed"),
     [Sample.poll;
      ConsoleLog [VStr "Checking workflow status: running (attempt 1/30)"];
      SetTimeout 10000;
      Sample.poll;
      ConsoleLog [VStr "Checking workflow status: failed (attempt 2/30)"];
      ConsoleError [VStr "Error checking workflow status:";
                    VStr "Workflow failed: node 3 crashed"]])
  /\ count is_AxiosGet
       (snd (Sample.wait Sample.get_running_then_failed (VStr "r1") 30 10000 []))
     = 2%nat
  /\ count is_SetTimeout
       (snd (Sample.wait Sample.get_running_then_failed (VStr "r1") 30 10000 []))
     = 1%nat.
Proof.
  destruct (C1_failed_or_stopped_throws_at_once
              Sample.process_env Sample.get_running_then_failed
              (VStr "r1") Sample.r1_url 30 10000 [] 1 Sample.failed_data
              "failed" (VStr "node 3 crashed"))
    as (Hrun & Hgets & Hsleeps & _).
  - reflexivity.
  - reflexivity.
  - vm_compute. discriminate.
  - lia.
  - intros j Hj. assert (j = O) by lia. subst j. reflexivity.
  - reflexivity.
  - reflexivity.
  - left. reflexivity.
  - reflexivity.
  - unfold Sample.wait. rewrite Hrun. cbn [snd].
    split; [reflexivity|]. split; [exact Hgets|exact Hsleeps].
Defined.

(** C1 as stated fails on an answer whose [error] member cannot be
    converted to a string: the poll reports failed, and what
    [waitForWorkflowCompletion] throws is not the WorkflowFailed error but
    the TypeError of the conversion (still at once: one poll, no sleep). *)
Lemma C1_counterexample_unprintable_error :
  get Sample.failed_unprintable "status" = Some (VStr "failed")
  /\ Sample.wait Sample.get_failed_unprintable (VStr "r1") 30 10000 []
     = (Throw (Error "Cannot convert object to primitive value"),
        [Sample.poll;
         ConsoleLog [VStr "Checking workflow status: failed (attempt 1/30)"];
         ConsoleError [VStr "Error checking workflow status:";
                       VStr "Cannot convert object to primitive value"]])
  /\ String.prefix "Workflow failed"
       "Cannot convert object to primitive value" = false.
Proof. repeat split; vm_compute; reflexivity. Qed.

(** Three attempts on a run that stays running: three polls, then the
    WorkflowTimeout error. *)
Lemma C2_witness :
  Sample.wait Sample.get_running (VStr "r1") 3 10000 []
  = (Throw (Error "Workflow timeout - exceeded maximum attempts"),
     [Sample.poll;
      ConsoleLog [VStr "Checking workflow status: running (attempt 1/3)"];
      SetTimeout 10000;
      Sample.poll;
      ConsoleLog [VStr "Checking workflow status: running (attempt 2/3)"];
      SetTimeout 10000;
      Sample.poll;
      ConsoleLog [VStr "Checking workflow status: running (attempt 3/3)"];
      SetTimeout 10000])
  /\ count is_AxiosGet
       (snd (Sample.wait Sample.get_running (VStr "r1") 3 10000 []))
     = 3%nat.
Proof.
  destruct (C2_running_for_all_attempts_times_out
              Sample.process_env Sample.get_running (VStr "r1")
              Sample.r1_url 3 10000 [])
    as (Hrun & Hgets & _).
  - split; [lia|vm_compute; discriminate].
  - reflexivity.
  - reflexivity.
  - intros j Hj. reflexivity.
  - unfold Sample.wait. rewrite Hrun. cbn [snd].
    split; [reflexivity|]. apply Nat2Z.inj. rewrite Hgets. reflexivity.
Defined.

(** No run identifier: nothing happens. *)
Lemma C6_witness :
  Sample.wait Sample.get_running VUndefined 30 10000 [] = (Ok VNull, [])
  /\ Sample.wait Sample.get_running (VStr EmptyString) 30 10000 [] = (Ok VNull, []).
Proof.
  split; apply C6_no_run_identifier_is_a_no_op; reflexivity.
Defined.

(** A run that stays "queued", a status the loop does not know. *)
Lemma C9_witness :
  Sample.wait Sample.get_queued (VStr "r1") 2 500 []
  = (Throw (Error "Workflow timeout - exceeded maximum attempts"),
     [Sample.poll;
      ConsoleLog [VStr "Checking workflow status: queued (attempt 1/2)"];
      SetTimeout 500;
      Sample.poll;
      ConsoleLog [VStr "Checking workflow status: queued (attempt 2/2)"];
      SetTimeout 500]).
Proof.
  destruct (C9_unrecognized_status_sleeps_and_repolls
              Sample.process_env Sample.get_queued (VStr "r1")
              Sample.r1_url 2 500 [] 2)
    as (_ & _ & Htimeout & _).
  - reflexivity.
  - reflexivity.
  - vm_compute. discriminate.
  - apply Nat.le_refl.
  - intros j Hj. reflexivity.
  - unfold Sample.wait. rewrite Htimeout; reflexivity.
Defined.

(** C9 as stated fails on a status that cannot be converted to a string:
    it is none of succeeded, failed and stopped, yet the turn neither
    sleeps nor polls again, and the call ends in the TypeError of the
    conversion, not in the timeout error. *)
Lemma C9_counterexample_unprintable_status :
  unrecognized_status Sample.unprintable = true
  /\ Sample.wait Sample.get_unprintable_status (VStr "r1") 2 500 []
     = (Throw (Error "Cannot convert object to primitive value"),
        [Sample.poll;
         ConsoleError [VStr "Error checking workflow status:";
                       VStr "Cannot convert object to primitive value"]])
  /\ count is_SetTimeout
       (snd (Sample.wait Sample.get_unprintable_status (VStr "r1") 2 500 []))
     = O.
Proof. repeat split; vm_compute; reflexivity. Qed.

(** C3: with the workflow engine unreachable the pipeline fails with the
    connection error, and POST /trigger still answers 200 with the success
    body: the handler's 500 branch stays unused, because [runDailyReport]
    has caught the error (and mailed the error notification) before the
    handler could see it. *)
Theorem C3_trigger_answers_200_when_the_pipeline_fails :
  fst (Sample.try_block Sample.post_refused Sample.get_running Sample.smtp_ok
         [NewDate;
          ConsoleLog [VStr "[2026-11-03T06:00:00.000Z] Starting daily report generation..."]])
  = Throw Sample.engine_down
  /\ fst (Sample.trigger Sample.post_refused Sample.get_running Sample.smtp_ok [])
     = Ok {| statusCode := 200;
             json := VObj [("status", VStr "Report sent successfully")] |}
  /\ map html
       (mails (snd (Sample.trigger Sample.post_refused Sample.get_running
                      Sample.smtp_ok [])))
     = [errorHtml "03.11.2026 06:04:00" "connect ECONNREFUSED 10.0.0.5:80" "N/A"].
Proof. repeat split; vm_compute; reflexivity. Qed.


(** A blocking-mode answer with outputs [{text: "Hello"}]: one POST, no
    GET, and the report mail carries "Hello". *)
Lemma C5_witness :
  exists tr',
    Sample.run (Sample.post_blocking (VObj [("text", VStr "Hello")]))
      Sample.get_running Sample.smtp_ok [] = (Ok tt, tr')
    /\ count is_AxiosGet tr' = O
    /\ count is_SetTimeout tr' = O
    /\ count is_AxiosPost tr' = 1%nat
    /\ exists rest,
        map html (mails tr')
        = htmlContent "3 Kasım 2026" "Hello" "2026" "Şirketiniz" :: rest.
Proof.
  destruct (C5_blocking_result_skips_polling
              Sample.process_env Sample.clock
              (Sample.post_blocking (VObj [("text", VStr "Hello")]))
              Sample.get_running Sample.smtp_ok
              Sample.tr_TR_date Sample.tr_TR_long_date Sample.tr_TR_date_time
              Sample.toISOString Sample.emailList []
              (Sample.blocking_data (VObj [("text", VStr "Hello")])))
    as (tr' & Hrun & _ & Hgets & Hsleeps & Hposts & Hreport & _).
  - reflexivity.
  - reflexivity.
  - reflexivity.
  - destruct (Hreport "Hello" eq_refl) as (rest & Hmails).
    exists tr'. repeat split; try assumption.
    exists (map html rest). rewrite Hmails. vm_compute. reflexivity.
Defined.

(** The final output of a poll, [{outputs: {content: "C", report: "X"},
    ...}]: the body is "X", and the document holds no [<pre>] block. *)
Lemma C7_witness :
  Sample.format
    (VObj [("outputs", VObj [("content", VStr "C"); ("report", VStr "X")]);
           ("status", VStr "succeeded")]) []
  = (Ok (htmlContent "3 Kasım 2026" "X" "2026" "Şirketiniz"),
     [NewDate; NewDate])
  /\ occurs "<pre>" (htmlContent "3 Kasım 2026" "X" "2026" "Şirketiniz") = false.
Proof.
  destruct (C7_formatReport_key_priority
              Sample.process_env Sample.clock Sample.tr_TR_long_date [])
    as (Hpolicy & _).
  unfold Sample.format.
  rewrite (Hpolicy _ (VObj [("content", VStr "C"); ("report", VStr "X")]))
    by reflexivity.
  split; vm_compute; reflexivity.
Defined.

(** Two calls on the same day, minutes apart: the same document. *)
Lemma C8_witness :
  fst (Sample.format (VObj [("text", VStr "Hello")]) [])
  = fst (Sample.format (VObj [("text", VStr "Hello")])
           [NewDate; ConsoleLog []; NewDate; NewDate])
  /\ filter not_NewDate (snd (Sample.format (VObj [("text", VStr "Hello")]) []))
     = []
  /\ filter not_NewDate
       (snd (Sample.format (VObj [("text", VStr "Hello")])
               [NewDate; ConsoleLog []; NewDate; NewDate]))
     = [ConsoleLog []].
Proof.
  apply (C8_formatReport_deterministic
           Sample.process_env Sample.clock Sample.tr_TR_long_date
           (VObj [("text", VStr "Hello")])
           [] [NewDate; ConsoleLog []; NewDate; NewDate]);
    reflexivity.
Defined.

(** A blocking-mode answer with no outputs and run identifier "r1": the
    run is polled (here: running, then failed). *)
Lemma C10_witness :
  (exists rest,
      snd (Sample.try_block (Sample.post_blocking VUndefined)
             Sample.get_running_then_failed Sample.smtp_ok [])
      = [ConsoleLog [VStr "Triggering Dify workflow..."];
         NewDate;
         NewDate;
         AxiosPost "http://dify.local/v1/workflows/run"
           (VObj [("inputs",
                   VObj [("date", VStr "03.11.2026");
                         ("timestamp", VStr "2026-11-03T06:01:00.000Z");
                         ("report_type", VStr "daily")]);
                  ("response_mode", VStr "blocking");
                  ("user", VStr "daily-report-system")])
           [("Authorization", "Bearer app-key");
            ("Content-Type", "application/json")];
         ConsoleLog [VStr "Workflow response received:"; VStr "r1"];
         ConsoleLog [VStr "Workflow triggered successfully"];
         ConsoleLog [VStr "Workflow run ID:"; VStr "r1"];
         Sample.poll] ++ rest)%list.
Proof.
  destruct (C10_falsy_outputs_are_not_the_result
              Sample.process_env Sample.clock
              (Sample.post_blocking VUndefined)
              Sample.get_running_then_failed Sample.smtp_ok
              Sample.tr_TR_date Sample.tr_TR_long_date
              Sample.toISOString Sample.emailList []
              (Sample.blocking_data VUndefined))
    as (Hpoll & _).
  - reflexivity.
  - reflexivity.
  - reflexivity.
  - destruct (Hpoll eq_refl) as (_ & Hrequest & _).
    destruct (Hrequest Sample.r1_url eq_refl) as (rest & Hrest).
    exists rest. unfold Sample.try_block. rewrite Hrest. reflexivity.
Defined.

(** C10 as stated fails on an empty outputs mapping: [{}] is truthy, so a
    blocking-mode answer [{workflow_run_id: "r1", data: {status:
    "succeeded", outputs: {}}}] is the pipeline's result although it
    carries a run identifier.  The run is never polled and the report mailed
    is the one rendered from the empty mapping. *)
Lemma C10_counterexample_empty_mapping :
  blocking_succeeded (Sample.blocking_data (VObj [])) = true
  /\ blocking_outputs (Sample.blocking_data (VObj [])) = VObj []
  /\ run_id (Sample.blocking_data (VObj [])) = VStr "r1"
  /\ fst (Sample.try_block (Sample.post_blocking (VObj []))
            Sample.get_running Sample.smtp_ok []) = Ok tt
  /\ count is_AxiosGet
       (snd (Sample.try_block (Sample.post_blocking (VObj []))
               Sample.get_running Sample.smtp_ok [])) = O
  /\ map html
       (mails (snd (Sample.try_block (Sample.post_blocking (VObj []))
                      Sample.get_running Sample.smtp_ok [])))
     = [htmlContent "3 Kasım 2026" "<pre>{}</pre>" "2026" "Şirketiniz"].
Proof. repeat split; vm_compute; reflexivity. Qed.
(** ** The further statements on concrete runs *)

Lemma X1_witness :
  Sample.start Sample.post_refused []
  = (Throw Sample.engine_down,
     [ConsoleLog [VStr "Triggering Dify workflow..."];
      NewDate; NewDate; Sample.run_request;
      ConsoleError [VStr "Error triggering Dify workflow:";
                    VStr "connect ECONNREFUSED 10.0.0.5:80"]]).
Proof.
  exact (X1_rejected_run_request_is_rethrown
           Sample.process_env Sample.clock Sample.post_refused
           Sample.tr_TR_date Sample.toISOString [] Sample.engine_down eq_refl).
Defined.

Lemma X2_witness :
  Sample.start Sample.post_async []
  = (Ok (VObj [("workflow_run_id", VStr "r1"); ("task_id", VStr "t1")]),
     [ConsoleLog [VStr "Triggering Dify workflow..."];
      NewDate; NewDate; Sample.run_request;
      ConsoleLog [VStr "Workflow response received:"; VStr "r1"]])
  /\ Sample.start Sample.post_no_id []
     = (Ok (VObj [("workflow_run_id", VUndefined); ("task_id", VUndefined)]),
        [ConsoleLog [VStr "Triggering Dify workflow..."];
         NewDate; NewDate; Sample.run_request;
         ConsoleLog [VStr "Workflow response received:"; VStr "completed"]]).
Proof.
  split.
  - exact (X2_other_answers_keep_only_the_identifiers
             Sample.process_env Sample.clock Sample.post_async
             Sample.tr_TR_date Sample.toISOString []
             (VObj [("workflow_run_id", VStr "r1"); ("task_id", VStr "t1")])
             eq_refl eq_refl eq_refl).
  - exact (X2_other_answers_keep_only_the_identifiers
             Sample.process_env Sample.clock Sample.post_no_id
             Sample.tr_TR_date Sample.toISOString []
             (VObj [("data", VObj [("status", VStr "failed")])])
             eq_refl eq_refl eq_refl).
Defined.

Lemma X3_witness :
  Sample.start Sample.post_null []
  = (Throw (Error "Cannot read properties of null (reading 'workflow_run_id')"),
     [ConsoleLog [VStr "Triggering Dify workflow..."];
      NewDate; NewDate; Sample.run_request;
      ConsoleError
        [VStr "Error triggering Dify workflow:";
         VStr "Cannot read properties of null (reading 'workflow_run_id')"]]).
Proof.
  exact (X3_empty_answer_is_a_TypeError
           Sample.process_env Sample.clock Sample.post_null
           Sample.tr_TR_date Sample.toISOString [] VNull eq_refl eq_refl).
Defined.

Lemma X4_witness :
  Sample.wait Sample.get_running_then_succeeded (VStr "r1") 30 10000 []
  = (Ok (VObj [("outputs", VObj [("report", VStr "X")]);
               ("status", VStr "succeeded");
               ("elapsed_time", VUndefined);
               ("total_tokens", VUndefined)]),
     [Sample.poll;
      ConsoleLog [VStr "Checking workflow status: running (attempt 1/30)"];
      SetTimeout 10000;
      Sample.poll;
      ConsoleLog [VStr "Checking workflow status: succeeded (attempt 2/30)"]]).
Proof.
  destruct (X4_succeeded_poll_returns_its_outputs
              Sample.process_env Sample.get_running_then_succeeded
              (VStr "r1") Sample.r1_url 30 10000 [] 1
              (VObj [("status", VStr "succeeded");
                     ("outputs", VObj [("report", VStr "X")])]))
    as (Hrun & _).
  - reflexivity.
  - reflexivity.
  - vm_compute. discriminate.
  - lia.
  - intros j Hj. assert (j = O) by lia. subst j. reflexivity.
  - reflexivity.
  - reflexivity.
  - exact Hrun.
Defined.

Lemma X5_witness :
  Sample.wait Sample.get_running_then_refused (VStr "r1") 30 10000 []
  = (Throw Sample.gateway_error,
     [Sample.poll;
      ConsoleLog [VStr "Checking workflow status: running (attempt 1/30)"];
      SetTimeout 10000;
      Sample.poll;
      ConsoleError [VStr "Error checking workflow status:";
                    VObj [("code", VStr "bad_gateway")]]]).
Proof.
  destruct (X5_rejected_status_request_is_not_retried
              Sample.process_env Sample.get_running_then_refused
              (VStr "r1") Sample.r1_url 30 10000 [] 1 Sample.gateway_error)
    as (Hrun & _).
  - reflexivity.
  - reflexivity.
  - vm_compute. discriminate.
  - lia.
  - intros j Hj. assert (j = O) by lia. subst j. reflexivity.
  - reflexivity.
  - exact Hrun.
Defined.

Lemma X7_witness :
  from_succeeded_poll Sample.process_env Sample.get_running_then_succeeded
    1 (VStr "r1")
    (VObj [("outputs", VObj [("report", VStr "X")]);
           ("status", VStr "succeeded");
           ("elapsed_time", VUndefined);
           ("total_tokens", VUndefined)]).
Proof.
  destruct (X7_a_result_comes_from_a_succeeded_poll
              Sample.process_env Sample.get_running_then_succeeded
              (VStr "r1") 30 10000 []
              (VObj [("outputs", VObj [("report", VStr "X")]);
                     ("status", VStr "succeeded");
                     ("elapsed_time", VUndefined);
                     ("total_tokens", VUndefined)])
              [Sample.poll;
               ConsoleLog [VStr "Checking workflow status: running (attempt 1/30)"];
               SetTimeout 10000;
               Sample.poll;
               ConsoleLog [VStr "Checking workflow status: succeeded (attempt 2/30)"]]
              eq_refl)
    as [(Hfalsy & _)|(_ & Hfrom & _)].
  - discriminate Hfalsy.
  - exact Hfrom.
Defined.

Lemma X11_witness :
  fst (Sample.run Sample.post_async Sample.get_running_then_succeeded
         Sample.smtp_ok []) = Ok tt
  /\ exists rest,
      map html
        (mails (snd (Sample.run Sample.post_async
                       Sample.get_running_then_succeeded Sample.smtp_ok [])))
      = htmlContent "3 Kasım 2026" "X" "2026" "Şirketiniz" :: rest.
Proof.
  destruct (X11_polled_outputs_become_the_report
              Sample.process_env Sample.clock Sample.post_async
              Sample.get_running_then_succeeded Sample.smtp_ok
              Sample.tr_TR_date Sample.tr_TR_long_date Sample.tr_TR_date_time
              Sample.toISOString Sample.emailList []
              (VObj [("workflow_run_id", VStr "r1"); ("task_id", VStr "t1")])
              Sample.r1_url 1
              (VObj [("status", VStr "succeeded");
                     ("outputs", VObj [("report", VStr "X")])])
              "X")
    as (ext & rest & Hrun & _ & _ & _ & Hmails).
  - reflexivity.
  - reflexivity.
  - reflexivity.
  - reflexivity.
  - reflexivity.
  - lia.
  - intros j Hj. assert (j = O) by lia. subst j. reflexivity.
  - reflexivity.
  - reflexivity.
  - reflexivity.
  - unfold Sample.run. rewrite Hrun. cbn [fst snd]. split; [reflexivity|].
    exists (map html rest). rewrite Hmails. vm_compute. reflexivity.
Defined.

Lemma X12_witness :
  map html
    (mails (snd (Sample.run Sample.post_async Sample.get_running_then_failed
                   Sample.smtp_ok [])))
  = [errorHtml "03.11.2026 06:04:00" "Workflow failed: node 3 crashed" "N/A"].
Proof.
  destruct (X12_failed_workflow_sends_only_the_error_mail
              Sample.process_env Sample.clock Sample.post_async
              Sample.get_running_then_failed Sample.smtp_ok
              Sample.tr_TR_date Sample.tr_TR_long_date Sample.tr_TR_date_time
              Sample.toISOString Sample.emailList []
              (VObj [("workflow_run_id", VStr "r1"); ("task_id", VStr "t1")])
              Sample.r1_url 1 Sample.failed_data "failed")
    as (tr1 & ext & Hpipeline & Hrun & Hmails & _).
  - reflexivity.
  - reflexivity.
  - reflexivity.
  - reflexivity.
  - reflexivity.
  - lia.
  - intros j Hj. assert (j = O) by lia. subst j. reflexivity.
  - reflexivity.
  - reflexivity.
  - left. reflexivity.
  - unfold Sample.run. rewrite Hrun. cbn [snd]. rewrite Hmails.
    injection Hpipeline as <-. vm_compute. reflexivity.
Defined.

Lemma X13_witness :
  count is_AxiosGet
    (snd (Sample.run Sample.post_async Sample.get_running Sample.smtp_ok []))
  = 30%nat
  /\ slept (snd (Sample.run Sample.post_async Sample.get_running
                   Sample.smtp_ok []))
     = 300000
  /\ map html
       (mails (snd (Sample.run Sample.post_async Sample.get_running
                      Sample.smtp_ok [])))
     = [errorHtml "03.11.2026 06:04:00"
          "Workflow timeout - exceeded maximum attempts" "N/A"].
Proof.
  destruct (X13_a_stuck_workflow_times_out_after_five_minutes
              Sample.process_env Sample.clock Sample.post_async
              Sample.get_running Sample.smtp_ok
              Sample.tr_TR_date Sample.tr_TR_long_date Sample.tr_TR_date_time
              Sample.toISOString Sample.emailList []
              (VObj [("workflow_run_id", VStr "r1"); ("task_id", VStr "t1")])
              Sample.r1_url)
    as (ext & _ & Hrun & Hgets & Hslept & Hmails & _).
  - reflexivity.
  - reflexivity.
  - reflexivity.
  - reflexivity.
  - reflexivity.
  - intros j Hj. reflexivity.
  - unfold Sample.run. rewrite Hrun. cbn [snd].
    rewrite Hgets, Hslept, Hmails.
    split; [reflexivity|]. split; [reflexivity|]. vm_compute. reflexivity.
Defined.

Lemma X14_witness :
  fst (Sample.try_block Sample.post_no_id Sample.get_running Sample.smtp_ok
         [NewDate;
          ConsoleLog [VStr "[2026-11-03T06:00:00.000Z] Starting daily report generation..."]])
  = Throw (Error "Invalid workflow response - no outputs or run ID")
  /\ count is_AxiosGet
       (snd (Sample.run Sample.post_no_id Sample.get_running Sample.smtp_ok []))
     = O
  /\ map html
       (mails (snd (Sample.run Sample.post_no_id Sample.get_running
                      Sample.smtp_ok [])))
     = [errorHtml "03.11.2026 06:04:00"
          "Invalid workflow response - no outputs or run ID" "N/A"].
Proof.
  destruct (X14_no_result_and_no_run_identifier_is_an_error
              Sample.process_env Sample.clock Sample.post_no_id
              Sample.get_running Sample.smtp_ok
              Sample.tr_TR_date Sample.tr_TR_long_date Sample.tr_TR_date_time
              Sample.toISOString Sample.emailList []
              (VObj [("data", VObj [("status", VStr "failed")])]))
    as (ext & Hpipeline & Hrun & Hgets & Hmails).
  - reflexivity.
  - reflexivity.
  - reflexivity.
  - reflexivity.
  - unfold Sample.run, Sample.try_block.
    change [NewDate;
            ConsoleLog [VStr "[2026-11-03T06:00:00.000Z] Starting daily report generation..."]]
      with ([] ++ starting_calls Sample.clock Sample.toISOString [])%list.
    rewrite Hpipeline, Hrun. cbn [fst snd]. rewrite Hgets, Hmails.
    split; [reflexivity|]. split; [reflexivity|]. vm_compute. reflexivity.
Defined.

Lemma X16_witness :
  exists document,
    fst (Sample.format
           (succeeded_result (VObj [("status", VStr "succeeded");
                                    ("elapsed_time", VNum 12)])) [])
    = Ok document
    /\ occurs ("<pre>{" ++ nl ++ "  " ++ dq ++ "status" ++ dq ++ ": " ++ dq
                 ++ "succeeded" ++ dq ++ "," ++ nl ++ "  " ++ dq
                 ++ "elapsed_time" ++ dq ++ ": 12" ++ nl ++ "}</pre>")
         document = true.
Proof.
  destruct (X16_succeeded_without_outputs_reports_the_raw_result
              Sample.process_env Sample.clock Sample.tr_TR_long_date
              (VObj [("status", VStr "succeeded"); ("elapsed_time", VNum 12)])
              [])
    as (Hrun & _).
  - reflexivity.
  - unfold Sample.format. rewrite Hrun. cbn [fst]. eexists.
    split; [reflexivity|]. vm_compute. reflexivity.
Defined.

Lemma X18_witness :
  emailList_of " ops@example.com ,	team@example.com,"
  = ["ops@example.com"; "team@example.com"; EmptyString]
  /\ starts_with_space "team@example.com" = false
  /\ ends_with_space "team@example.com" = false
  /\ occurrences "," "team@example.com" = O.
Proof.
  split; [reflexivity|].
  apply (X18_recipients_are_trimmed " ops@example.com ,	team@example.com,").
  right. left. reflexivity.
Defined.

Lemma X21_witness :
  Sample.wait Sample.get_running Sample.unprintable 30 10000 []
  = (Throw (Error "Cannot convert object to primitive value"),
     [ConsoleError [VStr "Error checking workflow status:";
                    VStr "Cannot convert object to primitive value"]]).
Proof.
  destruct (X21_unprintable_run_id_is_never_polled
              Sample.process_env Sample.get_running
              Sample.unprintable 30 10000 [])
    as (_ & Hrun).
  - reflexivity.
  - lia.
  - exact Hrun.
Defined.

(** The end-to-end scenario: two polls, one sleep, and exactly one mail,
    whose document carries "X". *)
Example end_to_end_scenario :
  let tr := snd (Sample.run Sample.post_async Sample.get_running_then_succeeded
                   Sample.smtp_ok []) in
  fst (Sample.run Sample.post_async Sample.get_running_then_succeeded
         Sample.smtp_ok []) = Ok tt
  /\ count is_AxiosGet tr = 2%nat
  /\ count is_SetTimeout tr = 1%nat
  /\ map html (mails tr) = [htmlContent "3 Kasım 2026" "X" "2026" "Şirketiniz"]
  /\ occurs "X" (htmlContent "3 Kasım 2026" "X" "2026" "Şirketiniz") = true.
Proof. repeat split; vm_compute; reflexivity. Qed.

(** [JSON.stringify(v, null, 2)] on nested values. *)
Example stringify_nested :
  JSON_stringify_indent
    (VObj [("a", VArr [VNum 1; VUndefined; VStr "x"]); ("b", VObj []);
           ("c", VUndefined); ("d", VObj [("e", VNull)])]) 2
  = Some ("{" ++ nl ++ "  " ++ dq ++ "a" ++ dq ++ ": [" ++ nl
          ++ "    1," ++ nl ++ "    null," ++ nl ++ "    " ++ dq ++ "x" ++ dq ++ nl
          ++ "  ]," ++ nl
          ++ "  " ++ dq ++ "b" ++ dq ++ ": {}," ++ nl
          ++ "  " ++ dq ++ "d" ++ dq ++ ": {" ++ nl
          ++ "    " ++ dq ++ "e" ++ dq ++ ": null" ++ nl ++ "  }" ++ nl ++ "}").
Proof. reflexivity. Qed.

(** Number::toString on integers: plain digits up to 21 of them, rounded
    to the nearest Number beyond 2^53, the exponent form from 1e21 on. *)
Example Number_toString_examples :
  map Number_toString
    [0; -5; 2026; 2 ^ 53; 2 ^ 53 + 1; 2 ^ 53 + 3; 2 ^ 60;
     1000000000000000128; 10 ^ 21 - 1; 10 ^ 21; 2 ^ 70; 10 ^ 23;
     - (10 ^ 400)]
  = ["0"; "-5"; "2026"; "9007199254740992"; "9007199254740992";
     "9007199254740996"; "1152921504606847000"; "1000000000000000100";
     "1e+21"; "1e+21"; "1.1805916207174113e+21"; "1e+23"; "-Infinity"].
Proof. vm_compute. reflexivity. Qed.

(** The conversion to a string: lists join their elements, a mapping shows
    as "[object Object]" unless it holds an own [toString] member, which
    makes the conversion throw, also from inside a list. *)
Example ToString_examples :
  map ToString
    [VArr [VNum 1; VNull; VArr [VStr "a"; VUndefined]; VBool true];
     VObj [("valueOf", VNum 1)];
     VObj [("toString", VNull)];
     VArr [VNum 1; VObj [("a", VNum 1); ("toString", VStr "x")]]]
  = [Some "1,,a,,true"; Some "[object Object]"; None; None].
Proof. vm_compute. reflexivity. Qed.

(** [JSON.stringify] writes a number that is not finite as [null]. *)
Example stringify_numbers :
  JSON_stringify (VArr [VNum (10 ^ 21); VNum (2 ^ 1024); VNum (-3)])
  = Some "[1e+21,null,-3]".
Proof. vm_compute. reflexivity. Qed.
